(** * MG-Nexus backend: the profile-resolution handlers of [src/backend/server.js]

    A shallow embedding of the seven [/api/<platform>/:username] handlers and
    of the helpers they define inline, followed by the properties of the
    resolution pipeline that are checked against it.

    Conventions of the embedding.
    - A JavaScript string is the list of its UTF-16 code units ([jsstring]).
    - A JavaScript value handed to [res.json] is a [Value]; an object keeps its
      properties in insertion order.
    - [Math.random], the remote servers and the clock are inputs: a stream of
      draws, the outcome of each [axios] call, a timestamp.
    - A handler runs in a small monad that threads the random stream and
      carries the completion of the JavaScript code: a normal value or a
      thrown exception.
    - The middleware in front of the handlers (JSON body parser, CORS, rate
      limiter) is not part of the embedding. *)

From Stdlib Require Import String Ascii DecimalString.
From Stdlib Require Import List NArith ZArith Arith Lia Bool.
Import ListNotations.

(* ================================================================== *)
(** ** Strings as sequences of UTF-16 code units *)
(* ================================================================== *)

Definition codeunit := N.
Definition jsstring := list codeunit.

(** A source literal made of ASCII characters. *)
Definition js (s : string) : jsstring :=
  map N_of_ascii (list_ascii_of_string s).
Arguments js s%_string.

Definition unit_eqb (a b : codeunit) : bool := N.eqb a b.

Fixpoint str_eqb (a b : jsstring) : bool :=
  match a, b with
  | [], [] => true
  | x :: a', y :: b' => unit_eqb x y && str_eqb a' b'
  | _, _ => false
  end.

(** [s[i]]: the code unit at index [i], [undefined] ([None]) out of range. *)
Definition charAtIndex (s : jsstring) (i : nat) : option codeunit :=
  nth_error s i.

(** [x !== y] on two results of indexing. *)
Definition strictNe (x y : option codeunit) : bool :=
  match x, y with
  | Some a, Some b => negb (unit_eqb a b)
  | None, None => false
  | _, _ => true
  end.

(* ================================================================== *)
(** ** The string similarity matcher: [compareDistance] (server.js 655-671) *)
(* ================================================================== *)

(** [Math.min(a, b, c)] on the row entries, which are natural numbers. *)
Definition min3 (a b c : nat) : nat := Nat.min (Nat.min a b) c.

(** One pass of the inner loop [for (let j = 0; j < s2.length; j++)]:
    the three candidates are read from the two rows and the minimum is
    pushed on [currentRow]. *)
Definition innerStep (s1 s2 : jsstring) (i : nat) (previousRow : list nat)
    (currentRow : list nat) (j : nat) : list nat :=
  let insertions := nth (j + 1) previousRow 0 + 1 in
  let deletions := nth j currentRow 0 + 1 in
  let substitutions :=
    nth j previousRow 0
    + (if strictNe (charAtIndex s1 i) (charAtIndex s2 j) then 1 else 0) in
  currentRow ++ [min3 insertions deletions substitutions].

(** One pass of the outer loop: [currentRow] starts as [[i + 1]], the inner
    loop fills it, and it becomes the next [previousRow]. *)
Definition outerStep (s1 s2 : jsstring) (previousRow : list nat) (i : nat)
    : list nat :=
  fold_left (innerStep s1 s2 i previousRow) (seq 0 (length s2)) [i + 1].

(** The body of [compareDistance] below its first line, for
    [s1.length >= s2.length]. *)
Definition distanceRows (s1 s2 : jsstring) : nat :=
  if length s2 =? 0 then length s1
  else
    let previousRow := seq 0 (length s2 + 1) in
    nth (length s2)
        (fold_left (outerStep s1 s2) (seq 0 (length s1)) previousRow) 0.

(** [compareDistance]: the first line swaps the operands when [s1] is the
    shorter one; the recursive call it makes then passes that test, so the
    recursion is at most one level deep and is written out here. *)
Definition compareDistance (s1 s2 : jsstring) : nat :=
  if length s1 <? length s2 then distanceRows s2 s1 else distanceRows s1 s2.

(* ================================================================== *)
(** ** The edit distance of the specification *)
(* ================================================================== *)

(** One single-character edit: an insertion, a deletion or a substitution,
    anywhere in the string. *)
Inductive edit1 : jsstring -> jsstring -> Prop :=
| edit_insert : forall c s, edit1 s (c :: s)
| edit_delete : forall c s, edit1 (c :: s) s
| edit_substitute : forall c d s, edit1 (c :: s) (d :: s)
| edit_later : forall c s t, edit1 s t -> edit1 (c :: s) (c :: t).

(** [edits n a b]: [a] is transformed into [b] by [n] single-character edits. *)
Inductive edits : nat -> jsstring -> jsstring -> Prop :=
| edits_done : forall a, edits 0 a a
| edits_step : forall n a b c, edit1 a b -> edits n b c -> edits (S n) a c.

(** The minimum number of edits, as the specification words it. *)
Definition MinimumEdits (a b : jsstring) (d : nat) : Prop :=
  edits d a b /\ forall n, edits n a b -> d <= n.

(** The classic recurrence of the Levenshtein distance. *)
Fixpoint levenshtein (a b : jsstring) {struct a} : nat :=
  match a with
  | [] => length b
  | x :: a' =>
      (fix against (b : jsstring) : nat :=
         match b with
         | [] => length a
         | y :: b' =>
             min3 (levenshtein a' b + 1) (against b' + 1)
                  (levenshtein a' b' + (if unit_eqb x y then 0 else 1))
         end) b
  end.

(** The distance between the reversed strings: the quantity the rows of
    [compareDistance] hold, prefix by prefix. *)
Definition levenshteinRev (a b : jsstring) : nat := levenshtein (rev a) (rev b).

(** Row [i] of the table: the distances from the first [i] code units of [s1]
    to every prefix of [s2]. *)
Definition tableRow (s1 s2 : jsstring) (i : nat) : list nat :=
  map (fun j => levenshteinRev (firstn i s1) (firstn j s2))
      (seq 0 (length s2 + 1)).

(* ================================================================== *)
(** ** String operations of the JavaScript runtime used by the handlers *)
(* ================================================================== *)

(** A template literal and [+] on two strings are list concatenation; the
    operations below are the other string built-ins the handlers call. *)

(** [\d]. *)
Definition isDigit (c : codeunit) : bool := ((48 <=? c) && (c <=? 57))%N.

(** The code units of the class [\s], which [String.prototype.trim] strips
    as well: white space and line terminators. *)
Definition isWhiteSpace (c : codeunit) : bool :=
  ((9 <=? c) && (c <=? 13) || (c =? 32) || (c =? 160) || (c =? 5760)
   || (8192 <=? c) && (c <=? 8202) || (c =? 8232) || (c =? 8233)
   || (c =? 8239) || (c =? 8287) || (c =? 12288) || (c =? 65279))%N.

(** [s.replace(/\s+/g, '')]. *)
Definition removeWhiteSpace (s : jsstring) : jsstring :=
  filter (fun c => negb (isWhiteSpace c)) s.

Fixpoint startsWith (prefix s : jsstring) : bool :=
  match prefix, s with
  | [], _ => true
  | p :: prefix', c :: s' => unit_eqb p c && startsWith prefix' s'
  | _ :: _, [] => false
  end.

(** [s.includes(needle)] on strings. *)
Fixpoint includes (s needle : jsstring) : bool :=
  startsWith needle s
  || match s with
     | [] => false
     | _ :: s' => includes s' needle
     end.

(** [array.includes(x)] on an array of strings. *)
Definition arrayIncludes (array : list jsstring) (x : jsstring) : bool :=
  existsb (str_eqb x) array.

(** [s.match(/\d{3,}/)] is not null: three decimal digits in a row. *)
Fixpoint hasThreeDigits (s : jsstring) : bool :=
  match s with
  | a :: ((b :: c :: _) as s') =>
      (isDigit a && isDigit b && isDigit c) || hasThreeDigits s'
  | _ => false
  end.

(** [s.split(sep)] for a separator that matches exactly one code unit. *)
Fixpoint split (sep : codeunit -> bool) (s : jsstring) : list jsstring :=
  match s with
  | [] => [[]]
  | c :: s' =>
      if sep c then [] :: split sep s'
      else match split sep s' with
           | word :: words => (c :: word) :: words
           | [] => [[c]]
           end
  end.

(** [words.join(sep)]. *)
Fixpoint join (sep : jsstring) (words : list jsstring) : jsstring :=
  match words with
  | [] => []
  | [w] => w
  | w :: ws => w ++ sep ++ join sep ws
  end.

(** [s.trim()]. *)
Fixpoint trimStart (s : jsstring) : jsstring :=
  match s with
  | c :: s' => if isWhiteSpace c then trimStart s' else s
  | [] => []
  end.

Definition trim (s : jsstring) : jsstring :=
  rev (trimStart (rev (trimStart s))).

(** [s.replace(pattern, '')] for a string pattern: the first occurrence goes. *)
Fixpoint removeFirst (pattern s : jsstring) : jsstring :=
  if startsWith pattern s then skipn (length pattern) s
  else match s with
       | [] => []
       | c :: s' => c :: removeFirst pattern s'
       end.

(** [n.toString()] for a non-negative integer. *)
Definition decimal (n : N) : jsstring :=
  js (NilEmpty.string_of_uint (N.to_uint n)).

(** [s.padStart(2, '0')]. *)
Definition padStart2 (s : jsstring) : jsstring :=
  repeat 48%N (2 - length s) ++ s.

(** [parseInt(s)] on a string of decimal digits. *)
Definition parseDigits (s : jsstring) : Z :=
  fold_left (fun acc c => (acc * 10 + Z.of_N (c - 48))%Z) s 0%Z.

(** Matching of an ASCII pattern character under the [i] flag: only the two
    ASCII cases of a letter are equal to it. *)
Definition asciiFold (c : codeunit) : codeunit :=
  if ((97 <=? c) && (c <=? 122))%N then (c - 32)%N else c.

Fixpoint startsWithIgnoreCase (prefix s : jsstring) : bool :=
  match prefix, s with
  | [], _ => true
  | p :: prefix', c :: s' =>
      unit_eqb (asciiFold p) (asciiFold c) && startsWithIgnoreCase prefix' s'
  | _ :: _, [] => false
  end.

(** The longest prefix whose code units satisfy [p], and the rest. *)
Fixpoint span (p : codeunit -> bool) (s : jsstring) : jsstring * jsstring :=
  match s with
  | c :: s' =>
      if p c then let (taken, rest) := span p s' in (c :: taken, rest)
      else ([], s)
  | [] => ([], [])
  end.

(** The tail [(?:,\d+)*] of the Instagram count pattern, read greedily; a
    comma is taken only when a digit follows it.  Backing off never helps
    this pattern: the code unit after a shorter match is a digit or a comma,
    which [\s] refuses. *)
Fixpoint digitGroups (s : jsstring) : jsstring * jsstring :=
  match s with
  | c :: s' =>
      if isDigit c then
        let (taken, rest) := digitGroups s' in (c :: taken, rest)
      else if (c =? 44)%N then
        match s' with
        | d :: _ =>
            if isDigit d then
              let (taken, rest) := digitGroups s' in (c :: taken, rest)
            else ([], s)
        | [] => ([], s)
        end
      else ([], s)
  | [] => ([], [])
  end.

(** The Instagram count pattern anchored at the head of [s]: digits with
    comma groups (the capture), then white space, then the label. *)
Definition countAt (label s : jsstring) : option jsstring :=
  match s with
  | c :: _ =>
      if isDigit c then
        let (number, rest) := digitGroups s in
        let (blank, rest') := span isWhiteSpace rest in
        match blank with
        | [] => None
        | _ :: _ => if startsWith label rest' then Some number else None
        end
      else None
  | [] => None
  end.

(** The TikTok count pattern anchored at the head of [s]: digits, an optional
    fraction and an optional K, M or B (the capture), then white space, then
    the label, letters compared without case. *)
Definition magnitudeAt (label s : jsstring) : option jsstring :=
  let (digits, rest) := span isDigit s in
  match digits with
  | [] => None
  | _ :: _ =>
      let (fraction, rest1) :=
        match rest with
        | 46%N :: after =>
            let (decimals, rest') := span isDigit after in
            match decimals with
            | [] => ([], rest)
            | _ :: _ => (46%N :: decimals, rest')
            end
        | _ => ([], rest)
        end in
      let (suffix, rest2) :=
        match rest1 with
        | c :: after =>
            if ((asciiFold c =? 75) || (asciiFold c =? 77)
                || (asciiFold c =? 66))%N
            then ([c], after) else ([], rest1)
        | [] => ([], rest1)
        end in
      let (blank, rest3) := span isWhiteSpace rest2 in
      match blank with
      | [] => None
      | _ :: _ =>
          if startsWithIgnoreCase label rest3
          then Some (digits ++ fraction ++ suffix) else None
      end
  end.

(** [s.match(re)] without the [g] flag: the leftmost position where the
    anchored match succeeds. *)
Fixpoint search (matchAt : jsstring -> option jsstring) (s : jsstring)
    : option jsstring :=
  match matchAt s with
  | Some capture => Some capture
  | None => match s with
            | [] => None
            | _ :: s' => search matchAt s'
            end
  end.

(** [s.match(/^([^,]+),/)]: the non-empty text before the first comma. *)
Definition beforeFirstComma (s : jsstring) : option jsstring :=
  let (head, rest) := span (fun c => negb (c =? 44)%N) s in
  match head, rest with
  | _ :: _, _ :: _ => Some head
  | _, _ => None
  end.

(** Case mapping of [String.prototype.toLowerCase] and [toUpperCase] on the
    Latin-1 range, where each maps one code unit to one code unit except
    for the sharp s, which upper-cases to two.  Used to run the handlers on
    concrete user names. *)
Definition lowerLatin1 (c : codeunit) : codeunit :=
  if ((65 <=? c) && (c <=? 90)
      || (192 <=? c) && (c <=? 222) && negb (c =? 215))%N
  then (c + 32)%N else c.

Definition upperLatin1 (c : codeunit) : jsstring :=
  if ((97 <=? c) && (c <=? 122)
      || (224 <=? c) && (c <=? 254) && negb (c =? 247))%N
  then [(c - 32)%N]
  else if (c =? 223)%N then [83%N; 83%N]
  else if (c =? 181)%N then [924%N]
  else if (c =? 255)%N then [376%N]
  else [c].

Definition toLowerCaseLatin1 (s : jsstring) : jsstring := map lowerLatin1 s.
Definition toUpperCaseLatin1 (s : jsstring) : jsstring :=
  flat_map upperLatin1 s.

(* ================================================================== *)
(** ** JavaScript values and HTTP responses *)
(* ================================================================== *)

#[local] Set Warnings "-register-all".

(** The values the handlers build and read: the JSON values and
    [undefined].  An object lists its own properties in insertion order,
    each key once.  Numbers are the integers the handlers compute with. *)
Inductive Value : Type :=
| VUndefined
| VNull
| VBool (b : bool)
| VNum (n : Z)
| VStr (s : jsstring)
| VArr (items : list Value)
| VObj (props : list (string * Value)).
Arguments VNum n%_Z.

(** A property of an object literal, [key: value]. *)
Definition prop (key : string) (value : Value) : string * Value :=
  (key, value).
Arguments prop key%_string value.
Notation "k =: v" := (prop k v) (at level 60, no associativity).

(** A string literal as a value. *)
Definition str (s : string) : Value := VStr (js s).
Arguments str s%_string.

Definition num (n : N) : Value := VNum (Z.of_N n).

Fixpoint lookup (key : string) (props : list (string * Value))
    : option Value :=
  match props with
  | [] => None
  | (k, v) :: props' => if String.eqb k key then Some v else lookup key props'
  end.

(** [o.key] where [o] is neither [undefined] nor [null]: the own property,
    [undefined] when there is none.  None of the keys the handlers read is
    a property of a primitive or of an array. *)
Definition member (o : Value) (key : string) : Value :=
  match o with
  | VObj props => match lookup key props with
                  | Some v => v
                  | None => VUndefined
                  end
  | _ => VUndefined
  end.
Arguments member o key%_string.

(** Truthiness, as [if], [&&], [||] and [?:] test it. *)
Definition truthy (v : Value) : bool :=
  match v with
  | VUndefined | VNull => false
  | VBool b => b
  | VNum n => negb (n =? 0)%Z
  | VStr s => match s with [] => false | _ :: _ => true end
  | VArr _ | VObj _ => true
  end.

(** [a || b]. *)
Definition orElse (a b : Value) : Value := if truthy a then a else b.

(** [v === 'literal']. *)
Definition isString (v : Value) (s : jsstring) : bool :=
  match v with
  | VStr t => str_eqb t s
  | _ => false
  end.

(** The text a template literal substitutes for a value. *)
Fixpoint toText (v : Value) : jsstring :=
  match v with
  | VUndefined => js "undefined"
  | VNull => js "null"
  | VBool true => js "true"
  | VBool false => js "false"
  | VNum n => if (n <? 0)%Z then js "-" ++ decimal (Z.to_N (- n))
              else decimal (Z.to_N n)
  | VStr s => s
  | VArr items =>
      (fix elements (l : list Value) : jsstring :=
         let text x := match x with
                       | VUndefined | VNull => []
                       | _ => toText x
                       end in
         match l with
         | [] => []
         | [x] => text x
         | x :: l' => text x ++ js "," ++ elements l'
         end) items
  | VObj _ => js "[object Object]"
  end.

(** Evaluation of an object literal with spreads: a key that is already
    there keeps its place and takes the later value. *)
Fixpoint define (props : list (string * Value)) (key : string) (v : Value)
    : list (string * Value) :=
  match props with
  | [] => [(key, v)]
  | (k, old) :: props' =>
      if String.eqb k key then (k, v) :: props'
      else (k, old) :: define props' key v
  end.

Definition objectLiteral (entries : list (string * Value)) : Value :=
  VObj (fold_left (fun props kv => define props (fst kv) (snd kv)) entries []).

(** [...o] inside an object literal: the own enumerable properties. *)
Definition spread (o : Value) : list (string * Value) :=
  match o with
  | VObj props => props
  | _ => []
  end.

(** What [res.json] and [res.status(n).json] send: the status and the value
    they are given.  (Serialization drops a property whose value is
    [undefined]; the properties [exists], [profile] and [error] of a body
    never are.) *)
Record Response : Type := { status : nat; body : Value }.

(* ================================================================== *)
(** ** Completions, the random source and the handler monad *)
(* ================================================================== *)

(** The exceptions the handlers can meet.  An [axios] rejection carries
    [error.response.status] when the remote answered, and no response for a
    network error or a timeout; [LibraryError] is an error a library throws
    on an input it refuses. *)
Inductive Exn : Type :=
| AxiosError (responseStatus : option nat)
| ReferenceError (name : string)
| TypeError
| RangeError
| LibraryError.

Inductive Completion (A : Type) : Type :=
| Normal (a : A)
| Throw (e : Exn)
| OutOfFuel.
Arguments Normal {A} a.
Arguments Throw {A} e.
Arguments OutOfFuel {A}.

(** The random source: the stream of the values [Math.random()] returns,
    each read as the numerator of a fraction over [2^53]. *)
Definition Rng : Type := nat -> N.

Definition M (A : Type) : Type := Rng -> Completion A * Rng.

Definition ret {A} (a : A) : M A := fun r => (Normal a, r).

Definition bind {A B} (m : M A) (k : A -> M B) : M B :=
  fun r => match m r with
           | (Normal a, r') => k a r'
           | (Throw e, r') => (Throw e, r')
           | (OutOfFuel, r') => (OutOfFuel, r')
           end.

Definition throw {A} (e : Exn) : M A := fun r => (Throw e, r).

Definition outOfFuel {A} : M A := fun r => (OutOfFuel, r).

(** [try { body } catch (error) { handler }]. *)
Definition tryCatch {A} (body : M A) (handler : Exn -> M A) : M A :=
  fun r => match body r with
           | (Throw e, r') => handler e r'
           | done => done
           end.

Notation "x <- m ;; k" := (bind m (fun x => k))
  (at level 61, m at next level, right associativity).

Definition precision : N := 2 ^ 53.

(** The source after one draw. *)
Definition advance (r : Rng) : Rng := fun i => r (S i).

(** [Math.random()]: the next draw, a fraction in [0, 1). *)
Definition mathRandom : M N :=
  fun r => (Normal (r 0%nat mod precision)%N, advance r).

(** [Math.floor(Math.random() * n)]: the product is taken exactly; the
    rounding of the floating-point product, which never reaches [n], is not
    modelled. *)
Definition randomBelow (n : N) : M N :=
  x <- mathRandom ;; ret (x * n / precision)%N.

(** [Math.random() > 0.5]. *)
Definition randomAboveHalf : M bool :=
  x <- mathRandom ;; ret (precision / 2 <? x)%N.

(** [array[Math.floor(Math.random() * array.length)]] and its like: the
    element at an index, [undefined] out of range. *)
Definition at_ (array : list jsstring) (i : N) : Value :=
  match nth_error array (N.to_nat i) with
  | Some s => VStr s
  | None => VUndefined
  end.

(** [for (let i = 0; i < Math.floor(Math.random() * range) + base; i++)]:
    the condition draws afresh before every pass. *)
Fixpoint forRandom {T} (fuel : nat) (range base : N)
    (body : nat -> T -> M T) (i : nat) (acc : T) : M T :=
  match fuel with
  | 0 => outOfFuel
  | S fuel' =>
      bound <- randomBelow range ;;
      if (N.of_nat i <? bound + base)%N then
        acc' <- body i acc ;;
        forRandom fuel' range base body (i + 1) acc'
      else ret acc
  end.

(** [for (let i = 0; i < n; i++)]. *)
Fixpoint forCount {T} (n : nat) (body : nat -> T -> M T) (i : nat) (acc : T)
    : M T :=
  match n with
  | 0 => ret acc
  | S n' =>
      acc' <- body i acc ;; forCount n' body (i + 1) acc'
  end.

(** Passes allowed to a loop with a random bound before it is given up. *)
Definition loopFuel : nat := 16.

(** [await axios.get(...)] and [await axios.head(...)]: the remote answers
    with a payload, or the call is rejected. *)
Inductive AxiosResult (A : Type) : Type :=
| Resolved (data : A)
| Rejected (responseStatus : option nat).
Arguments Resolved {A} data.
Arguments Rejected {A} responseStatus.

Definition await {A} (result : AxiosResult A) : M A :=
  match result with
  | Resolved data => ret data
  | Rejected st => throw (AxiosError st)
  end.

(** [error.response && error.response.status === 404]. *)
Definition isNotFound (error : Exn) : bool :=
  match error with
  | AxiosError (Some st) => st =? 404
  | _ => false
  end.

Definition resJson (v : Value) : M Response :=
  ret {| status := 200; body := v |}.

Definition resStatusJson (st : nat) (v : Value) : M Response :=
  ret {| status := st; body := v |}.

(** [o.key] as an expression: a [TypeError] when [o] is [undefined] or
    [null]. *)
Definition get (o : Value) (key : string) : M Value :=
  match o with
  | VUndefined | VNull => throw TypeError
  | _ => ret (member o key)
  end.
Arguments get o key%_string.

(** [array.map(f)]: a [TypeError] when the receiver is no array. *)
Fixpoint mapM {A B} (f : A -> M B) (l : list A) : M (list B) :=
  match l with
  | [] => ret []
  | x :: l' => y <- f x ;; ys <- mapM f l' ;; ret (y :: ys)
  end.

Definition arrayMap (v : Value) (f : Value -> M Value) : M Value :=
  match v with
  | VArr items => ys <- mapM f items ;; ret (VArr ys)
  | _ => throw TypeError
  end.

(* ================================================================== *)
(** ** The curated dataset: [knownProfiles] (server.js 419-627) *)
(* ================================================================== *)

(** The object literal of the Spotify handler, key by key in source order,
    which is the order [Object.keys] lists them in (no key is an integer
    index). *)
Definition knownProfiles : list (jsstring * Value) :=
  [
    (js "drake", VObj [
        "name" =: str "Drake";
        "followers" =: VNum 67438211;
        "popularity" =: VNum 96;
        "monthly_listeners" =: VNum 63829401;
        "image_url" =: str "https://i.scdn.co/image/ab6761610000e5eb4293385d324db8558179afd9";
        "type" =: str "artist";
        "genres" =: VArr [str "canadian hip hop"; str "canadian pop"; str "hip hop"; str "pop rap"; str "rap"];
        "top_tracks" =: VArr [
          VObj ["name" =: str "One Dance"; "popularity" =: VNum 98; "album" =: str "Views"; "release_date" =: str "2016-04-29"; "duration_ms" =: VNum 173987];
          VObj ["name" =: str "God's Plan"; "popularity" =: VNum 96; "album" =: str "Scorpion"; "release_date" =: str "2018-06-29"; "duration_ms" =: VNum 198973];
          VObj ["name" =: str "Hotline Bling"; "popularity" =: VNum 95; "album" =: str "Views"; "release_date" =: str "2016-04-29"; "duration_ms" =: VNum 267266];
          VObj ["name" =: str "In My Feelings"; "popularity" =: VNum 94; "album" =: str "Scorpion"; "release_date" =: str "2018-06-29"; "duration_ms" =: VNum 217925];
          VObj ["name" =: str "Nice For What"; "popularity" =: VNum 93; "album" =: str "Scorpion"; "release_date" =: str "2018-06-29"; "duration_ms" =: VNum 210853] ];
        "albums" =: VArr [
          VObj [
            "name" =: str "Certified Lover Boy";
            "release_date" =: str "2021-09-03";
            "total_tracks" =: VNum 21;
            "image_url" =: str "https://i.scdn.co/image/ab67616d0000b2739416ed64daf84936d89e671c" ];
          VObj ["name" =: str "Scorpion"; "release_date" =: str "2018-06-29"; "total_tracks" =: VNum 25; "image_url" =: str "https://i.scdn.co/image/ab67616d0000b273f907de96b9a4fbc04accc0d5"];
          VObj ["name" =: str "Views"; "release_date" =: str "2016-04-29"; "total_tracks" =: VNum 20; "image_url" =: str "https://i.scdn.co/image/ab67616d0000b273b20cfc2872b8ad0515b1b191"] ] ]);
    (js "adele", VObj [
        "name" =: str "Adele";
        "followers" =: VNum 49523685;
        "popularity" =: VNum 94;
        "monthly_listeners" =: VNum 55841263;
        "image_url" =: str "https://i.scdn.co/image/ab6761610000e5eb68f6e5892075d7f22615bd17";
        "type" =: str "artist";
        "genres" =: VArr [str "british soul"; str "pop"; str "pop soul"; str "uk pop"];
        "top_tracks" =: VArr [
          VObj ["name" =: str "Hello"; "popularity" =: VNum 98; "album" =: str "25"; "release_date" =: str "2015-11-20"; "duration_ms" =: VNum 295493];
          VObj ["name" =: str "Rolling in the Deep"; "popularity" =: VNum 97; "album" =: str "21"; "release_date" =: str "2011-01-24"; "duration_ms" =: VNum 228280];
          VObj ["name" =: str "Someone Like You"; "popularity" =: VNum 96; "album" =: str "21"; "release_date" =: str "2011-01-24"; "duration_ms" =: VNum 285240];
          VObj ["name" =: str "Easy On Me"; "popularity" =: VNum 95; "album" =: str "30"; "release_date" =: str "2021-11-19"; "duration_ms" =: VNum 224856];
          VObj ["name" =: str "Set Fire to the Rain"; "popularity" =: VNum 94; "album" =: str "21"; "release_date" =: str "2011-01-24"; "duration_ms" =: VNum 223773] ];
        "albums" =: VArr [
          VObj ["name" =: str "30"; "release_date" =: str "2021-11-19"; "total_tracks" =: VNum 12; "image_url" =: str "https://i.scdn.co/image/ab67616d0000b273c6b577e4c4a6d126d5753a7b"];
          VObj ["name" =: str "25"; "release_date" =: str "2015-11-20"; "total_tracks" =: VNum 11; "image_url" =: str "https://i.scdn.co/image/ab67616d0000b2736a6387ab37f64034cdc7b367"];
          VObj ["name" =: str "21"; "release_date" =: str "2011-01-24"; "total_tracks" =: VNum 11; "image_url" =: str "https://i.scdn.co/image/ab67616d0000b2732118bf9b198b05a95ded6300"] ] ]);
    (js "justinbieber", VObj [
        "name" =: str "Justin Bieber";
        "followers" =: VNum 42895631;
        "popularity" =: VNum 93;
        "monthly_listeners" =: VNum 71452369;
        "image_url" =: str "https://i.scdn.co/image/ab6761610000e5eb8ae7f2aaa9817a704a87ea36";
        "type" =: str "artist";
        "genres" =: VArr [str "canadian pop"; str "dance pop"; str "pop"; str "post-teen pop"];
        "top_tracks" =: VArr [
          VObj ["name" =: str "Sorry"; "popularity" =: VNum 96; "album" =: str "Purpose"; "release_date" =: str "2015-11-13"; "duration_ms" =: VNum 200787];
          VObj ["name" =: str "Love Yourself"; "popularity" =: VNum 95; "album" =: str "Purpose"; "release_date" =: str "2015-11-13"; "duration_ms" =: VNum 233720];
          VObj ["name" =: str "What Do You Mean?"; "popularity" =: VNum 94; "album" =: str "Purpose"; "release_date" =: str "2015-11-13"; "duration_ms" =: VNum 205240];
          VObj ["name" =: str "Stay"; "popularity" =: VNum 93; "album" =: str "Justice"; "release_date" =: str "2021-03-19"; "duration_ms" =: VNum 141806];
          VObj ["name" =: str "Peaches"; "popularity" =: VNum 92; "album" =: str "Justice"; "release_date" =: str "2021-03-19"; "duration_ms" =: VNum 198082] ];
        "albums" =: VArr [
          VObj ["name" =: str "Justice"; "release_date" =: str "2021-03-19"; "total_tracks" =: VNum 16; "image_url" =: str "https://i.scdn.co/image/ab67616d0000b273e6f407c7f3a0ec98845e4431"];
          VObj ["name" =: str "Changes"; "release_date" =: str "2020-02-14"; "total_tracks" =: VNum 17; "image_url" =: str "https://i.scdn.co/image/ab67616d0000b273849472121f6cd237cf546af4"];
          VObj ["name" =: str "Purpose"; "release_date" =: str "2015-11-13"; "total_tracks" =: VNum 18; "image_url" =: str "https://i.scdn.co/image/ab67616d0000b273f46542b2146bc13068d11a12"] ] ]);
    (js "spotifycharts", VObj [
        "name" =: str "Spotify Charts";
        "followers" =: VNum 5432167;
        "popularity" =: VNum 90;
        "type" =: str "account";
        "verified" =: VBool true;
        "image_url" =: str "https://charts-images.scdn.co/assets/locale_en/regional/daily/region_global_default.jpg";
        "playlists" =: VArr [
          VObj ["name" =: str "Today's Top Hits"; "followers" =: VNum 33421567; "total_tracks" =: VNum 50; "image_url" =: str "https://i.scdn.co/image/ab67706c0000da842fecd7a8f9434cceade0a313"];
          VObj [
            "name" =: str "Global Top 50";
            "followers" =: VNum 28743291;
            "total_tracks" =: VNum 50;
            "image_url" =: str "https://charts-images.scdn.co/assets/locale_en/regional/daily/region_global_default.jpg" ];
          VObj [
            "name" =: str "Viral 50 - Global";
            "followers" =: VNum 12453789;
            "total_tracks" =: VNum 50;
            "image_url" =: str "https://charts-images.scdn.co/assets/locale_en/viral/daily/region_global_default.jpg" ] ] ]);
    (js "spotifymaps", VObj [
        "name" =: str "Spotify Maps";
        "followers" =: VNum 3214576;
        "popularity" =: VNum 82;
        "type" =: str "account";
        "verified" =: VBool true;
        "image_url" =: str "https://mosaic.scdn.co/640/ab67616d0000b2731dacfbc31cc873d132958af9ab67616d0000b273838fa502b0d9e6c2cd838fbcab67616d0000b273d58e353826fe4e468533789fab67616d0000b273ef74b53ad3e57f2ab40a4cae";
        "playlists" =: VArr [
          VObj ["name" =: str "Sound of New York City"; "followers" =: VNum 2187653; "total_tracks" =: VNum 100; "image_url" =: str "https://i.scdn.co/image/ab67706c0000da84c4af81235e799ccfbe011e1a"];
          VObj ["name" =: str "Sound of London"; "followers" =: VNum 1853421; "total_tracks" =: VNum 100; "image_url" =: str "https://i.scdn.co/image/ab67706c0000da844fed56bdb3e2e88e134f990a"];
          VObj ["name" =: str "Sound of Tokyo"; "followers" =: VNum 1765289; "total_tracks" =: VNum 100; "image_url" =: str "https://i.scdn.co/image/ab67706c0000da841bbd99c7c7de409ba22e3936"] ] ]);
    (js "weeknd", VObj [
        "name" =: str "The Weeknd";
        "followers" =: VNum 47561234;
        "popularity" =: VNum 96;
        "monthly_listeners" =: VNum 76123456;
        "image_url" =: str "https://i.scdn.co/image/ab6761610000e5eb214f3cf1cbe7139c1e26ffbb";
        "type" =: str "artist";
        "genres" =: VArr [str "canadian contemporary r&b"; str "canadian pop"; str "pop"; str "r&b"];
        "top_tracks" =: VArr [
          VObj ["name" =: str "Blinding Lights"; "popularity" =: VNum 99; "album" =: str "After Hours"; "release_date" =: str "2020-03-20"; "duration_ms" =: VNum 200040];
          VObj ["name" =: str "Starboy"; "popularity" =: VNum 97; "album" =: str "Starboy"; "release_date" =: str "2016-11-25"; "duration_ms" =: VNum 230453];
          VObj ["name" =: str "Save Your Tears"; "popularity" =: VNum 96; "album" =: str "After Hours"; "release_date" =: str "2020-03-20"; "duration_ms" =: VNum 215947];
          VObj ["name" =: str "The Hills"; "popularity" =: VNum 95; "album" =: str "Beauty Behind the Madness"; "release_date" =: str "2015-08-28"; "duration_ms" =: VNum 242253];
          VObj ["name" =: str "Earned It"; "popularity" =: VNum 94; "album" =: str "Beauty Behind the Madness"; "release_date" =: str "2015-08-28"; "duration_ms" =: VNum 277680] ];
        "albums" =: VArr [
          VObj ["name" =: str "Dawn FM"; "release_date" =: str "2022-01-07"; "total_tracks" =: VNum 16; "image_url" =: str "https://i.scdn.co/image/ab67616d0000b273c6af5ffa661a365b72cf542d"];
          VObj ["name" =: str "After Hours"; "release_date" =: str "2020-03-20"; "total_tracks" =: VNum 14; "image_url" =: str "https://i.scdn.co/image/ab67616d0000b2738863bc11d2aa12b54f5aeb36"];
          VObj ["name" =: str "Starboy"; "release_date" =: str "2016-11-25"; "total_tracks" =: VNum 18; "image_url" =: str "https://i.scdn.co/image/ab67616d0000b273a048415db06a5b6fa7ec4e1a"] ] ]);
    (js "theweeknd", VObj [
        "name" =: str "The Weeknd";
        "followers" =: VNum 47561234;
        "popularity" =: VNum 96;
        "monthly_listeners" =: VNum 76123456;
        "image_url" =: str "https://i.scdn.co/image/ab6761610000e5eb214f3cf1cbe7139c1e26ffbb";
        "type" =: str "artist";
        "genres" =: VArr [str "canadian contemporary r&b"; str "canadian pop"; str "pop"; str "r&b"];
        "top_tracks" =: VArr [
          VObj ["name" =: str "Blinding Lights"; "popularity" =: VNum 99; "album" =: str "After Hours"; "release_date" =: str "2020-03-20"; "duration_ms" =: VNum 200040];
          VObj ["name" =: str "Starboy"; "popularity" =: VNum 97; "album" =: str "Starboy"; "release_date" =: str "2016-11-25"; "duration_ms" =: VNum 230453];
          VObj ["name" =: str "Save Your Tears"; "popularity" =: VNum 96; "album" =: str "After Hours"; "release_date" =: str "2020-03-20"; "duration_ms" =: VNum 215947];
          VObj ["name" =: str "The Hills"; "popularity" =: VNum 95; "album" =: str "Beauty Behind the Madness"; "release_date" =: str "2015-08-28"; "duration_ms" =: VNum 242253];
          VObj ["name" =: str "Earned It"; "popularity" =: VNum 94; "album" =: str "Beauty Behind the Madness"; "release_date" =: str "2015-08-28"; "duration_ms" =: VNum 277680] ];
        "albums" =: VArr [
          VObj ["name" =: str "Dawn FM"; "release_date" =: str "2022-01-07"; "total_tracks" =: VNum 16; "image_url" =: str "https://i.scdn.co/image/ab67616d0000b273c6af5ffa661a365b72cf542d"];
          VObj ["name" =: str "After Hours"; "release_date" =: str "2020-03-20"; "total_tracks" =: VNum 14; "image_url" =: str "https://i.scdn.co/image/ab67616d0000b2738863bc11d2aa12b54f5aeb36"];
          VObj ["name" =: str "Starboy"; "release_date" =: str "2016-11-25"; "total_tracks" =: VNum 18; "image_url" =: str "https://i.scdn.co/image/ab67616d0000b273a048415db06a5b6fa7ec4e1a"] ] ]);
    (js "beyonce", VObj [
        "name" =: VStr (js "Beyonc" ++ [233%N]);
        "followers" =: VNum 38421953;
        "popularity" =: VNum 95;
        "monthly_listeners" =: VNum 58976231;
        "image_url" =: str "https://i.scdn.co/image/ab6761610000e5eb12e3f20d05a8d6cfde988715";
        "type" =: str "artist";
        "genres" =: VArr [str "dance pop"; str "pop"; str "r&b"];
        "top_tracks" =: VArr [
          VObj ["name" =: str "Halo"; "popularity" =: VNum 94; "album" =: str "I AM...SASHA FIERCE"; "release_date" =: str "2008-11-14"; "duration_ms" =: VNum 261640];
          VObj ["name" =: str "Single Ladies (Put a Ring on It)"; "popularity" =: VNum 93; "album" =: str "I AM...SASHA FIERCE"; "release_date" =: str "2008-11-14"; "duration_ms" =: VNum 193093];
          VObj ["name" =: str "Crazy in Love"; "popularity" =: VNum 92; "album" =: str "Dangerously In Love"; "release_date" =: str "2003-06-24"; "duration_ms" =: VNum 236133];
          VObj ["name" =: str "Formation"; "popularity" =: VNum 91; "album" =: str "Lemonade"; "release_date" =: str "2016-04-23"; "duration_ms" =: VNum 225773];
          VObj ["name" =: str "Run the World (Girls)"; "popularity" =: VNum 90; "album" =: str "4"; "release_date" =: str "2011-06-24"; "duration_ms" =: VNum 235947] ];
        "albums" =: VArr [
          VObj ["name" =: str "RENAISSANCE"; "release_date" =: str "2022-07-29"; "total_tracks" =: VNum 16; "image_url" =: str "https://i.scdn.co/image/ab67616d0000b273441d5b57653d4f10530cea3c"];
          VObj ["name" =: str "Lemonade"; "release_date" =: str "2016-04-23"; "total_tracks" =: VNum 12; "image_url" =: str "https://i.scdn.co/image/ab67616d0000b273e44963b8bb127552ac451d5e"];
          VObj [
            "name" =: VStr (js "BEYONC" ++ [201%N]);
            "release_date" =: str "2013-12-13";
            "total_tracks" =: VNum 14;
            "image_url" =: str "https://i.scdn.co/image/ab67616d0000b2736a6387ab37f64034cdc7b367" ] ] ]);
    (js "badpaddy", VObj [
        "name" =: str "Bad Paddy";
        "followers" =: VNum 47218;
        "popularity" =: VNum 58;
        "monthly_listeners" =: VNum 93770;
        "image_url" =: str "https://i.scdn.co/image/ab67616d0000b273b8abc4de41be8b6b60521234";
        "type" =: str "artist";
        "genres" =: VArr [str "irish indie"; str "irish rock"; str "modern alternative rock"];
        "top_tracks" =: VArr [
          VObj ["name" =: str "Durt"; "popularity" =: VNum 67; "album" =: str "Durt"; "release_date" =: str "2018-06-15"; "duration_ms" =: VNum 194853];
          VObj ["name" =: str "Sink or Swim"; "popularity" =: VNum 65; "album" =: str "Sink or Swim"; "release_date" =: str "2019-05-31"; "duration_ms" =: VNum 202440];
          VObj ["name" =: str "Waster"; "popularity" =: VNum 64; "album" =: str "Waster"; "release_date" =: str "2020-09-25"; "duration_ms" =: VNum 185240];
          VObj ["name" =: str "Landfill"; "popularity" =: VNum 63; "album" =: str "Landfill"; "release_date" =: str "2021-06-18"; "duration_ms" =: VNum 212173];
          VObj ["name" =: str "Bad Man"; "popularity" =: VNum 62; "album" =: str "Bad Man"; "release_date" =: str "2022-01-21"; "duration_ms" =: VNum 197621] ];
        "albums" =: VArr [
          VObj ["name" =: str "Bad Man"; "release_date" =: str "2022-01-21"; "total_tracks" =: VNum 1; "image_url" =: str "https://i.scdn.co/image/ab67616d0000b2736b10afb922ac6cb4cc84ecc5"];
          VObj ["name" =: str "Landfill"; "release_date" =: str "2021-06-18"; "total_tracks" =: VNum 1; "image_url" =: str "https://i.scdn.co/image/ab67616d0000b2732e0bdd7e924ba543e7308a7f"];
          VObj ["name" =: str "Waster"; "release_date" =: str "2020-09-25"; "total_tracks" =: VNum 1; "image_url" =: str "https://i.scdn.co/image/ab67616d0000b2734b0dad6602118bef8838829a"] ] ]);
    (js "spotify", VObj [
        "name" =: str "Spotify";
        "followers" =: VNum 12536789;
        "popularity" =: VNum 100;
        "type" =: str "account";
        "verified" =: VBool true;
        "image_url" =: str "https://i.scdn.co/image/ab67706c0000da84fcb8b92f2143f980d0ff29b7";
        "playlists" =: VArr [
          VObj ["name" =: str "RapCaviar"; "followers" =: VNum 15246789; "total_tracks" =: VNum 50; "image_url" =: str "https://i.scdn.co/image/ab67706c0000da84b785a91532ebbf64e106b28a"];
          VObj ["name" =: str "mint"; "followers" =: VNum 6789423; "total_tracks" =: VNum 50; "image_url" =: str "https://i.scdn.co/image/ab67706c0000da842e27a35f6acb532859a7ec0f"];
          VObj ["name" =: str "Lorem"; "followers" =: VNum 988453; "total_tracks" =: VNum 50; "image_url" =: str "https://i.scdn.co/image/ab67706c0000da84e26811272a04965135645455"] ] ]);
    (js "bts", VObj [
        "name" =: str "BTS";
        "followers" =: VNum 60987453;
        "popularity" =: VNum 95;
        "monthly_listeners" =: VNum 30987654;
        "image_url" =: str "https://i.scdn.co/image/ab6761610000e5ebcbed919527bb3fc185963e34";
        "type" =: str "artist";
        "genres" =: VArr [str "k-pop"; str "k-pop boy group"; str "pop"];
        "top_tracks" =: VArr [
          VObj ["name" =: str "Dynamite"; "popularity" =: VNum 97; "album" =: str "Dynamite (DayTime Version)"; "release_date" =: str "2020-08-21"; "duration_ms" =: VNum 199053];
          VObj ["name" =: str "Butter"; "popularity" =: VNum 96; "album" =: str "Butter"; "release_date" =: str "2021-05-21"; "duration_ms" =: VNum 164442];
          VObj ["name" =: str "Boy With Luv (feat. Halsey)"; "popularity" =: VNum 95; "album" =: str "MAP OF THE SOUL : PERSONA"; "release_date" =: str "2019-04-12"; "duration_ms" =: VNum 229773];
          VObj ["name" =: str "Permission to Dance"; "popularity" =: VNum 94; "album" =: str "Butter"; "release_date" =: str "2021-07-09"; "duration_ms" =: VNum 187795];
          VObj ["name" =: str "FAKE LOVE"; "popularity" =: VNum 93; "album" =: VStr (js "LOVE YOURSELF " ++ [36681%N] ++ js " Tear"); "release_date" =: str "2018-05-18"; "duration_ms" =: VNum 248347] ];
        "albums" =: VArr [
          VObj ["name" =: str "Proof"; "release_date" =: str "2022-06-10"; "total_tracks" =: VNum 48; "image_url" =: str "https://i.scdn.co/image/ab67616d0000b2738a701e76e8456f2be3fb725e"];
          VObj ["name" =: str "BE"; "release_date" =: str "2020-11-20"; "total_tracks" =: VNum 8; "image_url" =: str "https://i.scdn.co/image/ab67616d0000b273a8a1ac2fdae743a494ee65d9"];
          VObj [
            "name" =: str "MAP OF THE SOUL : 7";
            "release_date" =: str "2020-02-21";
            "total_tracks" =: VNum 20;
            "image_url" =: str "https://i.scdn.co/image/ab67616d0000b2732b0f28d77dfef80bfd6ba451" ] ] ])
  ].

(* ================================================================== *)
(** ** The handlers *)
(* ================================================================== *)

(** What [cheerio.load] makes of a payload: the document, or an error when
    it refuses the payload ([None]). *)
Definition cheerioLoad {A} (data : option A) : M A :=
  match data with
  | Some page => ret page
  | None => throw LibraryError
  end.

(** What the Twitter handler reads from the Nitter page through its
    selectors. *)
Record NitterPage : Type := {
  errorPanels : nat;                     (* $('.error-panel').length *)
  statNum : nat -> jsstring;             (* $('.profile-stat-num').eq(k).text() *)
  avatarSrc : option jsstring;           (* $('.profile-card-avatar').attr('src') *)
  profileBio : jsstring;
  profileFullname : jsstring;
  profileLocation : jsstring;
  profileJoindate : jsstring;
  timelineItems : list (jsstring * jsstring)  (* tweet-content, tweet-date *)
}.

(** The [content] attribute of the description meta tag of an Instagram
    page, [None] when the tag or the attribute is missing. *)
Record InstagramPage : Type := { descriptionContent : option jsstring }.

Record TikTokPage : Type := {
  ogTitle : option jsstring;
  ogDescription : option jsstring
}.

(** [attr || '']. *)
Definition orEmpty (attr : option jsstring) : jsstring :=
  match attr with
  | Some s => s
  | None => []
  end.

(** [parseTwitterNumbers] and [parseTikTokNumber] are called by the handlers
    and bound nowhere: server.js declares neither, and requires no module
    that could.  Evaluating either name throws a [ReferenceError]. *)
Definition parseTwitterNumbers (text : jsstring) : M Value :=
  throw (ReferenceError "parseTwitterNumbers").

Definition parseTikTokNumber (text : jsstring) : M Value :=
  throw (ReferenceError "parseTikTokNumber").

(** [{ exists: false }], the argument of [res.json] in every not-found
    branch. *)
Definition notFound : Value := VObj ["exists" =: VBool false].

(** [res.status(500).json({ error: message })]. *)
Definition serverError (message : string) : M Response :=
  resStatusJson 500 (VObj ["error" =: VStr (js message)]).
Arguments serverError message%_string.

Definition isHyphenOrUnderscore (c : codeunit) : bool :=
  ((c =? 45) || (c =? 95))%N.

Definition isSpace (c : codeunit) : bool := (c =? 32)%N.

(** [array.includes(x)] on an array of values that holds strings and
    [undefined]. *)
Definition sameValue (a b : Value) : bool :=
  match a, b with
  | VStr s, VStr t => str_eqb s t
  | VUndefined, VUndefined => true
  | _, _ => false
  end.

Definition valuesInclude (array : list Value) (x : Value) : bool :=
  existsb (sameValue x) array.

(** The own property of the dataset object under a key. *)
Fixpoint ownProfile (table : list (jsstring * Value)) (key : jsstring)
    : option Value :=
  match table with
  | [] => None
  | (k, profile) :: table' =>
      if str_eqb k key then Some profile else ownProfile table' key
  end.

(** [knownProfiles[key]]: the record of the dataset; for the two all
    lower-case names every object inherits, [constructor] and [__proto__],
    an object with no enumerable property of its own; [undefined]
    otherwise.  (The key is lower-cased before the lookup, so no other
    inherited name can be asked for.) *)
Definition knownProfile (key : jsstring) : Value :=
  match ownProfile knownProfiles key with
  | Some profile => profile
  | None =>
      if str_eqb key (js "constructor") || str_eqb key (js "__proto__")
      then VObj []
      else VUndefined
  end.

(** [Object.keys(knownProfiles)]. *)
Definition knownKeys : list jsstring := map fst knownProfiles.

(** The themed pools of the artist generator (server.js 705-711). *)
Definition genres : list (list jsstring) :=
  [ [js "indie"; js "alternative"; js "rock"; js "indie rock";
     js "alternative rock"];
    [js "hip hop"; js "rap"; js "trap"; js "conscious hip hop";
     js "underground hip hop"];
    [js "edm"; js "electronic"; js "dance"; js "house"; js "techno"];
    [js "pop"; js "synth pop"; js "dance pop"; js "electropop"; js "art pop"];
    [js "r&b"; js "soul"; js "neo soul"; js "contemporary r&b";
     js "urban contemporary"] ].

(** The cover images the generators pick from (server.js 759-765, 791-797,
    837-843). *)
Definition albumImages : list jsstring :=
  [ js "https://i.scdn.co/image/ab67616d0000b273b11bdc91cb9ac98b16ea29b1";
    js "https://i.scdn.co/image/ab67616d0000b273cb4ec52c48a6b071ed2ab6bc";
    js "https://i.scdn.co/image/ab67616d0000b2737358a760596f0c9aee3a1cc6";
    js "https://i.scdn.co/image/ab67616d0000b273e0c86ff886d8101f24dc223b";
    js "https://i.scdn.co/image/ab67616d0000b273afb855e6eba49a012b37c60a" ].

Definition artistImages : list jsstring :=
  [ js "https://i.scdn.co/image/ab6761610000e5eb6a0633b2b741fd857558e409";
    js "https://i.scdn.co/image/ab6761610000e5eb8c7f275dd8dae2d1676c7b49";
    js "https://i.scdn.co/image/ab6761610000e5ebeac917b9a5db711acb84862a";
    js "https://i.scdn.co/image/ab6761610000e5ebc7db57b1c848a1532767c696";
    js "https://i.scdn.co/image/ab6761610000e5ebf3ca460461fae39243a15316" ].

Definition playlistImages : list jsstring :=
  [ js "https://mosaic.scdn.co/640/ab67616d0000b2733d92b2ad5af9fbc8637425f0ab67616d0000b27365a6fc854a3d3dd8561b3d6aab67616d0000b273b11078ee23dcd99e19a22136ab67616d0000b273f46de17106c4094169e8f278";
    js "https://mosaic.scdn.co/640/ab67616d0000b273337c5cd881484f68c460b92cab67616d0000b273b29fe3874f65bb79ea52b19dab67616d0000b273d0ada88c5f051976c6dbafdab67616d0000b273dd7106adf7ec3cb52c87cabf";
    js "https://mosaic.scdn.co/640/ab67616d0000b2736b44ad73d4e6c6e553dac3ebab67616d0000b273a48dd70027ffc3fc2e29e0cfab67616d0000b273ce8f4e0a06bbfc4f425917adab67616d0000b273e3119a3e3e0ca37bb180c0a0";
    js "https://i.scdn.co/image/ab67706c0000da84df9f7092c2fbdefa3b502142";
    js "https://i.scdn.co/image/ab67706c0000da84507e4f2a8c4af45e4b556d09" ].

(** *** Inputs of the examples *)

(** A random source whose every draw is 0. *)
Definition zeroDraws : Rng := fun _ => 0%N.

(** The examples never add two values of a remote payload and never render
    a date; these fill the three parameters of the runtime that stand for
    such built-ins. *)
Definition unreachedPlus (a b : Value) : Value := VUndefined.
Definition unreachedSeconds (v : Value) : option jsstring := None.
Definition unreachedDate (ms : Z) : jsstring := [].

(** A TikTok page whose description counts in magnitudes. *)
Definition tiktokSample : TikTokPage :=
  {| ogTitle := Some (js "Zach King (@zachking) | TikTok");
     ogDescription := Some (js "1.2M Followers, 3K Likes") |}.

(** A Nitter page of an account that exists. *)
Definition nitterSample : NitterPage :=
  {| errorPanels := 0;
     statNum := fun k => match k with
                         | 0 => js "3K"
                         | 1 => js "120"
                         | _ => js "1.2M"
                         end;
     avatarSrc := Some (js "/pic/jack.jpg");
     profileBio := js "hello";
     profileFullname := js "jack";
     profileLocation := [];
     profileJoindate := js "Joined March 2006";
     timelineItems := [] |}.

(** Two Instagram pages, one counting with commas, one in magnitudes. *)
Definition instagramSample : InstagramPage :=
  {| descriptionContent :=
       Some (js "12,345 Followers, 67 Following, 8 Posts - Nike (@nike)") |}.

Definition instagramMagnitudes : InstagramPage :=
  {| descriptionContent :=
       Some (js "1.2M Followers, 3K Following, 8 Posts - Nike (@nike)") |}.

Section Server.

#[local] Set Default Proof Using "Type".

(** Built-ins of the runtime that the embedding leaves open: the Unicode
    case mappings, [+] on two values read from a remote payload, and the
    rendering of dates. *)
Variable toLowerCase : jsstring -> jsstring.
Variable toUpperCase : jsstring -> jsstring.
Variable plus : Value -> Value -> Value.
(** [new Date(v * 1000).toISOString()], [None] when the date is invalid and
    the call throws a [RangeError]. *)
Variable secondsToISOString : Value -> option jsstring.
(** [new Date(ms).toISOString()] on a timestamp near the present. *)
Variable toISOString : Z -> jsstring.

(** *** GitHub (server.js 27-74) *)

Definition githubRepo (repo : Value) : M Value :=
  name <- get repo "name" ;;
  description <- get repo "description" ;;
  url <- get repo "html_url" ;;
  stars <- get repo "stargazers_count" ;;
  language <- get repo "language" ;;
  ret (VObj ["name" =: name; "description" =: description; "url" =: url;
             "stars" =: stars; "language" =: language]).

Definition githubHandler (user repos : AxiosResult Value)
    (username : jsstring) : M Response :=
  tryCatch
    (data <- await user ;;
     reposData <- await repos ;;
     recentRepos <- arrayMap reposData githubRepo ;;
     login <- get data "login" ;;
     followers <- get data "followers" ;;
     following <- get data "following" ;;
     avatar_url <- get data "avatar_url" ;;
     public_repos <- get data "public_repos" ;;
     bio <- get data "bio" ;;
     name <- get data "name" ;;
     company <- get data "company" ;;
     location <- get data "location" ;;
     created_at <- get data "created_at" ;;
     resJson (VObj [
       "exists" =: VBool true;
       "profile" =: VObj [
         "username" =: login;
         "followers" =: followers;
         "following" =: following;
         "avatar_url" =: avatar_url;
         "public_repos" =: public_repos;
         "bio" =: bio;
         "name" =: name;
         "company" =: company;
         "location" =: location;
         "created_at" =: created_at;
         "recent_repos" =: recentRepos ] ]))
    (fun error =>
       if isNotFound error then resJson notFound
       else serverError "Server error fetching GitHub profile").

(** *** Twitter (server.js 77-164) *)

(** One pass of [$('.timeline-item').each((i, el) => ...)]. *)
Definition recentTweet (recentTweets : list Value) (i : nat)
    (item : jsstring * jsstring) : list Value :=
  if i <? 5 then
    let tweetText := trim (fst item) in
    let tweetDate := trim (snd item) in
    match tweetText with
    | [] => recentTweets
    | _ :: _ =>
        recentTweets
        ++ [VObj ["text" =: VStr (if 100 <? length tweetText
                                  then firstn 100 tweetText ++ js "..."
                                  else tweetText);
                  "date" =: VStr tweetDate]]
    end
  else recentTweets.

Fixpoint eachTweet (items : list (jsstring * jsstring)) (i : nat)
    (recentTweets : list Value) : list Value :=
  match items with
  | [] => recentTweets
  | item :: items' => eachTweet items' (i + 1) (recentTweet recentTweets i item)
  end.

Definition twitterGuess (username : jsstring) : M Response :=
  let popularUsernames :=
    [js "elonmusk"; js "google"; js "microsoft"; js "apple"; js "amazon";
     js "netflix"; js "twitter"; js "facebook"; js "instagram"; js "tiktok";
     js "billgates"] in
  let exists_ :=
    arrayIncludes popularUsernames (toLowerCase username)
    || (3 <? length username) in
  if exists_ then
    followers <- randomBelow 10000 ;;
    resJson (VObj ["exists" =: VBool exists_;
                   "profile" =: VObj ["username" =: VStr username;
                                      "followers" =: num followers;
                                      "simulated" =: VBool true]])
  else resJson (VObj ["exists" =: VBool exists_; "profile" =: VNull]).

Definition twitterScrape (result : AxiosResult (option NitterPage))
    (username : jsstring) : M Response :=
  data <- await result ;;
  page <- cheerioLoad data ;;
  if 0 <? errorPanels page then resJson notFound
  else
    let followerText := trim (statNum page 2) in
    followers <- parseTwitterNumbers followerText ;;
    let followingText := trim (statNum page 1) in
    following <- parseTwitterNumbers followingText ;;
    let tweetsText := trim (statNum page 0) in
    tweets <- parseTwitterNumbers tweetsText ;;
    let avatarUrl :=
      match avatarSrc page with
      | Some (c :: src) => VStr (js "https://nitter.net" ++ c :: src)
      | _ => VNull
      end in
    let bio := trim (profileBio page) in
    let displayName := trim (profileFullname page) in
    let location := trim (profileLocation page) in
    let joinDate := trim (removeFirst (js "Joined") (profileJoindate page)) in
    let recentTweets := eachTweet (timelineItems page) 0 [] in
    resJson (VObj [
      "exists" =: VBool true;
      "profile" =: VObj [
        "username" =: VStr username;
        "name" =: VStr displayName;
        "followers" =: followers;
        "following" =: following;
        "tweets" =: tweets;
        "avatar_url" =: avatarUrl;
        "bio" =: VStr bio;
        "location" =: VStr location;
        "joined" =: VStr joinDate;
        "recent_tweets" =: VArr recentTweets;
        "scraped" =: VBool true ] ]).

Definition twitterHandler (result : AxiosResult (option NitterPage))
    (username : jsstring) : M Response :=
  tryCatch
    (tryCatch (twitterScrape result username)
              (fun scrapingError => twitterGuess username))
    (fun error => serverError "Server error fetching Twitter profile").

(** *** Instagram (server.js 167-235) *)

Definition withoutCommas (s : jsstring) : jsstring :=
  filter (fun c => negb (c =? 44)%N) s.

Definition instagramScrape (result : AxiosResult (option InstagramPage))
    (username : jsstring) : M Response :=
  data <- await result ;;
  page <- cheerioLoad data ;;
  let metaDescription := orEmpty (descriptionContent page) in
  let followers :=
    match search (countAt (js "Followers")) metaDescription with
    | Some followerMatch => parseDigits (withoutCommas followerMatch)
    | None => 0%Z
    end in
  let posts :=
    match search (countAt (js "Posts")) metaDescription with
    | Some postsMatch => parseDigits (withoutCommas postsMatch)
    | None => 0%Z
    end in
  let name :=
    match beforeFirstComma metaDescription with
    | Some nameMatch => trim nameMatch
    | None => username
    end in
  resJson (VObj [
    "exists" =: VBool true;
    "profile" =: VObj [
      "username" =: VStr username;
      "name" =: VStr name;
      "followers" =: VNum followers;
      "posts" =: VNum posts;
      "bio" =: VStr metaDescription;
      "scraped" =: VBool true ] ]).

Definition instagramGuess (username : jsstring) : M Response :=
  let popularUsernames :=
    [js "cristiano"; js "leomessi"; js "beyonce"; js "kimkardashian";
     js "arianagrande"; js "nike"; js "natgeo"] in
  let exists_ :=
    arrayIncludes popularUsernames (toLowerCase username)
    || (4 <=? length username) in
  if exists_ then
    followers <- randomBelow 10000 ;;
    resJson (VObj ["exists" =: VBool exists_;
                   "profile" =: VObj ["username" =: VStr username;
                                      "followers" =: num followers;
                                      "simulated" =: VBool true]])
  else resJson (VObj ["exists" =: VBool exists_; "profile" =: VNull]).

Definition instagramHandler (result : AxiosResult (option InstagramPage))
    (username : jsstring) : M Response :=
  tryCatch
    (tryCatch (instagramScrape result username)
              (fun error =>
                 if isNotFound error then resJson notFound
                 else instagramGuess username))
    (fun error => serverError "Server error fetching Instagram profile").

(** *** LinkedIn (server.js 238-284) *)

Definition linkedinUrl (username : jsstring) : jsstring :=
  js "https://www.linkedin.com/in/" ++ username ++ js "/".

Definition linkedinProbe (result : AxiosResult unit) (username : jsstring)
    : M Response :=
  response <- await result ;;
  connections <- randomBelow 500 ;;
  resJson (VObj [
    "exists" =: VBool true;
    "profile" =: VObj [
      "username" =: VStr username;
      "url" =: VStr (linkedinUrl username);
      "estimated_connections" =: num (connections + 200);
      "checked" =: VBool true ] ]).

Definition linkedinGuess (username : jsstring) : M Response :=
  let commonNames :=
    [js "john"; js "david"; js "michael"; js "sarah"; js "robert";
     js "jessica"; js "peter"; js "susan"] in
  let likelyExists :=
    arrayIncludes commonNames (toLowerCase username)
    || ((3 <? length username)
        && negb (includes username (js "test"))
        && negb (includes username (js "123"))) in
  resJson (VObj [
    "exists" =: VBool likelyExists;
    "profile" =: if likelyExists
                 then VObj ["username" =: VStr username;
                            "url" =: VStr (linkedinUrl username);
                            "simulated" =: VBool true]
                 else VNull ]).

Definition linkedinHandler (result : AxiosResult unit) (username : jsstring)
    : M Response :=
  tryCatch
    (tryCatch (linkedinProbe result username)
              (fun error =>
                 if isNotFound error then resJson notFound
                 else linkedinGuess username))
    (fun error => serverError "Server error fetching LinkedIn profile").

(** *** Reddit (server.js 287-341) *)

Definition redditAbout (result : AxiosResult Value) (username : jsstring)
    : M Response :=
  data <- await result ;;
  if truthy data && truthy (member data "data") then
    let userData := member data "data" in
    created_at <-
      match secondsToISOString (member userData "created_utc") with
      | Some iso => ret (VStr iso)
      | None => throw RangeError
      end ;;
    resJson (VObj [
      "exists" =: VBool true;
      "profile" =: VObj [
        "username" =: member userData "name";
        "karma" =: orElse (member userData "total_karma")
                          (plus (member userData "link_karma")
                                (member userData "comment_karma"));
        "link_karma" =: member userData "link_karma";
        "comment_karma" =: member userData "comment_karma";
        "created_at" =: created_at;
        "avatar_url" =: orElse (member userData "icon_img")
                               (member userData "snoovatar_img");
        "is_gold" =: member userData "is_gold";
        "description" =:
          (if truthy (member userData "subreddit")
           then member (member userData "subreddit") "public_description"
           else VStr []);
        "real_api" =: VBool true ] ])
  else resJson notFound.

Definition redditGuess (now : Z) (username : jsstring) : M Response :=
  let popularUsernames :=
    [js "spez"; js "gallowboob"; js "tooshiftyforyou";
     js "commonmisspellingbot"] in
  let exists_ :=
    arrayIncludes popularUsernames (toLowerCase username)
    || (3 <? length username) in
  if exists_ then
    karma <- randomBelow 50000 ;;
    age <- randomBelow (5 * 365 * 24 * 60 * 60 * 1000) ;;
    resJson (VObj [
      "exists" =: VBool exists_;
      "profile" =: VObj [
        "username" =: VStr username;
        "karma" =: num (karma + 100);
        "created_at" =: VStr (toISOString (now - Z.of_N age));
        "simulated" =: VBool true ] ])
  else resJson (VObj ["exists" =: VBool exists_; "profile" =: VNull]).

Definition redditHandler (result : AxiosResult Value) (now : Z)
    (username : jsstring) : M Response :=
  tryCatch
    (tryCatch (redditAbout result username)
              (fun error =>
                 if isNotFound error then resJson notFound
                 else redditGuess now username))
    (fun error => serverError "Server error fetching Reddit profile").

(** *** TikTok (server.js 344-408) *)

Definition tiktokScrape (result : AxiosResult (option TikTokPage))
    (username : jsstring) : M Response :=
  data <- await result ;;
  page <- cheerioLoad data ;;
  let metaTitle := orEmpty (ogTitle page) in
  let metaDescription := orEmpty (ogDescription page) in
  let handle := js "@" ++ username in
  if match metaTitle with [] => false | _ :: _ => includes metaTitle handle end
  then
    let followersMatch := search (magnitudeAt (js "Followers")) metaDescription in
    let likesMatch := search (magnitudeAt (js "Likes")) metaDescription in
    followers <-
      match followersMatch with
      | Some capture => parseTikTokNumber capture
      | None => n <- randomBelow 10000 ;; ret (num n)
      end ;;
    likes <-
      match likesMatch with
      | Some capture => parseTikTokNumber capture
      | None => n <- randomBelow 50000 ;; ret (num n)
      end ;;
    resJson (VObj [
      "exists" =: VBool true;
      "profile" =: VObj [
        "username" =: VStr username;
        "name" =: VStr (trim (removeFirst handle metaTitle));
        "followers" =: followers;
        "likes" =: likes;
        "bio" =: VStr metaDescription;
        "scraped" =: VBool true ] ])
  else resJson notFound.

Definition tiktokGuess (username : jsstring) : M Response :=
  let popularUsernames :=
    [js "charlidamelio"; js "addisonre"; js "khaby.lame"; js "bellapoarch";
     js "zachking"] in
  let exists_ :=
    arrayIncludes popularUsernames (toLowerCase username)
    || (3 <? length username) in
  if exists_ then
    followers <- randomBelow 1000000 ;;
    likes <- randomBelow 10000000 ;;
    resJson (VObj [
      "exists" =: VBool exists_;
      "profile" =: VObj [
        "username" =: VStr username;
        "followers" =: num (followers + 1000);
        "likes" =: num (likes + 10000);
        "simulated" =: VBool true ] ])
  else resJson (VObj ["exists" =: VBool exists_; "profile" =: VNull]).

Definition tiktokHandler (result : AxiosResult (option TikTokPage))
    (username : jsstring) : M Response :=
  tryCatch
    (tryCatch (tiktokScrape result username)
              (fun error =>
                 if isNotFound error then resJson notFound
                 else tiktokGuess username))
    (fun error => serverError "Server error fetching TikTok profile").

(** *** Spotify (server.js 414-868) *)

(** [username.split(sep).map(word => word.charAt(0).toUpperCase()
    + word.slice(1).toLowerCase()).join(' ')]. *)
Definition formatName (sep : codeunit -> bool) (username : jsstring)
    : jsstring :=
  join (js " ")
       (map (fun word => toUpperCase (firstn 1 word)
                         ++ toLowerCase (skipn 1 word))
            (split sep username)).

Definition spotifyUrl (kind normalizedUsername : jsstring) : jsstring :=
  js "https://open.spotify.com/" ++ kind ++ js "/" ++ normalizedUsername.

(** [type === 'account' ? 'user' : 'artist']. *)
Definition urlKind (type : Value) : jsstring :=
  if isString type (js "account") then js "user" else js "artist".

(** The answer for a key of the dataset (server.js 638-649). *)
Definition exactMatch (normalizedUsername : jsstring) : M Response :=
  let profile := knownProfile normalizedUsername in
  resJson (VObj [
    "exists" =: VBool true;
    "profile" =: objectLiteral (
      ["username" =: VStr normalizedUsername]
      ++ spread profile
      ++ ["external_url" =:
            VStr (spotifyUrl (urlKind (member profile "type"))
                             normalizedUsername)]) ]).

(** [Object.keys(knownProfiles).filter(name =>
    compareDistance(normalizedUsername, name) <= 2)]. *)
Definition closeMatches (normalizedUsername : jsstring) : list jsstring :=
  filter (fun name => compareDistance normalizedUsername name <=? 2)
         knownKeys.

Definition matchNote (username : jsstring) (name : Value) : jsstring :=
  js "Exact match '" ++ username ++ js "' not found, showing results for '"
  ++ toText name ++ js "' instead.".

(** The answer for the first close match (server.js 678-692). *)
Definition closeMatch (username closestMatch : jsstring) : M Response :=
  let profile := knownProfile closestMatch in
  type <- get profile "type" ;;
  name <- get profile "name" ;;
  resJson (VObj [
    "exists" =: VBool true;
    "profile" =: objectLiteral (
      ["username" =: VStr closestMatch]
      ++ spread profile
      ++ ["external_url" =: VStr (spotifyUrl (urlKind type) closestMatch);
          "note" =: VStr (matchNote username name)]) ]).

(** The loop that fills [selectedGenres] (server.js 714-720). *)
Definition selectGenre (randomGenreSet : list jsstring) (i : nat)
    (selectedGenres : list Value) : M (list Value) :=
  k <- randomBelow (N.of_nat (length randomGenreSet)) ;;
  let randomGenre := at_ randomGenreSet k in
  if valuesInclude selectedGenres randomGenre then ret selectedGenres
  else ret (selectedGenres ++ [randomGenre]).

Definition selectGenres (randomGenreSet : list jsstring) : M (list Value) :=
  forRandom loopFuel 3 2 (selectGenre randomGenreSet) 0 [].

Definition generateAlbumTitle (formattedName artistName : jsstring)
    : M Value :=
  sequel <- randomBelow 2 ;;
  word <- randomBelow 10 ;;
  let albumTitleFormats :=
    [ VStr (nth 0 (split isSpace artistName) []);
      VStr (js "The " ++ artistName ++ js " Experience");
      VStr (artistName ++ js " " ++ decimal (sequel + 1));
      at_ [js "Euphoria"; js "Dreamer"; js "Midnight"; js "Sunrise";
           js "Horizon"; js "Nostalgia"; js "Revolution"; js "Journey";
           js "Freedom"; js "Utopia"] word;
      VStr (formattedName ++ js "'s World") ] in
  k <- randomBelow (N.of_nat (length albumTitleFormats)) ;;
  ret (nth (N.to_nat k) albumTitleFormats VUndefined).

Definition generateSongTitle (artistName : jsstring) : M Value :=
  word <- randomBelow 10 ;;
  place <- randomBelow 5 ;;
  adjective <- randomBelow 5 ;;
  noun <- randomBelow 6 ;;
  way <- randomBelow 5 ;;
  let songTitleFormats :=
    [ at_ [js "Love"; js "Hate"; js "Dream"; js "Hope"; js "Faith";
           js "Paradise"; js "Heaven"; js "Hell"; js "Life"; js "Time"] word;
      VStr (artistName ++ js "'s Interlude");
      VStr (js "In My "
            ++ toText (at_ [js "Mind"; js "Heart"; js "Soul"; js "Dream";
                            js "World"] place));
      VStr (toText (at_ [js "Beautiful"; js "Crazy"; js "Amazing";
                         js "Perfect"; js "Broken"] adjective)
            ++ js " "
            ++ toText (at_ [js "Day"; js "Night"; js "Love"; js "World";
                            js "Girl"; js "Boy"] noun));
      VStr (js "The "
            ++ toText (at_ [js "Way"; js "Path"; js "Journey"; js "Story";
                            js "Legend"] way)) ] in
  k <- randomBelow (N.of_nat (length songTitleFormats)) ;;
  ret (nth (N.to_nat k) songTitleFormats VUndefined).

(** One pass of the loop that fills [albums] (server.js 750-767). *)
Definition generateAlbum (formattedName : jsstring) (i : nat)
    (albums : list Value) : M (list Value) :=
  let albumYear := (2023 - Z.of_nat i)%Z in
  month <- randomBelow 12 ;;
  let randomMonth := (month + 1)%N in
  day <- randomBelow 28 ;;
  let randomDay := (day + 1)%N in
  name <- generateAlbumTitle formattedName formattedName ;;
  tracks <- randomBelow 8 ;;
  image <- randomBelow 5 ;;
  ret (albums ++ [VObj [
    "name" =: name;
    "release_date" =:
      VStr (toText (VNum albumYear) ++ js "-" ++ padStart2 (decimal randomMonth)
            ++ js "-" ++ padStart2 (decimal randomDay));
    "total_tracks" =: num (tracks + 6);
    "image_url" =: at_ albumImages image ]]).

Definition generateAlbums (formattedName : jsstring) : M (list Value) :=
  forRandom loopFuel 2 2 (generateAlbum formattedName) 0 [].

(** One pass of the loop that fills [topTracks] (server.js 771-780). *)
Definition generateTrack (formattedName : jsstring) (albums : list Value)
    (i : nat) (topTracks : list Value) : M (list Value) :=
  k <- randomBelow (N.of_nat (length albums)) ;;
  let randomAlbum := nth (N.to_nat k) albums VUndefined in
  name <- generateSongTitle formattedName ;;
  popularity <- randomBelow 30 ;;
  album <- get randomAlbum "name" ;;
  release_date <- get randomAlbum "release_date" ;;
  duration <- randomBelow 100000 ;;
  ret (topTracks ++ [VObj [
    "name" =: name;
    "popularity" =: num (popularity + 50);
    "album" =: album;
    "release_date" =: release_date;
    "duration_ms" =: num (duration + 150000) ]]).

Definition generateTopTracks (formattedName : jsstring)
    (albums : list Value) : M (list Value) :=
  forCount 5 (generateTrack formattedName albums) 0 [].

(** The artist-shape profile (server.js 697-805). *)
Definition generateArtist (username normalizedUsername : jsstring)
    : M Response :=
  let formattedName :=
    formatName (fun c => isHyphenOrUnderscore c || isWhiteSpace c) username in
  pool <- randomBelow (N.of_nat (length genres)) ;;
  randomGenreSet <-
    match nth_error genres (N.to_nat pool) with
    | Some set => ret set
    | None => throw TypeError
    end ;;
  selectedGenres <- selectGenres randomGenreSet ;;
  albums <- generateAlbums formattedName ;;
  topTracks <- generateTopTracks formattedName albums ;;
  followers <- randomBelow 50000 ;;
  popularity <- randomBelow 80 ;;
  monthly_listeners <- randomBelow 80000 ;;
  image <- randomBelow 5 ;;
  resJson (VObj [
    "exists" =: VBool true;
    "profile" =: VObj [
      "username" =: VStr normalizedUsername;
      "name" =: VStr formattedName;
      "followers" =: num (followers + 100);
      "popularity" =: num (popularity + 20);
      "monthly_listeners" =: num (monthly_listeners + 1000);
      "image_url" =: at_ artistImages image;
      "type" =: str "artist";
      "genres" =: VArr selectedGenres;
      "top_tracks" =: VArr topTracks;
      "albums" =: VArr albums;
      "simulated" =: VBool true;
      "external_url" =: VStr (spotifyUrl (js "artist") normalizedUsername) ] ]).

Definition generatePlaylistName (formattedName : jsstring) : M Value :=
  let playlistPrefixes :=
    [js "My"; js "Favorite"; js "Best"; js "Ultimate"; js "Top";
     js "Essential"] in
  let playlistTypes :=
    [js "Vibes"; js "Mix"; js "Collection"; js "Playlist"; js "Selections";
     js "Hits"] in
  let playlistGenres :=
    [js "Rock"; js "Pop"; js "Hip Hop"; js "R&B"; js "Electronic";
     js "Indie"; js "Chill"; js "Party"; js "Workout"; js "Focus"] in
  useGenre <- randomAboveHalf ;;
  if useGenre then
    prefix <- randomBelow (N.of_nat (length playlistPrefixes)) ;;
    genre <- randomBelow (N.of_nat (length playlistGenres)) ;;
    ret (VStr (toText (at_ playlistPrefixes prefix) ++ js " "
               ++ toText (at_ playlistGenres genre)))
  else
    type <- randomBelow (N.of_nat (length playlistTypes)) ;;
    ret (VStr (formattedName ++ js "'s " ++ toText (at_ playlistTypes type))).

(** One pass of the loop that fills [playlists] (server.js 832-845). *)
Definition generatePlaylist (formattedName : jsstring) (i : nat)
    (playlists : list Value) : M (list Value) :=
  name <- generatePlaylistName formattedName ;;
  followers <- randomBelow 1000 ;;
  tracks <- randomBelow 50 ;;
  image <- randomBelow 5 ;;
  ret (playlists ++ [VObj [
    "name" =: name;
    "followers" =: num (followers + 10);
    "total_tracks" =: num (tracks + 20);
    "image_url" =: at_ playlistImages image ]]).

(** The listener-shape profile (server.js 810-858). *)
Definition generateUser (username normalizedUsername : jsstring)
    : M Response :=
  let formattedName := formatName isHyphenOrUnderscore username in
  playlists <-
    forRandom loopFuel 3 2 (generatePlaylist formattedName) 0 [] ;;
  followers <- randomBelow 5000 ;;
  resJson (VObj [
    "exists" =: VBool true;
    "profile" =: VObj [
      "username" =: VStr normalizedUsername;
      "name" =: VStr formattedName;
      "followers" =: num (followers + 10);
      "type" =: str "user";
      "playlists" =: VArr playlists;
      "simulated" =: VBool true;
      "external_url" =: VStr (spotifyUrl (js "user") normalizedUsername) ] ]).

(** [username.length > 3 && !username.match(/\d{3,}/)]. *)
Definition likely_artist (username : jsstring) : bool :=
  (3 <? length username) && negb (hasThreeDigits username).

(** [username.length >= 3 && !username.includes(' ')]. *)
Definition isLikelyUser (username : jsstring) : bool :=
  (3 <=? length username) && negb (includes username (js " ")).

(** The guess for a name that is no key and close to none
    (server.js 694-863). *)
Definition spotifyGuess (username normalizedUsername : jsstring)
    : M Response :=
  if likely_artist username then generateArtist username normalizedUsername
  else if isLikelyUser username then generateUser username normalizedUsername
  else resJson notFound.

(** [username.toLowerCase().replace(/\s+/g, '')], then the alias of
    [weeknd]. *)
Definition normalize (username : jsstring) : jsstring :=
  let normalizedUsername := removeWhiteSpace (toLowerCase username) in
  if str_eqb normalizedUsername (js "weeknd")
     && truthy (knownProfile (js "theweeknd"))
  then js "theweeknd" else normalizedUsername.

Definition spotifyResolve (username : jsstring) : M Response :=
  let normalizedUsername := normalize username in
  if truthy (knownProfile normalizedUsername) then
    exactMatch normalizedUsername
  else
    match closeMatches normalizedUsername with
    | closestMatch :: _ => closeMatch username closestMatch
    | [] => spotifyGuess username normalizedUsername
    end.

Definition spotifyHandler (username : jsstring) : M Response :=
  tryCatch (spotifyResolve username)
           (fun error => serverError "Server error fetching Spotify profile").

(** *** The dispatcher *)

Inductive Platform : Type :=
  GitHub | Twitter | Instagram | LinkedIn | Reddit | TikTok | Spotify.

(** A request together with what the outside world answers while it is
    served. *)
Inductive Request : Type :=
| GithubRequest (username : jsstring) (user repos : AxiosResult Value)
| TwitterRequest (username : jsstring)
    (result : AxiosResult (option NitterPage))
| InstagramRequest (username : jsstring)
    (result : AxiosResult (option InstagramPage))
| LinkedinRequest (username : jsstring) (result : AxiosResult unit)
| RedditRequest (username : jsstring) (result : AxiosResult Value) (now : Z)
| TiktokRequest (username : jsstring)
    (result : AxiosResult (option TikTokPage))
| SpotifyRequest (username : jsstring).

Definition platformOf (q : Request) : Platform :=
  match q with
  | GithubRequest _ _ _ => GitHub
  | TwitterRequest _ _ => Twitter
  | InstagramRequest _ _ => Instagram
  | LinkedinRequest _ _ => LinkedIn
  | RedditRequest _ _ _ => Reddit
  | TiktokRequest _ _ => TikTok
  | SpotifyRequest _ => Spotify
  end.

Definition handle (q : Request) : M Response :=
  match q with
  | GithubRequest username user repos => githubHandler user repos username
  | TwitterRequest username result => twitterHandler result username
  | InstagramRequest username result => instagramHandler result username
  | LinkedinRequest username result => linkedinHandler result username
  | RedditRequest username result now => redditHandler result now username
  | TiktokRequest username result => tiktokHandler result username
  | SpotifyRequest username => spotifyHandler username
  end.

(** *** Vocabulary of the properties *)

(** The value [Math.floor(Math.random() * n)] takes on the source [r]. *)
Definition draw (r : Rng) (n : N) : N :=
  (r 0%nat mod precision * n / precision)%N.

(** A request whose live call is rejected with the given response status
    ([None]: the remote never answered).  Spotify makes no live call. *)
Definition rejectedRequest (p : Platform) (st : option nat) (now : Z)
    (username : jsstring) : Request :=
  match p with
  | GitHub => GithubRequest username (Rejected st) (Rejected st)
  | Twitter => TwitterRequest username (Rejected st)
  | Instagram => InstagramRequest username (Rejected st)
  | LinkedIn => LinkedinRequest username (Rejected st)
  | Reddit => RedditRequest username (Rejected st) now
  | TikTok => TiktokRequest username (Rejected st)
  | Spotify => SpotifyRequest username
  end.

(** The live step of a request and the fallback that stands behind it, for
    the platforms that have both: the body of the inner [try] and what its
    [catch] does once the 404 test, where there is one, has failed. *)
Definition liveStep (q : Request) : option (M Response * M Response) :=
  match q with
  | TwitterRequest username result =>
      Some (twitterScrape result username, twitterGuess username)
  | InstagramRequest username result =>
      Some (instagramScrape result username, instagramGuess username)
  | LinkedinRequest username result =>
      Some (linkedinProbe result username, linkedinGuess username)
  | RedditRequest username result now =>
      Some (redditAbout result username, redditGuess now username)
  | TiktokRequest username result =>
      Some (tiktokScrape result username, tiktokGuess username)
  | GithubRequest _ _ _ | SpotifyRequest _ => None
  end.

(** A well-formed [ProfileResult] sent with HTTP 200: both fields are there,
    [profile] is an object exactly when [exists] is true and [null]
    otherwise. *)
Definition WellFormedResult (r : Response) : Prop :=
  status r = 200
  /\ exists (b : bool) (profile : Value),
       body r = VObj ["exists" =: VBool b; "profile" =: profile]
       /\ if b then exists props, profile = VObj props else profile = VNull.

(** A profile that is tagged [simulated: true]. *)
Definition Simulated (profile : Value) : Prop :=
  member profile "simulated" = VBool true.

(** The envelope as the handlers send it with HTTP 200: [exists] is a
    boolean; [profile] is an object when it is true; when it is false,
    [profile] is [null] or is not a property of the body at all. *)
Definition Envelope (r : Response) : Prop :=
  status r = 200
  /\ exists (b : bool) (props : list (string * Value)),
       body r = VObj props
       /\ lookup "exists" props = Some (VBool b)
       /\ if b then exists fields, lookup "profile" props = Some (VObj fields)
          else lookup "profile" props = Some VNull
               \/ lookup "profile" props = None.

(** The answer to an internal fault. *)
Definition ErrorResponse (r : Response) : Prop :=
  status r = 500 /\ exists message, body r = VObj ["error" =: VStr message].

(** The answer of the not-found branches: [{ exists: false }], sent with
    HTTP 200. *)
Definition notFoundResponse : Response := {| status := 200; body := notFound |}.

(** An entry of [genres], [top_tracks], [albums] is a string or an object. *)
Definition isStringIn (pool : list jsstring) (v : Value) : Prop :=
  exists s, v = VStr s /\ In s pool.

(** An album as [generateAlbum] builds it: four properties, a string for a
    name. *)
Definition IsAlbum (v : Value) : Prop :=
  exists name date tracks image,
    v = VObj ["name" =: VStr name; "release_date" =: VStr date;
              "total_tracks" =: tracks; "image_url" =: image].

(** A track that names one of [albums]. *)
Definition TrackOf (albums : list Value) (track : Value) : Prop :=
  exists album, In album albums /\ IsAlbum album
                /\ member track "album" = member album "name".

(** [/\d{3,}/] matches: three decimal digits stand in a row somewhere. *)
Definition ThreeDigitsInARow (s : jsstring) : Prop :=
  exists before a b c after,
    s = before ++ a :: b :: c :: after
    /\ isDigit a = true /\ isDigit b = true /\ isDigit c = true.

(** The answer that substitutes the record of [closest] for an exact match
    (server.js 683-691). *)
Definition substitution (username closest : jsstring) (record : Value)
    (name : jsstring) : Response :=
  {| status := 200;
     body := VObj [
       "exists" =: VBool true;
       "profile" =: objectLiteral (
         ["username" =: VStr closest]
         ++ spread record
         ++ ["external_url" =:
               VStr (spotifyUrl (urlKind (member record "type")) closest);
             "note" =:
               VStr (js "Exact match '" ++ username
                     ++ js "' not found, showing results for '" ++ name
                     ++ js "' instead.")]) ] |}.

(** The genres of a synthetic artist profile: between [least] and 4 tags,
    no tag twice, all of them strings of one pool of [genres]. *)
Definition GenresOfOnePool (least : nat) (profile : Value) : Prop :=
  exists pool selectedGenres,
    member profile "genres" = VArr selectedGenres
    /\ In pool genres
    /\ least <= length selectedGenres <= 4
    /\ NoDup selectedGenres
    /\ Forall (fun tag => exists s, tag = VStr s /\ In s pool) selectedGenres.

(** *** Invariants of the loops and outcomes of the handlers *)

(** What the genre loop keeps true of [selectedGenres] after [k] passes. *)
Definition GenresAfter (pool : list jsstring) (k : nat)
    (selectedGenres : list Value) : Prop :=
  length selectedGenres <= k
  /\ (1 <= k -> 1 <= length selectedGenres)
  /\ NoDup selectedGenres
  /\ Forall (isStringIn pool) selectedGenres.

(** What the album loop keeps true of [albums] after [k] passes. *)
Definition AlbumsAfter (k : nat) (albums : list Value) : Prop :=
  length albums = k /\ Forall IsAlbum albums.

(** What the track loop keeps true of [topTracks] after [k] passes. *)
Definition TracksAfter (albums : list Value) (k : nat)
    (topTracks : list Value) : Prop :=
  length topTracks = k /\ Forall (TrackOf albums) topTracks.

(** [Settles P m]: from any state of the random source, [m] ends with a
    value that satisfies [P] or with an exception; it never runs out of
    fuel.  [Answers P m]: it ends with a value that satisfies [P]. *)
Definition Settles {A} (P : A -> Prop) (m : M A) : Prop :=
  forall r, match fst (m r) with
            | Normal a => P a
            | Throw _ => True
            | OutOfFuel => False
            end.

Definition Answers {A} (P : A -> Prop) (m : M A) : Prop :=
  forall r, exists a r', m r = (Normal a, r') /\ P a.

(** An envelope or the answer to an internal fault: what a handler may
    send. *)
Definition Sendable (resp : Response) : Prop :=
  Envelope resp \/ ErrorResponse resp.

(** A guess answers with a well-formed result; what it says exists is
    tagged as simulated. *)
Definition GuessResult (resp : Response) : Prop :=
  WellFormedResult resp
  /\ (member (body resp) "exists" = VBool true ->
      Simulated (member (body resp) "profile")).


(** No entry of an object literal names the key [k]. *)
Definition lacks (k : string) (entries : list (string * Value)) : bool :=
  forallb (fun kv => negb (String.eqb (fst kv) k)) entries.

(** *** Vocabulary of the further properties *)

(** The lengths of two strings differ by at most [d]. *)
Definition LengthsWithin (d : nat) (a b : jsstring) : Prop :=
  length a <= length b + d /\ length b <= length a + d.

(** The answer for a key of the dataset (server.js 641-648). *)
Definition exactAnswer (key : jsstring) (record : Value) : Response :=
  {| status := 200;
     body := VObj [
       "exists" =: VBool true;
       "profile" =: objectLiteral (
         ["username" =: VStr key]
         ++ spread record
         ++ ["external_url" =:
               VStr (spotifyUrl (urlKind (member record "type")) key)]) ] |}.

(** The answer is sent with HTTP 200. *)
Definition Ok200 (resp : Response) : Prop := status resp = 200.

(** The three ways the Spotify handler answers a query. *)
Inductive SpotifyPath (username : jsstring) (r : Rng) : Prop :=
| ExactPath (record : Value) :
    truthy (knownProfile (normalize username)) = true ->
    knownProfile (normalize username) = record ->
    spotifyHandler username r
    = (Normal (exactAnswer (normalize username) record), r) ->
    SpotifyPath username r
| ClosePath (closest : jsstring) (rest : list jsstring)
    (record : Value) (name : jsstring) :
    truthy (knownProfile (normalize username)) = false ->
    closeMatches (normalize username) = closest :: rest ->
    ownProfile knownProfiles closest = Some record ->
    member record "name" = VStr name ->
    spotifyHandler username r
    = (Normal (substitution username closest record name), r) ->
    SpotifyPath username r
| GuessPath :
    truthy (knownProfile (normalize username)) = false ->
    closeMatches (normalize username) = [] ->
    spotifyHandler username r
    = spotifyGuess username (normalize username) r ->
    SpotifyPath username r.

(** *** The figures of the synthetic profiles *)

(** The date the album loop writes: the year, then the month and the day
    padded to two digits. *)
Definition dateString (year : Z) (month day : N) : jsstring :=
  toText (VNum year) ++ js "-" ++ padStart2 (decimal month)
  ++ js "-" ++ padStart2 (decimal day).

(** The album of pass [i] of the loop: dated in the year [2023 - i], on a
    day that every month has. *)
Definition DatedAlbum (i : nat) (album : Value) : Prop :=
  exists name month day tracks image,
    album = VObj ["name" =: VStr name;
                  "release_date" =:
                    VStr (dateString (2023 - Z.of_nat i) month day);
                  "total_tracks" =: num tracks;
                  "image_url" =: VStr image]
    /\ (1 <= month <= 12)%N /\ (1 <= day <= 28)%N
    /\ length (dateString (2023 - Z.of_nat i) month day) = 10
    /\ (6 <= tracks <= 13)%N
    /\ In image albumImages.

(** The albums after [k] passes: one for each pass, in the order of the
    passes. *)
Definition AlbumsDated (k : nat) (albums : list Value) : Prop :=
  length albums = k
  /\ forall i, i < k -> DatedAlbum i (nth i albums VUndefined).

(** A track that takes its album name and its release date from one and
    the same album. *)
Definition TrackFrom (albums : list Value) (track : Value) : Prop :=
  exists title popularity album duration,
    track = VObj ["name" =: VStr title;
                  "popularity" =: num popularity;
                  "album" =: member album "name";
                  "release_date" =: member album "release_date";
                  "duration_ms" =: num duration]
    /\ In album albums
    /\ (50 <= popularity < 80)%N
    /\ (150000 <= duration < 250000)%N.

(** The scalar fields of a synthetic artist profile. *)
Definition ArtistFigures (username normalizedUsername : jsstring)
    (profile : Value) : Prop :=
  exists followers popularity listeners image,
    member profile "username" = VStr normalizedUsername
    /\ member profile "name"
       = VStr (formatName
                 (fun c => isHyphenOrUnderscore c || isWhiteSpace c) username)
    /\ member profile "external_url"
       = VStr (js "https://open.spotify.com/artist/" ++ normalizedUsername)
    /\ member profile "followers" = num followers
    /\ (100 <= followers < 50100)%N
    /\ member profile "popularity" = num popularity
    /\ (20 <= popularity < 100)%N
    /\ member profile "monthly_listeners" = num listeners
    /\ (1000 <= listeners < 81000)%N
    /\ member profile "image_url" = VStr image
    /\ In image artistImages.

(** The albums of a synthetic artist profile, most recent first. *)
Definition AlbumsYearByYear (profile : Value) : Prop :=
  exists albums,
    member profile "albums" = VArr albums
    /\ 2 <= length albums <= 3
    /\ forall i, i < length albums -> DatedAlbum i (nth i albums VUndefined).

(** The tracks of a synthetic artist profile. *)
Definition TracksFromAlbums (profile : Value) : Prop :=
  exists topTracks albums,
    member profile "top_tracks" = VArr topTracks
    /\ member profile "albums" = VArr albums
    /\ length topTracks = 5
    /\ Forall (TrackFrom albums) topTracks.

(** A playlist of a synthetic listener profile. *)
Definition IsPlaylist (playlist : Value) : Prop :=
  exists name followers tracks image,
    playlist = VObj ["name" =: VStr name;
                     "followers" =: num followers;
                     "total_tracks" =: num tracks;
                     "image_url" =: VStr image]
    /\ (10 <= followers < 1010)%N
    /\ (20 <= tracks < 70)%N
    /\ In image playlistImages.

(** A synthetic listener profile. *)
Definition ListenerFigures (username normalizedUsername : jsstring)
    (profile : Value) : Prop :=
  exists followers playlists,
    member profile "username" = VStr normalizedUsername
    /\ member profile "name"
       = VStr (formatName isHyphenOrUnderscore username)
    /\ member profile "external_url"
       = VStr (js "https://open.spotify.com/user/" ++ normalizedUsername)
    /\ member profile "followers" = num followers
    /\ (10 <= followers < 5010)%N
    /\ member profile "playlists" = VArr playlists
    /\ 2 <= length playlists <= 4
    /\ Forall IsPlaylist playlists.

(** *** The live handlers *)

(** The user name a request asks for. *)
Definition usernameOf (q : Request) : jsstring :=
  match q with
  | GithubRequest username _ _ => username
  | TwitterRequest username _ => username
  | InstagramRequest username _ => username
  | LinkedinRequest username _ => username
  | RedditRequest username _ _ => username
  | TiktokRequest username _ => username
  | SpotifyRequest username => username
  end.

(** The figures a fallback guess puts into its profile, platform by
    platform. *)
Definition GuessFigures (q : Request) (profile : Value) : Prop :=
  match q with
  | TwitterRequest _ _ | InstagramRequest _ _ =>
      exists followers,
        member profile "followers" = num followers
        /\ (followers < 10000)%N
  | LinkedinRequest username _ =>
      member profile "url" = VStr (linkedinUrl username)
  | RedditRequest _ _ now =>
      exists karma age,
        member profile "karma" = num karma
        /\ (100 <= karma < 50100)%N
        /\ member profile "created_at"
           = VStr (toISOString (now - Z.of_N age))
        /\ (age < 157680000000)%N
  | TiktokRequest _ _ =>
      exists followers likes,
        member profile "followers" = num followers
        /\ (1000 <= followers < 1001000)%N
        /\ member profile "likes" = num likes
        /\ (10000 <= likes < 10010000)%N
  | GithubRequest _ _ _ | SpotifyRequest _ => True
  end.

(** The answer of a guess that finds the name implausible. *)
Definition implausible : Response :=
  {| status := 200;
     body := VObj ["exists" =: VBool false; "profile" =: VNull] |}.

(** A TikTok page whose description states no count. *)
Definition tiktokPlain : TikTokPage :=
  {| ogTitle := Some (js "Zach King (@zachking) | TikTok");
     ogDescription := Some (js "Watch the latest videos") |}.

(** The answer the TikTok handler tags [scraped: true]
    (server.js 368-378). *)
Definition tiktokScraped (username : jsstring) (page : TikTokPage)
    (followers likes : N) : Response :=
  {| status := 200;
     body := VObj [
       "exists" =: VBool true;
       "profile" =: VObj [
         "username" =: VStr username;
         "name" =: VStr (trim (removeFirst (js "@" ++ username)
                                 (orEmpty (ogTitle page))));
         "followers" =: num followers;
         "likes" =: num likes;
         "bio" =: VStr (orEmpty (ogDescription page));
         "scraped" =: VBool true ] ] |}.

(** A group of a count written with separators: decimal digits, at least
    one. *)
Definition DigitGroup (group : jsstring) : Prop :=
  group <> [] /\ Forall (fun c => isDigit c = true) group.

(** [v == null]: the two values whose properties cannot be read. *)
Definition isNullish (v : Value) : bool :=
  match v with
  | VUndefined | VNull => true
  | _ => false
  end.

(** What the GitHub handler keeps of an entry of the repository list
    (server.js 44-50). *)
Definition repoSummary (repo : Value) : Value :=
  VObj ["name" =: member repo "name";
        "description" =: member repo "description";
        "url" =: member repo "html_url";
        "stars" =: member repo "stargazers_count";
        "language" =: member repo "language"].

(** The answer of the GitHub handler to two payloads (server.js 52-67). *)
Definition githubAnswer (data : Value) (repos : list Value) : Response :=
  {| status := 200;
     body := VObj [
       "exists" =: VBool true;
       "profile" =: VObj [
         "username" =: member data "login";
         "followers" =: member data "followers";
         "following" =: member data "following";
         "avatar_url" =: member data "avatar_url";
         "public_repos" =: member data "public_repos";
         "bio" =: member data "bio";
         "name" =: member data "name";
         "company" =: member data "company";
         "location" =: member data "location";
         "created_at" =: member data "created_at";
         "recent_repos" =: VArr (map repoSummary repos) ] ] |}.

(** The answer of the GitHub handler to a fault (server.js 72). *)
Definition githubFailure : Response :=
  {| status := 500;
     body := VObj ["error" =: str "Server error fetching GitHub profile"] |}.

(** A tweet as the Twitter handler lists it: a text that is not empty and
    has at most 100 code units and the three dots, and a date. *)
Definition IsTweet (tweet : Value) : Prop :=
  exists text date,
    tweet = VObj ["text" =: VStr text; "date" =: VStr date]
    /\ 1 <= length text <= 103.

(** The answer of the Reddit handler to a payload with [data] and a valid
    date (server.js 301-314). *)
Definition redditAnswer (data : Value) (iso : jsstring) : Response :=
  let userData := member data "data" in
  {| status := 200;
     body := VObj [
       "exists" =: VBool true;
       "profile" =: VObj [
         "username" =: member userData "name";
         "karma" =: orElse (member userData "total_karma")
                           (plus (member userData "link_karma")
                                 (member userData "comment_karma"));
         "link_karma" =: member userData "link_karma";
         "comment_karma" =: member userData "comment_karma";
         "created_at" =: VStr iso;
         "avatar_url" =: orElse (member userData "icon_img")
                                (member userData "snoovatar_img");
         "is_gold" =: member userData "is_gold";
         "description" =:
           (if truthy (member userData "subreddit")
            then member (member userData "subreddit") "public_description"
            else VStr []);
         "real_api" =: VBool true ] ] |}.

(** *** The tracks of a synthetic artist and the answer to a close match *)

(** The shape of a synthetic artist profile: [top_tracks] has exactly 5
    entries and [albums] has 2 or 3; every album is an album of the album
    loop, the one at index [i] dated in the year [2023 - i]; every track is
    a track of the track loop, and its [album] is a string, the [name] of
    one of the albums. *)
Definition FiveTracksOnItsAlbums (profile : Value) : Prop :=
  exists topTracks albums,
    member profile "top_tracks" = VArr topTracks
    /\ member profile "albums" = VArr albums
    /\ length topTracks = 5
    /\ 2 <= length albums <= 3
    /\ (forall i, i < length albums -> DatedAlbum i (nth i albums VUndefined))
    /\ Forall (TrackFrom albums) topTracks
    /\ Forall (fun track =>
                 exists album name,
                   In album albums
                   /\ member album "name" = VStr name
                   /\ member track "album" = VStr name)
              topTracks.

(** What the answer to a close match holds, property by property: HTTP 200
    and [exists: true]; the [username] is the substituted key; every
    property of the substituted record is there with the record's value,
    its [name] among them; the [note] quotes the query as it was sent and
    that name; the link is a user link for an account and an artist link
    otherwise; nothing is tagged [simulated]. *)
Definition SubstitutedAnswer (username closest : jsstring) (record : Value)
    (name : jsstring) (resp : Response) : Prop :=
  status resp = 200
  /\ member (body resp) "exists" = VBool true
  /\ member (member (body resp) "profile") "username" = VStr closest
  /\ member (member (body resp) "profile") "name" = VStr name
  /\ member (member (body resp) "profile") "note"
     = VStr (js "Exact match '" ++ username
             ++ js "' not found, showing results for '" ++ name
             ++ js "' instead.")
  /\ member (member (body resp) "profile") "external_url"
     = VStr (js "https://open.spotify.com/"
             ++ (if isString (member record "type") (js "account")
                 then js "user" else js "artist")
             ++ js "/" ++ closest)
  /\ member (member (body resp) "profile") "simulated" = VUndefined
  /\ (forall key,
        member record key <> VUndefined ->
        member (member (body resp) "profile") key = member record key).

(* ================================================================== *)
(** ** Properties of the edit distance *)
(* ================================================================== *)

Lemma unit_eqb_eq (a b : codeunit) : unit_eqb a b = true <-> a = b.
Proof. apply N.eqb_eq. Qed.

Lemma unit_eqb_refl (a : codeunit) : unit_eqb a a = true.
Proof. apply N.eqb_refl. Qed.

Lemma str_eqb_eq (a b : jsstring) : str_eqb a b = true <-> a = b.
Proof.
  revert b; induction a as [|x a IH]; intros [|y b]; simpl; split;
    try congruence; try reflexivity.
  - intros H. apply andb_true_iff in H as [H1 H2].
    apply unit_eqb_eq in H1. apply IH in H2. congruence.
  - intros H. injection H as -> ->. rewrite unit_eqb_refl. simpl.
    now apply IH.
Qed.

Lemma levenshtein_nil_l (b : jsstring) : levenshtein [] b = length b.
Proof. reflexivity. Qed.

Lemma levenshtein_nil_r (a : jsstring) : levenshtein a [] = length a.
Proof. destruct a; reflexivity. Qed.

Lemma levenshtein_cons (x y : codeunit) (a b : jsstring) :
  levenshtein (x :: a) (y :: b) =
  min3 (levenshtein a (y :: b) + 1) (levenshtein (x :: a) b + 1)
       (levenshtein a b + (if unit_eqb x y then 0 else 1)).
Proof. reflexivity. Qed.

Ltac lev_cases :=
  unfold min3 in *;
  repeat match goal with
         | |- context [if ?c then _ else _] => destruct c
         end;
  lia.

(** Dropping the head of the first string costs at most one edit. *)
Lemma levenshtein_drop_l (x : codeunit) (a b : jsstring) :
  levenshtein (x :: a) b <= S (levenshtein a b).
Proof.
  destruct b as [|y b].
  - rewrite !levenshtein_nil_r. simpl. lia.
  - rewrite levenshtein_cons. lev_cases.
Qed.

Lemma levenshtein_drop_r (y : codeunit) (a b : jsstring) :
  levenshtein a (y :: b) <= S (levenshtein a b).
Proof.
  destruct a as [|x a].
  - simpl. lia.
  - rewrite levenshtein_cons. lev_cases.
Qed.

Lemma levenshtein_add_l (x : codeunit) (a b : jsstring) :
  levenshtein a b <= S (levenshtein (x :: a) b).
Proof.
  induction b as [|y b IH].
  - rewrite !levenshtein_nil_r. simpl. lia.
  - rewrite levenshtein_cons.
    pose proof (levenshtein_drop_r y a b). lev_cases.
Qed.

Lemma levenshtein_change_l (x y : codeunit) (a b : jsstring) :
  levenshtein (x :: a) b <= S (levenshtein (y :: a) b).
Proof.
  induction b as [|z b IH].
  - rewrite !levenshtein_nil_r. simpl. lia.
  - rewrite !levenshtein_cons. lev_cases.
Qed.

(** One edit of the first string moves the distance by at most one. *)
Lemma levenshtein_edit1 (a b : jsstring) :
  edit1 a b -> forall c, levenshtein a c <= S (levenshtein b c).
Proof.
  induction 1 as [x s|x s|x y s|x s t Hst IH]; intros c.
  - apply levenshtein_add_l.
  - apply levenshtein_drop_l.
  - apply levenshtein_change_l.
  - induction c as [|z c IHc].
    + rewrite !levenshtein_nil_r. specialize (IH []).
      rewrite !levenshtein_nil_r in IH. simpl. lia.
    + rewrite !levenshtein_cons.
      pose proof (IH (z :: c)). pose proof (IH c). lev_cases.
Qed.

Lemma levenshtein_self (a : jsstring) : levenshtein a a = 0.
Proof.
  induction a as [|x a IH]; [reflexivity|].
  rewrite levenshtein_cons, IH, unit_eqb_refl. unfold min3. lia.
Qed.

(** No script of edits is shorter than the recurrence says. *)
Lemma levenshtein_lower (n : nat) (a b : jsstring) :
  edits n a b -> levenshtein a b <= n.
Proof.
  induction 1 as [a|n a b c Hab Hbc IH].
  - rewrite levenshtein_self. lia.
  - pose proof (levenshtein_edit1 _ _ Hab c). lia.
Qed.

Lemma edits_later (c : codeunit) (n : nat) (a b : jsstring) :
  edits n a b -> edits n (c :: a) (c :: b).
Proof.
  induction 1 as [a|n a b d Hab Hbd IH].
  - constructor.
  - eapply edits_step; [apply edit_later; exact Hab | exact IH].
Qed.

Lemma edits_then (n : nat) (s t u : jsstring) :
  edits n s t -> edit1 t u -> edits (S n) s u.
Proof.
  intros H; revert u.
  induction H as [a|n a b d Hab Hbd IH]; intros u Hu.
  - eapply edits_step; [exact Hu | constructor].
  - eapply edits_step; [exact Hab | apply IH, Hu].
Qed.

Lemma edits_build (a : jsstring) : edits (length a) [] a.
Proof.
  induction a as [|x a IH]; simpl; [constructor|].
  apply edits_step with (b := [x]).
  - constructor.
  - now apply edits_later.
Qed.

Lemma edits_erase (a : jsstring) : edits (length a) a [].
Proof.
  induction a as [|x a IH]; simpl; [constructor|].
  eapply edits_step; [apply edit_delete | exact IH].
Qed.

(** A script of exactly [levenshtein a b] edits exists. *)
Lemma levenshtein_reached (a b : jsstring) : edits (levenshtein a b) a b.
Proof.
  revert b; induction a as [|x a IHa]; intros b.
  - simpl. apply edits_build.
  - induction b as [|y b IHb].
    + rewrite levenshtein_nil_r. apply edits_erase.
    + rewrite levenshtein_cons. unfold min3.
      destruct (Nat.min_spec (levenshtein a (y :: b) + 1)
                  (levenshtein (x :: a) b + 1)) as [[_ E1]|[_ E1]];
        rewrite E1; clear E1.
      * match goal with |- edits (Nat.min ?p ?q) _ _ =>
          destruct (Nat.min_spec p q) as [[_ E2]|[_ E2]]; rewrite E2; clear E2
        end.
        -- rewrite Nat.add_1_r. eapply edits_step; [apply edit_delete|].
           apply IHa.
        -- destruct (unit_eqb x y) eqn:E.
           ++ apply unit_eqb_eq in E; subst y. rewrite Nat.add_0_r.
              apply edits_later, IHa.
           ++ rewrite Nat.add_1_r.
              eapply edits_step; [apply (edit_substitute x y)|].
              apply edits_later, IHa.
      * match goal with |- edits (Nat.min ?p ?q) _ _ =>
          destruct (Nat.min_spec p q) as [[_ E2]|[_ E2]]; rewrite E2; clear E2
        end.
        -- rewrite Nat.add_1_r.
           (* reach [b] first, then insert [y] in front *)
           eapply edits_then; [exact IHb | apply edit_insert].
        -- destruct (unit_eqb x y) eqn:E.
           ++ apply unit_eqb_eq in E; subst y. rewrite Nat.add_0_r.
              apply edits_later, IHa.
           ++ rewrite Nat.add_1_r.
              eapply edits_step; [apply (edit_substitute x y)|].
              apply edits_later, IHa.
Qed.

Lemma levenshtein_minimum (a b : jsstring) :
  MinimumEdits a b (levenshtein a b).
Proof.
  split; [apply levenshtein_reached | intros n; apply levenshtein_lower].
Qed.

Lemma MinimumEdits_unique (a b : jsstring) (d e : nat) :
  MinimumEdits a b d -> MinimumEdits a b e -> d = e.
Proof.
  intros [Hd Ld] [He Le]. apply Nat.le_antisymm; auto.
Qed.

(** *** Symmetry and reversal *)

Lemma edit1_sym (a b : jsstring) : edit1 a b -> edit1 b a.
Proof. induction 1; constructor; assumption. Qed.

Lemma edits_sym (n : nat) (a b : jsstring) : edits n a b -> edits n b a.
Proof.
  induction 1 as [a|n a b c Hab Hbc IH]; [constructor|].
  eapply edits_then; [exact IH | apply edit1_sym, Hab].
Qed.

Lemma edit1_app_l (p s t : jsstring) : edit1 s t -> edit1 (p ++ s) (p ++ t).
Proof. intros H; induction p; simpl; [assumption | now constructor]. Qed.

Lemma edit1_app_r (q s t : jsstring) : edit1 s t -> edit1 (s ++ q) (t ++ q).
Proof. induction 1; simpl; constructor; assumption. Qed.

Lemma edit1_rev (a b : jsstring) : edit1 a b -> edit1 (rev a) (rev b).
Proof.
  induction 1 as [c s|c s|c d s|c s t Hst IH]; simpl.
  - rewrite <- (app_nil_r (rev s)) at 1. apply edit1_app_l, edit_insert.
  - rewrite <- (app_nil_r (rev s)) at 2. apply edit1_app_l, edit_delete.
  - apply edit1_app_l, edit_substitute.
  - apply edit1_app_r, IH.
Qed.

Lemma edits_rev (n : nat) (a b : jsstring) :
  edits n a b -> edits n (rev a) (rev b).
Proof.
  induction 1 as [a|n a b c Hab Hbc IH]; [constructor|].
  eapply edits_step; [apply edit1_rev, Hab | exact IH].
Qed.

Lemma levenshtein_sym (a b : jsstring) : levenshtein a b = levenshtein b a.
Proof.
  apply Nat.le_antisymm; apply levenshtein_lower, edits_sym,
    levenshtein_reached.
Qed.

Lemma levenshtein_rev (a b : jsstring) :
  levenshtein (rev a) (rev b) = levenshtein a b.
Proof.
  apply Nat.le_antisymm.
  - apply levenshtein_lower, edits_rev, levenshtein_reached.
  - rewrite <- (rev_involutive a), <- (rev_involutive b) at 1.
    apply levenshtein_lower, edits_rev, levenshtein_reached.
Qed.

Lemma levenshtein_zero (a b : jsstring) : levenshtein a b = 0 <-> a = b.
Proof.
  split.
  - intros H. pose proof (levenshtein_reached a b) as E. rewrite H in E.
    inversion E; reflexivity.
  - intros ->. apply levenshtein_self.
Qed.

(** *** The rows of [compareDistance] hold the distances between prefixes *)

Lemma nth_map_seq (f : nat -> nat) (n j d : nat) :
  j < n -> nth j (map f (seq 0 n)) d = f j.
Proof.
  intros H. rewrite (nth_indep _ d (f 0)) by now rewrite length_map, length_seq.
  rewrite map_nth, seq_nth by assumption. reflexivity.
Qed.

Lemma firstn_snoc (l : jsstring) (k : nat) (x : codeunit) :
  nth_error l k = Some x -> firstn (S k) l = firstn k l ++ [x].
Proof.
  revert k; induction l as [|y l IH]; intros [|k] H; simpl in *;
    try discriminate.
  - congruence.
  - f_equal. now apply IH.
Qed.

Lemma levenshteinRev_snoc (x y : codeunit) (a b : jsstring) :
  levenshteinRev (a ++ [x]) (b ++ [y]) =
  min3 (levenshteinRev a (b ++ [y]) + 1) (levenshteinRev (a ++ [x]) b + 1)
       (levenshteinRev a b + (if unit_eqb x y then 0 else 1)).
Proof.
  unfold levenshteinRev. rewrite !rev_app_distr. simpl rev. simpl app.
  apply levenshtein_cons.
Qed.

Lemma levenshteinRev_nil_r (a : jsstring) : levenshteinRev a [] = length a.
Proof.
  unfold levenshteinRev. simpl. now rewrite levenshtein_nil_r, length_rev.
Qed.

Lemma levenshteinRev_nil_l (b : jsstring) : levenshteinRev [] b = length b.
Proof. unfold levenshteinRev. simpl. now rewrite length_rev. Qed.

Lemma tableRow_0 (s1 s2 : jsstring) :
  tableRow s1 s2 0 = seq 0 (length s2 + 1).
Proof.
  unfold tableRow. rewrite <- (map_id (seq 0 (length s2 + 1))) at 2.
  apply map_ext_in. intros j Hj. apply in_seq in Hj.
  simpl firstn. rewrite levenshteinRev_nil_l, length_firstn. lia.
Qed.

Lemma innerLoop_row (s1 s2 : jsstring) (i j : nat) :
  i < length s1 -> j <= length s2 ->
  fold_left (innerStep s1 s2 i (tableRow s1 s2 i)) (seq 0 j) [i + 1] =
  map (fun j' => levenshteinRev (firstn (i + 1) s1) (firstn j' s2))
      (seq 0 (j + 1)).
Proof.
  intros Hi. induction j as [|j IH]; intros Hj.
  - simpl. rewrite levenshteinRev_nil_r, length_firstn. f_equal. lia.
  - rewrite seq_S, fold_left_app, IH by lia. simpl fold_left.
    replace (S j + 1) with (S (j + 1)) by lia.
    rewrite (seq_S (j + 1)), map_app. simpl map.
    unfold innerStep. f_equal. f_equal.
    unfold tableRow. rewrite !nth_map_seq by lia.
    destruct (nth_error s1 i) as [x|] eqn:Ex;
      [|apply nth_error_None in Ex; lia].
    destruct (nth_error s2 j) as [y|] eqn:Ey;
      [|apply nth_error_None in Ey; lia].
    unfold charAtIndex. rewrite Ex, Ey. simpl strictNe.
    replace (i + 1) with (S i) by lia. replace (j + 1) with (S j) by lia.
    rewrite (firstn_snoc _ _ _ Ex), (firstn_snoc _ _ _ Ey), levenshteinRev_snoc.
    destruct (unit_eqb x y); reflexivity.
Qed.

Lemma outerStep_row (s1 s2 : jsstring) (i : nat) :
  i < length s1 ->
  outerStep s1 s2 (tableRow s1 s2 i) i = tableRow s1 s2 (i + 1).
Proof.
  intros Hi. unfold outerStep. now rewrite innerLoop_row.
Qed.

Lemma outerLoop_row (s1 s2 : jsstring) (k : nat) :
  k <= length s1 ->
  fold_left (outerStep s1 s2) (seq 0 k) (seq 0 (length s2 + 1)) =
  tableRow s1 s2 k.
Proof.
  induction k as [|k IH]; intros Hk.
  - simpl. now rewrite tableRow_0.
  - rewrite seq_S, fold_left_app, IH by lia. simpl.
    rewrite outerStep_row by lia. f_equal. lia.
Qed.

(** Every row has [s2.length + 1] entries, so no index of the loops is out
    of range. *)
Lemma tableRow_length (s1 s2 : jsstring) (i : nat) :
  length (tableRow s1 s2 i) = length s2 + 1.
Proof. unfold tableRow. now rewrite length_map, length_seq. Qed.

Lemma distanceRows_levenshtein (s1 s2 : jsstring) :
  distanceRows s1 s2 = levenshtein s1 s2.
Proof.
  unfold distanceRows. destruct (length s2 =? 0) eqn:E.
  - apply Nat.eqb_eq in E. destruct s2; [|discriminate].
    now rewrite levenshtein_nil_r.
  - cbv zeta. rewrite outerLoop_row by lia. unfold tableRow.
    rewrite nth_map_seq by lia. rewrite !firstn_all.
    apply levenshtein_rev.
Qed.

Lemma compareDistance_levenshtein (a b : jsstring) :
  compareDistance a b = levenshtein a b.
Proof.
  unfold compareDistance. destruct (length a <? length b);
    rewrite distanceRows_levenshtein; auto using levenshtein_sym.
Qed.

(** C6. For all strings [a] and [b], [compareDistance a b] is the classic
    Levenshtein distance: it satisfies the classic recurrence
    ([levenshtein]) and is the minimum number of single-character
    insertions, deletions and substitutions that turn [a] into [b]; it is
    symmetric in its operands, vanishes on equal operands, and vanishes only
    there. *)
Theorem compareDistance_is_edit_distance (a b : jsstring) :
  compareDistance a b = levenshtein a b
  /\ MinimumEdits a b (compareDistance a b)
  /\ compareDistance a b = compareDistance b a
  /\ compareDistance a a = 0
  /\ (compareDistance a b = 0 <-> a = b).
Proof.
  rewrite !compareDistance_levenshtein.
  repeat split.
  - apply levenshtein_reached.
  - intros n. apply levenshtein_lower.
  - apply levenshtein_sym.
  - apply levenshtein_self.
  - apply levenshtein_zero.
  - intros ->. apply levenshtein_self.
Qed.

(* ================================================================== *)
(** ** The handler monad *)
(* ================================================================== *)

Lemma bind_ret {A B} (a : A) (k : A -> M B) (r : Rng) :
  bind (ret a) k r = k a r.
Proof. reflexivity. Qed.

Lemma bind_throw {A B} (e : Exn) (k : A -> M B) (r : Rng) :
  bind (throw e) k r = (Throw e, r).
Proof. reflexivity. Qed.

Lemma bind_randomBelow {B} (n : N) (k : N -> M B) (r : Rng) :
  bind (randomBelow n) k r = k (draw r n) (advance r).
Proof. reflexivity. Qed.

Lemma bind_normal {A B} (m : M A) (k : A -> M B) (r r' : Rng) (a : A) :
  m r = (Normal a, r') -> bind m k r = k a r'.
Proof. unfold bind. now intros ->. Qed.

Lemma bind_thrown {A B} (m : M A) (k : A -> M B) (r r' : Rng) (e : Exn) :
  m r = (Throw e, r') -> bind m k r = (Throw e, r').
Proof. unfold bind. now intros ->. Qed.

Lemma tryCatch_normal {A} (m : M A) (h : Exn -> M A) (r r' : Rng) (a : A) :
  m r = (Normal a, r') -> tryCatch m h r = (Normal a, r').
Proof. unfold tryCatch. now intros ->. Qed.

Lemma tryCatch_thrown {A} (m : M A) (h : Exn -> M A) (r r' : Rng) (e : Exn) :
  m r = (Throw e, r') -> tryCatch m h r = h e r'.
Proof. unfold tryCatch. now intros ->. Qed.

Lemma precision_pos : (0 < precision)%N.
Proof. reflexivity. Qed.

(** [Math.floor(Math.random() * n)] is an index below [n]. *)
Lemma draw_below (r : Rng) (n : N) : (0 < n)%N -> (draw r n < n)%N.
Proof.
  intros Hn. unfold draw.
  pose proof (N.mod_lt (r 0%nat) precision) as Hlt.
  assert (Hp : precision <> 0%N) by discriminate.
  specialize (Hlt Hp).
  apply N.Div0.div_lt_upper_bound. nia.
Qed.

Lemma draw_below_nat (r : Rng) (n : nat) :
  0 < n -> N.to_nat (draw r (N.of_nat n)) < n.
Proof.
  intros Hn. pose proof (draw_below r (N.of_nat n)). lia.
Qed.

(** *** Loops whose bound is drawn before every pass *)

(** A loop that starts at [i] with enough fuel stops after [k] passes in
    all, where [k] is at least [base] and below [range + base]; an
    invariant [I] that every pass carries from [i] to [i + 1] holds at
    [k]. *)
Lemma forRandom_invariant {T} (I : nat -> T -> Prop) (range base : N)
    (body : nat -> T -> M T) :
  (0 < range)%N ->
  (forall i acc r, I i acc ->
     exists acc' r', body i acc r = (Normal acc', r') /\ I (i + 1) acc') ->
  forall fuel i acc r,
    1 <= fuel -> N.to_nat (range + base) <= i + fuel -> I i acc ->
    exists k acc' r',
      forRandom fuel range base body i acc r = (Normal acc', r')
      /\ I k acc' /\ i <= k /\ N.to_nat base <= Nat.max i k
      /\ (k = i \/ k < N.to_nat (range + base)).
Proof.
  intros Hrange Hbody. induction fuel as [|fuel IH]; intros i acc r Hf Hi HI.
  - lia.
  - cbn [forRandom]. rewrite bind_randomBelow.
    pose proof (draw_below r range Hrange) as Hd.
    destruct (N.of_nat i <? draw r range + base)%N eqn:E.
    + apply N.ltb_lt in E.
      destruct (Hbody i acc (advance r) HI) as (acc1 & r1 & Eb & HI1).
      rewrite (bind_normal _ _ _ _ _ Eb).
      assert (Hf1 : 1 <= fuel) by lia.
      assert (Hi1 : N.to_nat (range + base) <= i + 1 + fuel) by lia.
      destruct (IH (i + 1) acc1 r1 Hf1 Hi1 HI1)
        as (k & acc' & r' & Ek & HIk & Hik & Hbk & Hk).
      exists k, acc', r'. repeat split; try assumption; lia.
    + apply N.ltb_ge in E.
      exists i, acc, (advance r). repeat split; try assumption; lia.
Qed.

Lemma forCount_invariant {T} (I : nat -> T -> Prop)
    (body : nat -> T -> M T) :
  (forall i acc r, I i acc ->
     exists acc' r', body i acc r = (Normal acc', r') /\ I (i + 1) acc') ->
  forall n i acc r, I i acc ->
    exists acc' r',
      forCount n body i acc r = (Normal acc', r') /\ I (i + n) acc'.
Proof.
  intros Hbody. induction n as [|n IH]; intros i acc r HI.
  - exists acc, r. cbn. now rewrite Nat.add_0_r.
  - cbn [forCount].
    destruct (Hbody i acc r HI) as (acc1 & r1 & Eb & HI1).
    rewrite (bind_normal _ _ _ _ _ Eb).
    destruct (IH (i + 1) acc1 r1 HI1) as (acc' & r' & E & HI').
    exists acc', r'. split; [exact E|].
    now replace (i + S n) with (i + 1 + n) by lia.
Qed.

(* ================================================================== *)
(** ** The synthetic profile generators *)
(* ================================================================== *)

Ltac draw_step := rewrite bind_randomBelow; cbv beta zeta.

Lemma at_in (pool : list jsstring) (i : N) :
  N.to_nat i < length pool -> isStringIn pool (at_ pool i).
Proof.
  intros H. unfold at_, isStringIn.
  destruct (nth_error pool (N.to_nat i)) as [s|] eqn:E.
  - exists s. split; [reflexivity|]. eapply nth_error_In; eauto.
  - apply nth_error_None in E. lia.
Qed.

Lemma at_draw (pool : list jsstring) (r : Rng) :
  0 < length pool -> isStringIn pool (at_ pool (draw r (N.of_nat (length pool)))).
Proof. intros H. apply at_in, draw_below_nat, H. Qed.

Lemma sameValue_refl_string (s : jsstring) : sameValue (VStr s) (VStr s) = true.
Proof. simpl. now apply str_eqb_eq. Qed.

Lemma valuesInclude_false (array : list Value) (s : jsstring) :
  valuesInclude array (VStr s) = false -> ~ In (VStr s) array.
Proof.
  unfold valuesInclude. intros H Hin.
  assert (existsb (sameValue (VStr s)) array = true) as E.
  { apply existsb_exists. exists (VStr s). split; [exact Hin|].
    apply sameValue_refl_string. }
  congruence.
Qed.

Lemma valuesInclude_true_nonempty (array : list Value) (x : Value) :
  valuesInclude array x = true -> 1 <= length array.
Proof. destruct array; simpl; [discriminate | lia]. Qed.

Lemma selectGenre_keeps (pool : list jsstring) :
  0 < length pool ->
  forall i acc r, GenresAfter pool i acc ->
    exists acc' r', selectGenre pool i acc r = (Normal acc', r')
                    /\ GenresAfter pool (i + 1) acc'.
Proof.
  intros Hpool i acc r (Hlen & Hone & Hnd & Hall).
  unfold selectGenre. draw_step.
  destruct (at_draw pool r Hpool) as (s & Es & Hs). rewrite Es.
  destruct (valuesInclude acc (VStr s)) eqn:E.
  - exists acc, (advance r). split; [reflexivity|].
    pose proof (valuesInclude_true_nonempty _ _ E).
    repeat split; auto; lia.
  - exists (acc ++ [VStr s]), (advance r). split; [reflexivity|].
    repeat split.
    + rewrite length_app. simpl. lia.
    + rewrite length_app. simpl. lia.
    + apply NoDup_app; [exact Hnd | repeat constructor; auto | ].
      intros x Hx [<-|[]]. now apply valuesInclude_false in E.
    + apply Forall_app. split; [exact Hall|].
      repeat constructor. now exists s.
Qed.

Lemma selectGenres_spec (pool : list jsstring) (r : Rng) :
  0 < length pool ->
  exists selectedGenres r',
    selectGenres pool r = (Normal selectedGenres, r')
    /\ 1 <= length selectedGenres <= 4
    /\ NoDup selectedGenres
    /\ Forall (isStringIn pool) selectedGenres.
Proof.
  intros Hpool. unfold selectGenres.
  destruct (forRandom_invariant (GenresAfter pool) 3 2 (selectGenre pool)
              ltac:(reflexivity) (selectGenre_keeps pool Hpool)
              loopFuel 0 [] r)
    as (k & acc & r' & E & (Hlen & Hone & Hnd & Hall) & _ & Hbase & Hk).
  - unfold loopFuel. lia.
  - unfold loopFuel. simpl. lia.
  - repeat split; simpl; try lia; constructor.
  - exists acc, r'. split; [exact E|].
    simpl in Hbase, Hk.
    repeat split; auto; lia.
Qed.

Lemma genres_nonempty (pool : list jsstring) :
  In pool genres -> 0 < length pool.
Proof.
  unfold genres. simpl.
  intros H. repeat (destruct H as [<-|H]; [simpl; lia|]). contradiction.
Qed.

Lemma generateAlbumTitle_string (formattedName artistName : jsstring)
    (r : Rng) :
  exists s r',
    generateAlbumTitle formattedName artistName r = (Normal (VStr s), r').
Proof.
  unfold generateAlbumTitle. repeat draw_step.
  match goal with
  | |- context [at_ ?pool (draw ?r0 10)] =>
      destruct (at_draw pool r0 ltac:(simpl; lia)) as (w & Ew & _);
      simpl length in Ew; simpl N.of_nat in Ew; rewrite Ew
  end.
  match goal with
  | |- context [N.to_nat (draw ?r0 ?n)] =>
      pose proof (draw_below_nat r0 5 ltac:(lia)) as Hk;
      simpl N.of_nat in Hk;
      change n with 5%N;
      destruct (N.to_nat (draw r0 5)) as [|[|[|[|[|k]]]]]; [..|lia]
  end; simpl nth; eexists; eexists; reflexivity.
Qed.

Lemma generateAlbum_spec (formattedName : jsstring) (i : nat)
    (albums : list Value) (r : Rng) :
  exists album r',
    generateAlbum formattedName i albums r = (Normal (albums ++ [album]), r')
    /\ IsAlbum album.
Proof.
  unfold generateAlbum. repeat draw_step.
  match goal with
  | |- context [generateAlbumTitle ?f ?a] =>
      match goal with
      | |- context [bind (generateAlbumTitle f a) ?k ?r0] =>
          destruct (generateAlbumTitle_string f a r0) as (s & r1 & E);
          rewrite (bind_normal _ k _ _ _ E); cbv beta
      end
  end.
  repeat draw_step.
  eexists; eexists. split; [reflexivity|].
  unfold IsAlbum. do 4 eexists. reflexivity.
Qed.

Lemma generateAlbums_spec (formattedName : jsstring) (r : Rng) :
  exists albums r',
    generateAlbums formattedName r = (Normal albums, r')
    /\ 2 <= length albums <= 3
    /\ Forall IsAlbum albums.
Proof.
  unfold generateAlbums.
  destruct (forRandom_invariant AlbumsAfter 2 2 (generateAlbum formattedName)
              ltac:(reflexivity)) with (fuel := loopFuel) (i := 0)
                                       (acc := @nil Value) (r := r)
    as (k & acc & r' & E & (Hlen & Hall) & _ & Hbase & Hk).
  - intros i acc r0 (Hlen & Hall).
    destruct (generateAlbum_spec formattedName i acc r0) as (a & r1 & E & Ha).
    exists (acc ++ [a]), r1. split; [exact E|].
    split; [rewrite length_app; simpl; lia|].
    apply Forall_app. split; [exact Hall | repeat constructor; exact Ha].
  - unfold loopFuel. lia.
  - unfold loopFuel. simpl. lia.
  - split; [reflexivity | constructor].
  - exists acc, r'. split; [exact E|]. simpl in Hbase, Hk.
    split; [lia | exact Hall].
Qed.

Lemma generateSongTitle_normal (artistName : jsstring) (r : Rng) :
  exists title r', generateSongTitle artistName r = (Normal title, r').
Proof.
  unfold generateSongTitle. repeat draw_step. eexists; eexists; reflexivity.
Qed.

Lemma generateTrack_spec (formattedName : jsstring) (albums : list Value)
    (i : nat) (topTracks : list Value) (r : Rng) :
  0 < length albums -> Forall IsAlbum albums ->
  exists track r',
    generateTrack formattedName albums i topTracks r
    = (Normal (topTracks ++ [track]), r')
    /\ TrackOf albums track.
Proof.
  intros Hne Hall. unfold generateTrack. draw_step.
  pose proof (draw_below_nat r (length albums) Hne) as Hk.
  set (k := N.to_nat (draw r (N.of_nat (length albums)))) in *.
  assert (Hin : In (nth k albums VUndefined) albums) by now apply nth_In.
  pose proof (proj1 (Forall_forall _ _) Hall _ Hin) as Halbum.
  destruct Halbum as (name & date & tracks & image & Ealbum).
  rewrite Ealbum.
  match goal with
  | |- context [bind (generateSongTitle ?a) ?k0 ?r0] =>
      destruct (generateSongTitle_normal a r0) as (title & r1 & E);
      rewrite (bind_normal _ k0 _ _ _ E); cbv beta
  end.
  draw_step. unfold get. rewrite !bind_ret. draw_step.
  eexists; eexists. split; [reflexivity|].
  exists (nth k albums VUndefined). split; [exact Hin|].
  split; [rewrite Ealbum; now exists name, date, tracks, image|].
  rewrite Ealbum. reflexivity.
Qed.

Lemma generateTopTracks_spec (formattedName : jsstring)
    (albums : list Value) (r : Rng) :
  0 < length albums -> Forall IsAlbum albums ->
  exists topTracks r',
    generateTopTracks formattedName albums r = (Normal topTracks, r')
    /\ length topTracks = 5
    /\ Forall (TrackOf albums) topTracks.
Proof.
  intros Hne Hall. unfold generateTopTracks.
  destruct (forCount_invariant (TracksAfter albums)
              (generateTrack formattedName albums)) with (n := 5) (i := 0)
              (acc := @nil Value) (r := r) as (acc & r' & E & Hlen & Htr).
  - intros i acc r0 (Hlen & Htr).
    destruct (generateTrack_spec formattedName albums i acc r0 Hne Hall)
      as (t & r1 & E & Ht).
    exists (acc ++ [t]), r1. split; [exact E|].
    split; [rewrite length_app; simpl; lia|].
    apply Forall_app. split; [exact Htr | repeat constructor; exact Ht].
  - split; [reflexivity | constructor].
  - exists acc, r'. repeat split; assumption.
Qed.

Ltac bind_with E :=
  match type of E with
  | ?m ?r0 = (Normal ?a, ?r1) =>
      match goal with
      | |- context [bind m ?k r0] =>
          rewrite (bind_normal m k r0 r1 a E); cbv beta
      end
  end.

(** The artist generator always answers, and its answer holds the genres,
    albums and tracks its three loops built. *)
Lemma generateArtist_spec (username normalizedUsername : jsstring) (r : Rng) :
  exists pool selectedGenres albums topTracks profile r',
    generateArtist username normalizedUsername r
    = (Normal {| status := 200;
                 body := VObj ["exists" =: VBool true;
                               "profile" =: VObj profile] |}, r')
    /\ lookup "type" profile = Some (str "artist")
    /\ lookup "simulated" profile = Some (VBool true)
    /\ lookup "genres" profile = Some (VArr selectedGenres)
    /\ lookup "top_tracks" profile = Some (VArr topTracks)
    /\ lookup "albums" profile = Some (VArr albums)
    /\ In pool genres
    /\ (1 <= length selectedGenres <= 4 /\ NoDup selectedGenres
        /\ Forall (isStringIn pool) selectedGenres)
    /\ (2 <= length albums <= 3 /\ Forall IsAlbum albums)
    /\ (length topTracks = 5 /\ Forall (TrackOf albums) topTracks).
Proof.
  unfold generateArtist. cbv zeta. draw_step.
  pose proof (draw_below_nat r (length genres) ltac:(simpl; lia)) as Hpool.
  destruct (nth_error genres (N.to_nat (draw r (N.of_nat (length genres)))))
    as [pool|] eqn:Epool; [|apply nth_error_None in Epool; lia].
  apply nth_error_In in Epool. rewrite bind_ret.
  destruct (selectGenres_spec pool (advance r) (genres_nonempty pool Epool))
    as (selected & r1 & E1 & Hsel).
  bind_with E1.
  match goal with
  | |- context [generateAlbums ?f] =>
      destruct (generateAlbums_spec f r1) as (albums & r2 & E2 & Hlen & Halb);
      bind_with E2;
      destruct (generateTopTracks_spec f albums r2 ltac:(lia) Halb)
        as (tracks & r3 & E3 & Htr);
      bind_with E3
  end.
  repeat draw_step.
  exists pool, selected, albums, tracks.
  eexists; eexists. split; [reflexivity|].
  repeat split; try reflexivity; try tauto; lia.
Qed.

Lemma bind_randomAboveHalf {B} (k : bool -> M B) (r : Rng) :
  bind randomAboveHalf k r
  = k (precision / 2 <? r 0%nat mod precision)%N (advance r).
Proof. reflexivity. Qed.

Lemma generatePlaylistName_normal (formattedName : jsstring) (r : Rng) :
  exists name r', generatePlaylistName formattedName r = (Normal name, r').
Proof.
  unfold generatePlaylistName. cbv zeta. rewrite bind_randomAboveHalf.
  destruct (precision / 2 <? r 0%nat mod precision)%N;
    repeat draw_step; eexists; eexists; reflexivity.
Qed.

Lemma generatePlaylist_normal (formattedName : jsstring) (i : nat)
    (playlists : list Value) (r : Rng) :
  exists playlists' r',
    generatePlaylist formattedName i playlists r = (Normal playlists', r').
Proof.
  unfold generatePlaylist.
  destruct (generatePlaylistName_normal formattedName r) as (name & r1 & E).
  bind_with E. repeat draw_step. eexists; eexists; reflexivity.
Qed.

(** The listener generator always answers. *)
Lemma generateUser_spec (username normalizedUsername : jsstring) (r : Rng) :
  exists playlists profile r',
    generateUser username normalizedUsername r
    = (Normal {| status := 200;
                 body := VObj ["exists" =: VBool true;
                               "profile" =: VObj profile] |}, r')
    /\ lookup "type" profile = Some (str "user")
    /\ lookup "simulated" profile = Some (VBool true)
    /\ lookup "playlists" profile = Some (VArr playlists)
    /\ 2 <= length playlists <= 4.
Proof.
  unfold generateUser. cbv zeta.
  match goal with
  | |- context [generatePlaylist ?f] =>
      destruct (forRandom_invariant (fun k l => length l = k) 3 2
                  (generatePlaylist f) ltac:(reflexivity))
        with (fuel := loopFuel) (i := 0) (acc := @nil Value) (r := r)
        as (k & playlists & r1 & E & Hlen & _ & Hbase & Hk)
  end.
  - intros i acc r0 Hlen. unfold generatePlaylist.
    match goal with
    | |- context [generatePlaylistName ?f] =>
        destruct (generatePlaylistName_normal f r0) as (name & r1 & E)
    end.
    bind_with E. repeat draw_step. eexists; eexists.
    split; [reflexivity|]. rewrite length_app. simpl. lia.
  - unfold loopFuel. lia.
  - unfold loopFuel. simpl. lia.
  - reflexivity.
  - bind_with E. draw_step.
    exists playlists. eexists; eexists. split; [reflexivity|].
    simpl in Hbase, Hk. repeat split; try reflexivity; lia.
Qed.


(* ================================================================== *)
(** ** What a handler can answer *)
(* ================================================================== *)

Lemma answers_settles {A} (P : A -> Prop) (m : M A) :
  Answers P m -> Settles P m.
Proof. intros H r. destruct (H r) as (a & r' & -> & Ha). exact Ha. Qed.

Lemma settles_ret {A} (P : A -> Prop) (a : A) : P a -> Settles P (ret a).
Proof. intros H r. exact H. Qed.

Lemma settles_throw {A} (P : A -> Prop) (e : Exn) : Settles P (throw e).
Proof. intros r. exact I. Qed.

Lemma settles_bind {A B} (P : A -> Prop) (Q : B -> Prop) (m : M A)
    (k : A -> M B) :
  Settles P m -> (forall a, P a -> Settles Q (k a)) -> Settles Q (bind m k).
Proof.
  intros Hm Hk r. unfold bind. specialize (Hm r).
  destruct (m r) as [[a| e |] r']; simpl in *; try tauto.
  apply (Hk a Hm r').
Qed.

Lemma settles_weaken {A} (P Q : A -> Prop) (m : M A) :
  (forall a, P a -> Q a) -> Settles P m -> Settles Q m.
Proof.
  intros HPQ Hm r. specialize (Hm r).
  destruct (fst (m r)); auto.
Qed.

Lemma settles_tryCatch {A} (P : A -> Prop) (m : M A) (h : Exn -> M A) :
  Settles P m -> (forall e, Settles P (h e)) -> Settles P (tryCatch m h).
Proof.
  intros Hm Hh r. unfold tryCatch. specialize (Hm r).
  destruct (m r) as [[a| e |] r']; simpl in *; try tauto.
  apply (Hh e r').
Qed.

Lemma answers_tryCatch {A} (P : A -> Prop) (m : M A) (h : Exn -> M A) :
  Settles P m -> (forall e, Answers P (h e)) -> Answers P (tryCatch m h).
Proof.
  intros Hm Hh r. unfold tryCatch. specialize (Hm r).
  destruct (m r) as [[a| e |] r'] eqn:E; simpl in *; try tauto.
  - now exists a, r'.
  - apply (Hh e r').
Qed.

Lemma settles_randomBelow (n : N) : Settles (fun _ => True) (randomBelow n).
Proof. intros r. exact I. Qed.

Lemma settles_get (o : Value) (key : string) :
  Settles (fun _ => True) (get o key).
Proof. intros r. destruct o; exact I. Qed.

Lemma settles_await {A} (result : AxiosResult A) :
  Settles (fun _ => True) (await result).
Proof. intros r. destruct result; exact I. Qed.

Lemma settles_cheerioLoad {A} (data : option A) :
  Settles (fun _ => True) (cheerioLoad data).
Proof. intros r. destruct data; exact I. Qed.

Lemma settles_mapM {A B} (f : A -> M B) (l : list A) :
  (forall x, Settles (fun _ => True) (f x)) ->
  Settles (fun _ => True) (mapM f l).
Proof.
  intros Hf. induction l as [|x l IH]; simpl.
  - now apply settles_ret.
  - eapply settles_bind; [apply Hf|]. intros y _.
    eapply settles_bind; [apply IH|]. intros ys _.
    now apply settles_ret.
Qed.

Lemma settles_arrayMap (v : Value) (f : Value -> M Value) :
  (forall x, Settles (fun _ => True) (f x)) ->
  Settles (fun _ => True) (arrayMap v f).
Proof.
  intros Hf. destruct v; simpl; try apply settles_throw.
  eapply settles_bind; [apply settles_mapM, Hf|]. intros ys _.
  now apply settles_ret.
Qed.

(** Steps through a chain of binds whose links settle. *)
Ltac settle :=
  repeat first
    [ apply settles_throw
    | eapply settles_bind;
        [ first [ apply settles_randomBelow | apply settles_get
                | apply settles_await | apply settles_cheerioLoad ]
        | intros ? _ ] ].

Ltac envelope :=
  left; split;
  [ reflexivity
  | eexists; eexists; split;
    [ reflexivity
    | split; [ reflexivity
             | first [ eexists; reflexivity
                     | left; reflexivity
                     | right; reflexivity ] ] ] ].

Lemma sendable_notFound : Sendable notFoundResponse.
Proof. envelope. Qed.

Lemma answers_resJson (P : Response -> Prop) (v : Value) :
  P {| status := 200; body := v |} -> Answers P (resJson v).
Proof. intros H r. now exists {| status := 200; body := v |}, r. Qed.

Lemma answers_serverError (message : string) :
  Answers Sendable (serverError message).
Proof.
  intros r. eexists; eexists. split; [reflexivity|].
  right. split; [reflexivity|]. eexists; reflexivity.
Qed.

Lemma settles_resJson (v : Value) :
  Sendable {| status := 200; body := v |} -> Settles Sendable (resJson v).
Proof. intros H r. exact H. Qed.

(** *** The fallback guesses *)

Ltac guess_result :=
  eexists; eexists; split; [reflexivity|];
  split;
  [ split; [reflexivity|]; eexists; eexists; split; [reflexivity|];
    first [ eexists; reflexivity | reflexivity ]
  | first [ reflexivity | discriminate | intros _; reflexivity ] ].

Lemma twitterGuess_spec (username : jsstring) :
  Answers GuessResult (twitterGuess username).
Proof.
  intros r. unfold twitterGuess. cbv zeta.
  match goal with |- context [if ?c then _ else _] => destruct c end.
  - draw_step. guess_result.
  - guess_result.
Qed.

Lemma instagramGuess_spec (username : jsstring) :
  Answers GuessResult (instagramGuess username).
Proof.
  intros r. unfold instagramGuess. cbv zeta.
  match goal with |- context [if ?c then _ else _] => destruct c end.
  - draw_step. guess_result.
  - guess_result.
Qed.

Lemma linkedinGuess_spec (username : jsstring) :
  Answers GuessResult (linkedinGuess username).
Proof.
  intros r. unfold linkedinGuess. cbv zeta.
  match goal with |- context [VBool ?c] => destruct c end; guess_result.
Qed.

Lemma redditGuess_spec (now : Z) (username : jsstring) :
  Answers GuessResult (redditGuess now username).
Proof.
  intros r. unfold redditGuess. cbv zeta.
  match goal with |- context [if ?c then _ else _] => destruct c end.
  - repeat draw_step. guess_result.
  - guess_result.
Qed.

Lemma tiktokGuess_spec (username : jsstring) :
  Answers GuessResult (tiktokGuess username).
Proof.
  intros r. unfold tiktokGuess. cbv zeta.
  match goal with |- context [if ?c then _ else _] => destruct c end.
  - repeat draw_step. guess_result.
  - guess_result.
Qed.

Lemma liveStep_guess (q : Request) (attempt guess : M Response) :
  liveStep q = Some (attempt, guess) -> Answers GuessResult guess.
Proof.
  destruct q; simpl; intros H; inversion H; subst;
    auto using twitterGuess_spec, instagramGuess_spec, linkedinGuess_spec,
      redditGuess_spec, tiktokGuess_spec.
Qed.

Lemma guessResult_sendable (resp : Response) :
  GuessResult resp -> Sendable resp.
Proof.
  intros [(Hst & b & profile & Hbody & Hprofile) _]. left.
  split; [exact Hst|]. exists b. eexists. split; [exact Hbody|].
  split; [reflexivity|]. destruct b.
  - destruct Hprofile as (props & ->). now exists props.
  - left. now rewrite Hprofile.
Qed.


(** *** Twitter: the scrape never succeeds *)

Lemma twitterScrape_cases (result : AxiosResult (option NitterPage))
    (username : jsstring) (r : Rng) :
  twitterScrape result username r = (Normal notFoundResponse, r)
  \/ exists e, twitterScrape result username r = (Throw e, r).
Proof.
  unfold twitterScrape. destruct result as [[page|]|st];
    unfold await, cheerioLoad; rewrite ?bind_ret, ?bind_throw.
  - destruct (0 <? errorPanels page).
    + left. reflexivity.
    + right. eexists. reflexivity.
  - right. eexists. reflexivity.
  - right. eexists. reflexivity.
Qed.

Lemma twitterHandler_cases (result : AxiosResult (option NitterPage))
    (username : jsstring) (r : Rng) :
  twitterHandler result username r = (Normal notFoundResponse, r)
  \/ twitterHandler result username r = twitterGuess username r.
Proof.
  unfold twitterHandler, tryCatch.
  destruct (twitterScrape_cases result username r) as [E|[e E]]; rewrite E.
  - left. reflexivity.
  - right. destruct (twitterGuess_spec username r) as (resp & r' & Eg & _).
    now rewrite Eg.
Qed.

Lemma twitterGuess_shape (username : jsstring) (r : Rng) :
  exists resp r',
    twitterGuess username r = (Normal resp, r')
    /\ status resp = 200
    /\ member (member (body resp) "profile") "scraped" = VUndefined
    /\ ((member (body resp) "exists" = VBool true
         /\ Simulated (member (body resp) "profile"))
        \/ (member (body resp) "exists" = VBool false
            /\ member (body resp) "profile" = VNull)).
Proof.
  unfold twitterGuess. cbv zeta.
  match goal with |- context [if ?c then _ else _] => destruct c end.
  - draw_step. eexists; eexists. split; [reflexivity|].
    repeat split. left. split; reflexivity.
  - eexists; eexists. split; [reflexivity|].
    repeat split. right. split; reflexivity.
Qed.

(** C10. For every user name and every outcome of the request to Nitter,
    the Twitter endpoint answers, and never with a profile tagged
    [scraped: true]: the scrape ends in the not-found answer or in an
    exception, because [parseTwitterNumbers] is bound nowhere.  Every
    answer with [exists: true] is the fallback's and carries
    [simulated: true]; an answer that is not simulated has
    [exists: false]. *)
Theorem twitter_never_answers_scraped
    (result : AxiosResult (option NitterPage)) (username : jsstring)
    (r : Rng) :
  exists resp r',
    twitterHandler result username r = (Normal resp, r')
    /\ status resp = 200
    /\ member (member (body resp) "profile") "scraped" <> VBool true
    /\ (forall resp0 r0,
          twitterScrape result username r = (Normal resp0, r0) ->
          resp0 = notFoundResponse)
    /\ (member (body resp) "exists" = VBool true ->
        twitterGuess username r = (Normal resp, r')
        /\ Simulated (member (body resp) "profile"))
    /\ (~ Simulated (member (body resp) "profile") ->
        member (body resp) "exists" = VBool false).
Proof.
  assert (Hscrape : forall resp0 r0,
            twitterScrape result username r = (Normal resp0, r0) ->
            resp0 = notFoundResponse).
  { intros resp0 r0 E.
    destruct (twitterScrape_cases result username r) as [E'|[e E']];
      congruence. }
  destruct (twitterHandler_cases result username r) as [E|E].
  - exists notFoundResponse, r. split; [exact E|].
    repeat split; try discriminate; auto.
  - destruct (twitterGuess_shape username r)
      as (resp & r' & Eg & Hst & Hsc & Hcases).
    exists resp, r'. split; [congruence|]. split; [exact Hst|].
    split; [rewrite Hsc; discriminate|]. split; [exact Hscrape|].
    destruct Hcases as [[He Hs]|[He Hp]].
    + split; [intros _; now split | intros Hn; contradiction].
    + split; [intros H; congruence | intros _; exact He].
Qed.

(** *** A live step that fails *)

Lemma handle_live_failure (q : Request) (attempt guess : M Response)
    (e : Exn) (r r1 : Rng) :
  liveStep q = Some (attempt, guess) ->
  attempt r = (Throw e, r1) ->
  handle q r
  = if match platformOf q with Twitter => false | _ => isNotFound e end
    then (Normal notFoundResponse, r1)
    else guess r1.
Proof.
  intros Hq Ha.
  destruct (liveStep_guess q attempt guess Hq r1) as (resp & r' & Eg & _).
  destruct q; simpl in Hq; inversion Hq; subst; clear Hq; simpl handle;
    simpl platformOf;
    unfold twitterHandler, instagramHandler, linkedinHandler, redditHandler,
      tiktokHandler, tryCatch;
    rewrite Ha;
    try (destruct (isNotFound e); [reflexivity|]);
    now rewrite Eg.
Qed.



Lemma handle_not_found (p : Platform) (now : Z) (username : jsstring)
    (r : Rng) :
  p <> Twitter -> p <> Spotify ->
  handle (rejectedRequest p (Some 404) now username) r
  = (Normal notFoundResponse, r).
Proof. intros Ht Hs. destruct p; try contradiction; reflexivity. Qed.

(** C2, as the code has it. On GitHub, Instagram, LinkedIn, Reddit and
    TikTok an HTTP 404 from the remote is answered at once with HTTP 200 and
    [{ exists: false }], a body without a [profile] property; the fallback
    guess is not consulted and the random source is not touched.  On GitHub
    this holds for either of its two calls. *)
Theorem remote_not_found_short_circuits (p : Platform) (now : Z)
    (username : jsstring) (r : Rng) :
  p <> Twitter -> p <> Spotify ->
  handle (rejectedRequest p (Some 404) now username) r
  = (Normal notFoundResponse, r)
  /\ member (body notFoundResponse) "exists" = VBool false
  /\ lookup "profile" (spread (body notFoundResponse)) = None
  /\ (forall data, githubHandler (Resolved data) (Rejected (Some 404))
                     username r = (Normal notFoundResponse, r)).
Proof.
  intros Ht Hs. split; [now apply handle_not_found|]. repeat split.
Qed.

(* ================================================================== *)
(** ** The envelope of every answer *)
(* ================================================================== *)

Lemma settles_githubRepo (repo : Value) :
  Settles (fun _ => True) (githubRepo repo).
Proof. unfold githubRepo. settle. now apply settles_ret. Qed.

Lemma githubHandler_sendable (user repos : AxiosResult Value)
    (username : jsstring) :
  Answers Sendable (githubHandler user repos username).
Proof.
  unfold githubHandler. apply answers_tryCatch.
  - settle.
    eapply settles_bind;
      [apply settles_arrayMap, settles_githubRepo | intros ? _].
    settle. apply settles_resJson. envelope.
  - intros e. destruct (isNotFound e).
    + apply answers_resJson, sendable_notFound.
    + apply answers_serverError.
Qed.

Lemma settles_guess (m : M Response) :
  Answers GuessResult m -> Settles Sendable m.
Proof.
  intros H. apply answers_settles. intros r.
  destruct (H r) as (resp & r' & E & Hg).
  exists resp, r'. split; [exact E | now apply guessResult_sendable].
Qed.

Lemma twitterHandler_sendable (result : AxiosResult (option NitterPage))
    (username : jsstring) :
  Answers Sendable (twitterHandler result username).
Proof.
  unfold twitterHandler. apply answers_tryCatch; [|intros e; apply answers_serverError].
  apply settles_tryCatch.
  - intros r.
    destruct (twitterScrape_cases result username r) as [E|[e E]]; rewrite E.
    + apply sendable_notFound.
    + exact I.
  - intros e. apply settles_guess, twitterGuess_spec.
Qed.

Lemma instagramHandler_sendable (result : AxiosResult (option InstagramPage))
    (username : jsstring) :
  Answers Sendable (instagramHandler result username).
Proof.
  unfold instagramHandler.
  apply answers_tryCatch; [|intros e; apply answers_serverError].
  apply settles_tryCatch.
  - unfold instagramScrape. settle. cbv zeta. apply settles_resJson. envelope.
  - intros e. destruct (isNotFound e).
    + apply settles_resJson, sendable_notFound.
    + apply settles_guess, instagramGuess_spec.
Qed.

Lemma linkedinHandler_sendable (result : AxiosResult unit)
    (username : jsstring) :
  Answers Sendable (linkedinHandler result username).
Proof.
  unfold linkedinHandler.
  apply answers_tryCatch; [|intros e; apply answers_serverError].
  apply settles_tryCatch.
  - unfold linkedinProbe. settle. apply settles_resJson. envelope.
  - intros e. destruct (isNotFound e).
    + apply settles_resJson, sendable_notFound.
    + apply settles_guess, linkedinGuess_spec.
Qed.

Lemma redditHandler_sendable (result : AxiosResult Value) (now : Z)
    (username : jsstring) :
  Answers Sendable (redditHandler result now username).
Proof.
  unfold redditHandler.
  apply answers_tryCatch; [|intros e; apply answers_serverError].
  apply settles_tryCatch.
  - unfold redditAbout. settle.
    match goal with |- context [if ?c then _ else _] => destruct c end.
    + cbv zeta. eapply settles_bind with (P := fun _ => True).
      * destruct (secondsToISOString _);
          [now apply settles_ret | apply settles_throw].
      * intros created _. apply settles_resJson. envelope.
    + apply settles_resJson, sendable_notFound.
  - intros e. destruct (isNotFound e).
    + apply settles_resJson, sendable_notFound.
    + apply settles_guess, redditGuess_spec.
Qed.

Lemma settles_parseTikTokNumber (text : jsstring) :
  Settles (fun _ => True) (parseTikTokNumber text).
Proof. apply settles_throw. Qed.

Lemma tiktokHandler_sendable (result : AxiosResult (option TikTokPage))
    (username : jsstring) :
  Answers Sendable (tiktokHandler result username).
Proof.
  unfold tiktokHandler.
  apply answers_tryCatch; [|intros e; apply answers_serverError].
  apply settles_tryCatch.
  - unfold tiktokScrape. settle. cbv zeta.
    match goal with |- context [if ?c then _ else _] => destruct c end.
    + eapply settles_bind with (P := fun _ => True).
      * destruct (search _ _); [apply settles_parseTikTokNumber|].
        settle. now apply settles_ret.
      * intros followers _. eapply settles_bind with (P := fun _ => True).
        -- destruct (search _ _); [apply settles_parseTikTokNumber|].
           settle. now apply settles_ret.
        -- intros likes _. apply settles_resJson. envelope.
    + apply settles_resJson, sendable_notFound.
  - intros e. destruct (isNotFound e).
    + apply settles_resJson, sendable_notFound.
    + apply settles_guess, tiktokGuess_spec.
Qed.

Lemma generateArtist_sendable (username normalizedUsername : jsstring) :
  Answers Sendable (generateArtist username normalizedUsername).
Proof.
  intros r.
  destruct (generateArtist_spec username normalizedUsername r)
    as (pool & selected & albums & tracks & profile & r' & E & _).
  eexists; eexists. split; [exact E|]. envelope.
Qed.

Lemma generateUser_sendable (username normalizedUsername : jsstring) :
  Answers Sendable (generateUser username normalizedUsername).
Proof.
  intros r.
  destruct (generateUser_spec username normalizedUsername r)
    as (playlists & profile & r' & E & _).
  eexists; eexists. split; [exact E|]. envelope.
Qed.

Lemma spotifyGuess_sendable (username normalizedUsername : jsstring) :
  Answers Sendable (spotifyGuess username normalizedUsername).
Proof.
  unfold spotifyGuess. destruct (likely_artist username).
  - apply generateArtist_sendable.
  - destruct (isLikelyUser username).
    + apply generateUser_sendable.
    + apply answers_resJson, sendable_notFound.
Qed.

Lemma spotifyHandler_sendable (username : jsstring) :
  Answers Sendable (spotifyHandler username).
Proof.
  unfold spotifyHandler.
  apply answers_tryCatch; [|intros e; apply answers_serverError].
  unfold spotifyResolve. cbv zeta.
  destruct (truthy (knownProfile (normalize username))).
  - unfold exactMatch. apply settles_resJson. envelope.
  - destruct (closeMatches (normalize username)) as [|closest rest].
    + apply answers_settles, spotifyGuess_sendable.
    + unfold closeMatch. cbv zeta. settle. apply settles_resJson. envelope.
Qed.

(** C3, as the code has it. Every request on every endpoint is answered,
    either with HTTP 500 and an error body or with HTTP 200 and an envelope
    in which [exists] is a boolean and [profile] is an object exactly when
    [exists] is true; when [exists] is false, [profile] is [null] (the
    fallback guesses) or is left out of the body (the not-found answers). *)
Theorem every_answer_is_an_envelope (q : Request) (r : Rng) :
  exists resp r',
    handle q r = (Normal resp, r')
    /\ (ErrorResponse resp
        \/ (status resp = 200
            /\ exists (b : bool) (props : list (string * Value)),
                 body resp = VObj props
                 /\ lookup "exists" props = Some (VBool b)
                 /\ ((exists fields,
                        lookup "profile" props = Some (VObj fields))
                     <-> b = true)
                 /\ (lookup "profile" props = Some VNull
                     \/ lookup "profile" props = None <-> b = false))).
Proof.
  assert (H : Answers Sendable (handle q)).
  { destruct q; simpl.
    - apply githubHandler_sendable.
    - apply twitterHandler_sendable.
    - apply instagramHandler_sendable.
    - apply linkedinHandler_sendable.
    - apply redditHandler_sendable.
    - apply tiktokHandler_sendable.
    - apply spotifyHandler_sendable. }
  destruct (H r) as (resp & r' & E & [Henv|Herr]).
  - exists resp, r'. split; [exact E|]. right.
    destruct Henv as (Hst & b & props & Hbody & Hex & Hprofile).
    split; [exact Hst|]. exists b, props.
    split; [exact Hbody|]. split; [exact Hex|].
    destruct b.
    + destruct Hprofile as (fields & Hf). split.
      * split; [reflexivity | intros _; now exists fields].
      * split; [|discriminate]. intros [Hn|Hn]; congruence.
    + split.
      * split; [|discriminate].
        intros (fields & Hf). destruct Hprofile; congruence.
      * split; [reflexivity | intros _; exact Hprofile].
  - exists resp, r'. split; [exact E | now left].
Qed.

(* ================================================================== *)
(** ** Spotify: exact keys, close matches and the guess *)
(* ================================================================== *)

Lemma ownProfile_none (table : list (jsstring * Value)) (key : jsstring) :
  ~ In key (map fst table) -> ownProfile table key = None.
Proof.
  induction table as [|[k profile] table IH]; simpl; [reflexivity|].
  intros H. destruct (str_eqb k key) eqn:E.
  - apply str_eqb_eq in E. exfalso. apply H. now left.
  - apply IH. intros Hin. apply H. now right.
Qed.

(** Every key of the dataset holds an object with a string for a [name]. *)
Lemma known_key_record (key : jsstring) :
  In key knownKeys ->
  exists props name,
    ownProfile knownProfiles key = Some (VObj props)
    /\ lookup "name" props = Some (VStr name).
Proof.
  unfold knownKeys, knownProfiles. cbn [map fst].
  intros H.
  repeat (destruct H as [<-|H];
          [eexists; eexists; split; reflexivity|]).
  contradiction.
Qed.

Lemma closeMatches_inherited :
  closeMatches (js "constructor") = []
  /\ closeMatches (js "__proto__") = [].
Proof. split; vm_compute; reflexivity. Qed.

(** A name that is no key but close to one does not hit a property of the
    dataset object, own or inherited. *)
Lemma no_exact_match (n : jsstring) :
  ~ In n knownKeys -> closeMatches n <> [] ->
  truthy (knownProfile n) = false.
Proof.
  intros Hkey Hclose. unfold knownProfile.
  rewrite (ownProfile_none knownProfiles n Hkey).
  destruct (str_eqb n (js "constructor")) eqn:E1.
  - apply str_eqb_eq in E1. subst n.
    destruct closeMatches_inherited as [E _]. contradiction.
  - destruct (str_eqb n (js "__proto__")) eqn:E2; [|reflexivity].
    apply str_eqb_eq in E2. subst n.
    destruct closeMatches_inherited as [_ E]. contradiction.
Qed.

Lemma absent_key (n : jsstring) (keys : list jsstring) :
  existsb (str_eqb n) keys = false -> ~ In n keys.
Proof.
  intros H Hin.
  assert (existsb (str_eqb n) keys = true) as E.
  { apply existsb_exists. exists n. split; [exact Hin|]. now apply str_eqb_eq. }
  congruence.
Qed.

Lemma filter_none {A} (f : A -> bool) (l : list A) :
  Forall (fun x => f x = false) l -> filter f l = [].
Proof.
  induction 1 as [|x l Hx _ IH]; simpl; [reflexivity|]. now rewrite Hx.
Qed.

Lemma closeMatches_first (n closest : jsstring)
    (earlier later : list jsstring) :
  knownKeys = earlier ++ closest :: later ->
  compareDistance n closest <= 2 ->
  Forall (fun key => 2 < compareDistance n key) earlier ->
  exists rest, closeMatches n = closest :: rest.
Proof.
  intros Hkeys Hclose Hearlier. unfold closeMatches. rewrite Hkeys.
  rewrite filter_app, filter_none.
  - simpl. apply Nat.leb_le in Hclose. rewrite Hclose. eauto.
  - eapply Forall_impl; [|exact Hearlier].
    intros key Hk. apply Nat.leb_gt. exact Hk.
Qed.

Lemma includes_unit (s : jsstring) (c : codeunit) :
  includes s [c] = true <-> In c s.
Proof.
  induction s as [|x s IH]; simpl.
  - split; [discriminate | contradiction].
  - rewrite orb_true_iff, andb_true_r, IH.
    unfold unit_eqb. rewrite N.eqb_eq. split; intros [H|H]; auto.
Qed.

Lemma hasThreeDigits_spec (s : jsstring) :
  hasThreeDigits s = true <-> ThreeDigitsInARow s.
Proof.
  split.
  - induction s as [|a s IH]; [discriminate|].
    destruct s as [|b [|c t]]; try discriminate.
    cbn [hasThreeDigits]. intros H. apply orb_true_iff in H as [H|H].
    + apply andb_true_iff in H as [H Hc]. apply andb_true_iff in H as [Ha Hb].
      now exists [], a, b, c, t.
    + destruct (IH H) as (before & x & y & z & after & E & Hx & Hy & Hz).
      exists (a :: before), x, y, z, after. rewrite E. auto.
  - intros (before & a & b & c & after & -> & Ha & Hb & Hc).
    induction before as [|x before IH].
    + cbn [app hasThreeDigits]. now rewrite Ha, Hb, Hc.
    + cbn [app].
      destruct (before ++ a :: b :: c :: after) as [|y [|z t]] eqn:E;
        try discriminate IH.
      cbn [hasThreeDigits]. cbn [hasThreeDigits] in IH.
      rewrite IH. apply orb_true_r.
Qed.

Lemma guess_reached (username : jsstring) (r : Rng) :
  truthy (knownProfile (normalize username)) = false ->
  closeMatches (normalize username) = [] ->
  spotifyHandler username r = spotifyGuess username (normalize username) r.
Proof.
  intros Hexact Hclose.
  destruct (spotifyGuess_sendable username (normalize username) r)
    as (resp & r' & E & _).
  unfold spotifyHandler, tryCatch, spotifyResolve. cbv zeta.
  rewrite Hexact, Hclose. now rewrite E.
Qed.

(** C8, as the code has it. A name that is no key of the dataset and close
    to none is answered by the guess: an artist-shape profile exactly when
    it is longer than 3 code units and has no three digits in a row;
    otherwise a listener-shape profile when it has at least 3 code units
    and none of them is the space character U+0020; otherwise
    [{ exists: false }].  The query ["12"] is answered
    [{ exists: false }]. *)
Theorem spotify_guess_policy :
  toLowerCase (js "12") = js "12" ->
  (forall username,
     likely_artist username = true
     <-> 3 < length username /\ ~ ThreeDigitsInARow username)
  /\ (forall username,
        isLikelyUser username = true
        <-> 3 <= length username /\ ~ In 32%N username)
  /\ (forall username r,
        truthy (knownProfile (normalize username)) = false ->
        closeMatches (normalize username) = [] ->
        spotifyHandler username r
        = spotifyGuess username (normalize username) r)
  /\ (forall username n r,
        if likely_artist username then
          exists profile r',
            spotifyGuess username n r
            = (Normal {| status := 200;
                         body := VObj ["exists" =: VBool true;
                                       "profile" =: VObj profile] |}, r')
            /\ lookup "type" profile = Some (str "artist")
            /\ lookup "simulated" profile = Some (VBool true)
        else if isLikelyUser username then
          exists profile r',
            spotifyGuess username n r
            = (Normal {| status := 200;
                         body := VObj ["exists" =: VBool true;
                                       "profile" =: VObj profile] |}, r')
            /\ lookup "type" profile = Some (str "user")
            /\ lookup "simulated" profile = Some (VBool true)
        else spotifyGuess username n r = (Normal notFoundResponse, r))
  /\ (forall r, spotifyHandler (js "12") r = (Normal notFoundResponse, r)).
Proof.
  intros Hlower. split; [|split; [|split; [|split]]].
  - intros username. unfold likely_artist.
    rewrite andb_true_iff, negb_true_iff, Nat.ltb_lt.
    rewrite <- hasThreeDigits_spec.
    now rewrite not_true_iff_false.
  - intros username. unfold isLikelyUser.
    rewrite andb_true_iff, negb_true_iff, Nat.leb_le.
    change (js " ") with [32%N]. rewrite <- includes_unit.
    now rewrite not_true_iff_false.
  - intros username r. apply guess_reached.
  - intros username n r. unfold spotifyGuess.
    destruct (likely_artist username).
    + destruct (generateArtist_spec username n r)
        as (pool & selected & albums & tracks & profile & r' & E & Hty & Hsim
            & _).
      now exists profile, r'.
    + destruct (isLikelyUser username).
      * destruct (generateUser_spec username n r)
          as (playlists & profile & r' & E & Hty & Hsim & _).
        now exists profile, r'.
      * reflexivity.
  - intros r.
    assert (En : normalize (js "12") = js "12").
    { unfold normalize. rewrite Hlower. reflexivity. }
    rewrite guess_reached; rewrite En; reflexivity.
Qed.

(* ================================================================== *)
(** ** Where a simulated artist profile comes from *)
(* ================================================================== *)

Lemma define_lookup_other (props : list (string * Value)) (key k : string)
    (v : Value) :
  String.eqb key k = false ->
  lookup k (define props key v) = lookup k props.
Proof.
  intros Hk. induction props as [|[k0 v0] props IH]; simpl.
  - now rewrite Hk.
  - destruct (String.eqb k0 key) eqn:E; simpl.
    + apply String.eqb_eq in E. subst k0. now rewrite Hk.
    + now rewrite IH.
Qed.

Lemma member_profile (e p : Value) :
  member (VObj ["exists" =: e; "profile" =: p]) "profile" = p.
Proof. reflexivity. Qed.

(** An object literal has no property that none of its entries names. *)
Lemma objectLiteral_lacks (k : string) (entries : list (string * Value)) :
  lacks k entries = true -> member (objectLiteral entries) k = VUndefined.
Proof.
  unfold objectLiteral, member.
  assert (H : forall acc, lookup k acc = None ->
            lacks k entries = true ->
            lookup k (fold_left (fun props kv => define props (fst kv) (snd kv))
                        entries acc) = None).
  { induction entries as [|[k0 v0] entries IH]; intros acc Hacc Hl; simpl.
    - exact Hacc.
    - simpl in Hl. apply andb_true_iff in Hl as [Hk Hl].
      apply negb_true_iff in Hk.
      apply IH; [|exact Hl]. simpl.
      now rewrite define_lookup_other. }
  intros Hl. now rewrite (H [] eq_refl Hl).
Qed.

Lemma ownProfile_in (table : list (jsstring * Value)) (key : jsstring)
    (profile : Value) :
  ownProfile table key = Some profile -> In profile (map snd table).
Proof.
  induction table as [|[k p] table IH]; simpl; [discriminate|].
  destruct (str_eqb k key).
  - intros H. left. congruence.
  - intros H. right. now apply IH.
Qed.

(** No property of the dataset object, own or inherited, is tagged
    [simulated]. *)
Lemma knownProfile_not_simulated (n : jsstring) :
  lacks "simulated" (spread (knownProfile n)) = true.
Proof.
  unfold knownProfile.
  destruct (ownProfile knownProfiles n) as [profile|] eqn:E.
  - apply ownProfile_in in E.
    assert (H : forallb (fun p => lacks "simulated" (spread p))
                  (map snd knownProfiles) = true)
      by (vm_compute; reflexivity).
    exact (proj1 (forallb_forall _ _) H profile E).
  - destruct (_ || _); reflexivity.
Qed.

Lemma lacks_app (k : string) (a b : list (string * Value)) :
  lacks k (a ++ b) = lacks k a && lacks k b.
Proof. apply forallb_app. Qed.

Lemma lacks_cons (k : string) (kv : string * Value)
    (l : list (string * Value)) :
  lacks k (kv :: l) = negb (String.eqb (fst kv) k) && lacks k l.
Proof. reflexivity. Qed.

(** An answer of the Spotify endpoint that is tagged [simulated: true] and
    [type: 'artist'] is the artist generator's. *)
Lemma simulated_artist_is_generated (username : jsstring) (r r' : Rng)
    (resp : Response) :
  spotifyHandler username r = (Normal resp, r') ->
  member (member (body resp) "profile") "simulated" = VBool true ->
  member (member (body resp) "profile") "type" = str "artist" ->
  generateArtist username (normalize username) r = (Normal resp, r').
Proof.
  unfold spotifyHandler, tryCatch, spotifyResolve. cbv zeta.
  destruct (truthy (knownProfile (normalize username))).
  - unfold exactMatch, resJson, ret. cbv zeta.
    intros E Hsim _. inversion E; subst resp; clear E.
    cbn [body] in Hsim. rewrite member_profile in Hsim.
    rewrite objectLiteral_lacks in Hsim; [discriminate|].
    rewrite lacks_cons, lacks_app, knownProfile_not_simulated. reflexivity.
  - destruct (closeMatches (normalize username)) as [|closest rest].
    + unfold spotifyGuess.
      destruct (likely_artist username).
      * destruct (generateArtist_spec username (normalize username) r)
          as (pool & sel & albums & tracks & profile & r1 & E & _).
        rewrite E. intros H _ _. exact H.
      * destruct (isLikelyUser username).
        -- destruct (generateUser_spec username (normalize username) r)
             as (playlists & profile & r1 & E & Hty & _).
           rewrite E. intros H _ Hart. inversion H; subst resp; clear H.
           cbn [body] in Hart. rewrite member_profile in Hart.
           cbn [member] in Hart. rewrite Hty in Hart. discriminate.
        -- intros H Hsim _. inversion H; subst resp. discriminate.
    + unfold closeMatch. cbv zeta. unfold get.
      destruct (knownProfile closest) eqn:Ep;
        rewrite ?bind_throw, ?bind_ret;
        try (intros H Hsim _; inversion H; subst resp; discriminate);
        intros H Hsim _; inversion H; subst resp; clear H;
        cbn [body] in Hsim; rewrite member_profile in Hsim;
        (rewrite objectLiteral_lacks in Hsim; [discriminate|]);
        rewrite lacks_cons, lacks_app;
        pose proof (knownProfile_not_simulated closest) as Hk;
        rewrite Ep in Hk; cbn [spread] in *; rewrite Hk; reflexivity.
Qed.

Lemma member_of_lookup (props : list (string * Value)) (key : string)
    (v : Value) :
  lookup key props = Some v -> member (VObj props) key = v.
Proof. intros H. simpl. now rewrite H. Qed.

(** C9, as the code has it. Every synthetic artist profile's [genres] list
    holds between 1 and 4 genre tags, no tag twice, all of them drawn from
    one pool of [genres]: the loop makes 2 to 4 draws and a tag drawn again
    is not added.  This holds of every answer of the artist generator, and
    so of every answer of the endpoint tagged [simulated: true] and
    [type: 'artist']. *)
Theorem synthetic_artist_genres_from_one_pool
    (username normalizedUsername : jsstring) (r : Rng) :
  (exists resp r',
     generateArtist username normalizedUsername r = (Normal resp, r')
     /\ GenresOfOnePool 1 (member (body resp) "profile"))
  /\ (forall resp r',
        spotifyHandler username r = (Normal resp, r') ->
        member (member (body resp) "profile") "simulated" = VBool true ->
        member (member (body resp) "profile") "type" = str "artist" ->
        GenresOfOnePool 1 (member (body resp) "profile")).
Proof.
  assert (H : forall n,
            exists resp r',
              generateArtist username n r = (Normal resp, r')
              /\ GenresOfOnePool 1 (member (body resp) "profile")).
  { intros n.
    destruct (generateArtist_spec username n r)
      as (pool & selected & albums & tracks & profile & r' & E & _ & _
          & Hg & _ & _ & Hpool & (Hlen & Hnd & Hall) & _ & _).
    eexists; eexists. split; [exact E|].
    cbn [body]. rewrite member_profile.
    exists pool, selected.
    split; [now apply member_of_lookup|].
    repeat split; try assumption; lia. }
  split; [apply H|].
  intros resp r' E Hsim Hart.
  pose proof (simulated_artist_is_generated username r r' resp E Hsim Hart)
    as Eg.
  destruct (H (normalize username)) as (resp0 & r0 & E0 & Hs).
  rewrite Eg in E0. inversion E0; subst. exact Hs.
Qed.

(* ================================================================== *)
(** ** Further properties of [compareDistance] and of the close matches *)
(* ================================================================== *)

Lemma edits_trans (n m : nat) (a b c : jsstring) :
  edits n a b -> edits m b c -> edits (n + m) a c.
Proof.
  induction 1 as [a|n a b d Hab Hbd IH]; intros Hc; [exact Hc|].
  simpl. eapply edits_step; [exact Hab | now apply IH].
Qed.

Lemma levenshtein_triangle (a b c : jsstring) :
  levenshtein a c <= levenshtein a b + levenshtein b c.
Proof.
  apply levenshtein_lower.
  eapply edits_trans; apply levenshtein_reached.
Qed.

(** X1. [compareDistance] obeys the triangle inequality: going through a
    third string never shortens the way. *)
Theorem compareDistance_triangle (a b c : jsstring) :
  compareDistance a c <= compareDistance a b + compareDistance b c.
Proof.
  rewrite !compareDistance_levenshtein. apply levenshtein_triangle.
Qed.

Lemma edit1_length (a b : jsstring) : edit1 a b -> LengthsWithin 1 a b.
Proof.
  unfold LengthsWithin. induction 1; simpl in *; lia.
Qed.

Lemma edits_length (n : nat) (a b : jsstring) :
  edits n a b -> LengthsWithin n a b.
Proof.
  unfold LengthsWithin.
  induction 1 as [a|n a b c Hab Hbc IH]; [lia|].
  apply edit1_length in Hab. unfold LengthsWithin in Hab. lia.
Qed.

Lemma levenshtein_upper (a b : jsstring) :
  levenshtein a b <= Nat.max (length a) (length b).
Proof.
  revert b; induction a as [|x a IH]; intros b.
  - simpl. lia.
  - destruct b as [|y b].
    + rewrite levenshtein_nil_r. lia.
    + rewrite levenshtein_cons. specialize (IH b). simpl length.
      unfold min3. destruct (unit_eqb x y); lia.
Qed.

(** X2. [compareDistance a b] lies between the difference of the two
    lengths and the greater of them. *)
Theorem compareDistance_length_bounds (a b : jsstring) :
  Nat.max (length a) (length b) - Nat.min (length a) (length b)
  <= compareDistance a b
  /\ compareDistance a b <= Nat.max (length a) (length b).
Proof.
  rewrite compareDistance_levenshtein. split.
  - pose proof (edits_length _ _ _ (levenshtein_reached a b)) as [H1 H2]. lia.
  - apply levenshtein_upper.
Qed.

Lemma compareDistance_lengths (a b : jsstring) :
  LengthsWithin (compareDistance a b) a b.
Proof.
  rewrite compareDistance_levenshtein.
  apply edits_length, levenshtein_reached.
Qed.

Lemma knownKeys_short : Forall (fun key => length key <= 13) knownKeys.
Proof.
  apply Forall_forall. intros key Hin.
  assert (H : forallb (fun key => length key <=? 13) knownKeys = true)
    by (vm_compute; reflexivity).
  apply Nat.leb_le. exact (proj1 (forallb_forall _ _) H key Hin).
Qed.

Lemma closeMatches_in (n key : jsstring) :
  In key (closeMatches n) ->
  In key knownKeys /\ compareDistance n key <= 2.
Proof.
  unfold closeMatches. intros H. apply filter_In in H as [Hin Hd].
  split; [exact Hin | now apply Nat.leb_le].
Qed.

Lemma long_query_unmatched (n : jsstring) :
  16 <= length n ->
  truthy (knownProfile n) = false /\ closeMatches n = [].
Proof.
  intros Hlen. split.
  - unfold knownProfile. rewrite ownProfile_none.
    + destruct (str_eqb n (js "constructor")) eqn:E1.
      { apply str_eqb_eq in E1. subst n. simpl in Hlen. lia. }
      destruct (str_eqb n (js "__proto__")) eqn:E2; [|reflexivity].
      apply str_eqb_eq in E2. subst n. simpl in Hlen. lia.
    + intros Hin.
      pose proof (proj1 (Forall_forall _ _) knownKeys_short n Hin) as Hk.
      cbv beta in Hk. lia.
  - destruct (closeMatches n) as [|key rest] eqn:E; [reflexivity|].
    assert (Hin : In key (closeMatches n)) by (rewrite E; now left).
    apply closeMatches_in in Hin as [Hin Hd].
    pose proof (proj1 (Forall_forall _ _) knownKeys_short key Hin) as Hk.
    cbv beta in Hk.
    pose proof (compareDistance_lengths n key) as [H1 H2]. lia.
Qed.

(** X3. A key of the dataset is a close match of a query only when the two
    lengths differ by at most 2; so a query whose normalized form has 16
    code units or more (the longest key has 13) is never answered from the
    dataset: it goes to the guess. *)
Theorem close_matches_have_close_lengths (username : jsstring) (r : Rng) :
  (forall n key, In key (closeMatches n) ->
                 In key knownKeys /\ LengthsWithin 2 n key)
  /\ (16 <= length (normalize username) ->
      spotifyHandler username r
      = spotifyGuess username (normalize username) r).
Proof.
  split.
  - intros n key Hin. apply closeMatches_in in Hin as [Hin Hd].
    split; [exact Hin|].
    pose proof (compareDistance_lengths n key) as [H1 H2].
    unfold LengthsWithin. lia.
  - intros Hlen.
    destruct (long_query_unmatched _ Hlen) as [He Hc].
    now apply guess_reached.
Qed.

(* ================================================================== *)
(** ** Further properties of the Spotify handler *)
(* ================================================================== *)

Lemma closeMatch_answer (username closest : jsstring) (r : Rng) :
  In closest knownKeys ->
  exists record name,
    ownProfile knownProfiles closest = Some record
    /\ member record "name" = VStr name
    /\ closeMatch username closest r
       = (Normal (substitution username closest record name), r).
Proof.
  intros Hin.
  destruct (known_key_record closest Hin) as (props & name & Eown & Ename).
  exists (VObj props), name. split; [exact Eown|].
  split; [simpl; now rewrite Ename|].
  unfold closeMatch, knownProfile. rewrite Eown. cbv zeta.
  unfold get. rewrite !bind_ret. unfold resJson, ret, substitution, matchNote.
  simpl member. rewrite Ename. reflexivity.
Qed.

(** Every query takes one of the three paths. *)
Lemma spotifyHandler_path (username : jsstring) (r : Rng) :
  SpotifyPath username r.
Proof.
  destruct (truthy (knownProfile (normalize username))) eqn:Et.
  - eapply ExactPath; [exact Et | reflexivity |].
    unfold spotifyHandler, tryCatch, spotifyResolve. cbv zeta.
    rewrite Et. reflexivity.
  - destruct (closeMatches (normalize username)) as [|closest rest] eqn:Ec.
    + apply GuessPath; [exact Et | exact Ec | now apply guess_reached].
    + assert (Hin : In closest knownKeys).
      { apply (closeMatches_in (normalize username)). rewrite Ec. now left. }
      destruct (closeMatch_answer username closest r Hin)
        as (record & name & Eown & Ename & E).
      eapply ClosePath; try eassumption.
      unfold spotifyHandler, tryCatch, spotifyResolve. cbv zeta.
      rewrite Et, Ec, E. reflexivity.
Qed.

(** What the answer for each key of the dataset holds. *)
Lemma known_key_answer (key : jsstring) :
  In key knownKeys ->
  exists record name,
    ownProfile knownProfiles key = Some record
    /\ truthy record = true
    /\ member record "name" = VStr name
    /\ member (member (body (exactAnswer key record)) "profile") "username"
       = VStr key
    /\ member (member (body (exactAnswer key record)) "profile") "name"
       = VStr name
    /\ member (member (body (exactAnswer key record)) "profile") "simulated"
       = VUndefined
    /\ member (member (body (exactAnswer key record)) "profile") "note"
       = VUndefined.
Proof.
  unfold knownKeys, knownProfiles. cbn [map fst].
  intros H.
  repeat (destruct H as [<-|H];
          [eexists; eexists; split; [reflexivity|];
           repeat split; vm_compute; reflexivity|]).
  contradiction.
Qed.

Lemma knownProfile_own (key : jsstring) (record : Value) :
  ownProfile knownProfiles key = Some record -> knownProfile key = record.
Proof. unfold knownProfile. now intros ->. Qed.

(** X4. A query whose normalized form is a key of the dataset is answered
    with that key's record: HTTP 200, [exists: true], the key as
    [username], the record's [name], no [simulated] tag and no [note]; the
    random source is not touched. *)
Theorem exact_key_is_served (username : jsstring) (r : Rng) :
  In (normalize username) knownKeys ->
  exists record name,
    ownProfile knownProfiles (normalize username) = Some record
    /\ spotifyHandler username r
       = (Normal (exactAnswer (normalize username) record), r)
    /\ member record "name" = VStr name
    /\ member (member (body (exactAnswer (normalize username) record))
                 "profile") "username" = VStr (normalize username)
    /\ member (member (body (exactAnswer (normalize username) record))
                 "profile") "name" = VStr name
    /\ member (member (body (exactAnswer (normalize username) record))
                 "profile") "simulated" = VUndefined
    /\ member (member (body (exactAnswer (normalize username) record))
                 "profile") "note" = VUndefined.
Proof.
  intros Hin.
  destruct (known_key_answer _ Hin)
    as (record & name & Eown & Et & Hname & Hu & Hn & Hs & Hnote).
  exists record, name. split; [exact Eown|].
  split; [|repeat split; assumption].
  unfold spotifyHandler, tryCatch, spotifyResolve. cbv zeta.
  rewrite (knownProfile_own _ _ Eown), Et.
  unfold exactMatch. rewrite (knownProfile_own _ _ Eown). reflexivity.
Qed.

Lemma theweeknd_known : truthy (knownProfile (js "theweeknd")) = true.
Proof. vm_compute. reflexivity. Qed.

Lemma normalize_alias (username : jsstring) :
  removeWhiteSpace (toLowerCase username) = js "weeknd" ->
  normalize username = js "theweeknd".
Proof.
  intros H. unfold normalize. rewrite H, theweeknd_known. reflexivity.
Qed.

(** X5. The alias of [weeknd]: no query is normalized to [weeknd], so the
    dataset's entry under that key is never served as an exact match; a
    query that lower-cases and strips to [weeknd] is answered with the
    record of [theweeknd], under the user name [theweeknd]. *)
Theorem weeknd_is_an_alias (username : jsstring) (r : Rng) :
  normalize username <> js "weeknd"
  /\ (removeWhiteSpace (toLowerCase username) = js "weeknd" ->
      normalize username = js "theweeknd"
      /\ exists record,
           ownProfile knownProfiles (js "theweeknd") = Some record
           /\ spotifyHandler username r
              = (Normal (exactAnswer (js "theweeknd") record), r)).
Proof.
  split.
  - unfold normalize.
    destruct (str_eqb (removeWhiteSpace (toLowerCase username)) (js "weeknd"))
      eqn:E.
    + rewrite theweeknd_known. discriminate.
    + simpl andb. cbv iota. intros H.
      apply str_eqb_eq in H. congruence.
  - intros H. pose proof (normalize_alias username H) as En.
    split; [exact En|].
    assert (Hin : In (normalize username) knownKeys).
    { rewrite En.
      assert (Hx : existsb (str_eqb (js "theweeknd")) knownKeys = true)
        by (vm_compute; reflexivity).
      apply existsb_exists in Hx as (k & Hk & Ek).
      apply str_eqb_eq in Ek. now subst k. }
    destruct (known_key_answer _ Hin) as (record & name & Eown & Et & _).
    exists record. rewrite <- En. split; [exact Eown|].
    unfold spotifyHandler, tryCatch, spotifyResolve. cbv zeta.
    rewrite (knownProfile_own _ _ Eown), Et.
    unfold exactMatch. rewrite (knownProfile_own _ _ Eown). reflexivity.
Qed.

(** X6. The lookup [knownProfiles[key]] also finds what every object
    inherits: a query normalized to [constructor] or to [__proto__] is
    answered [exists: true], with a profile that holds the user name and
    an artist link and nothing else. *)
Theorem inherited_names_are_served (username : jsstring) (r : Rng) :
  normalize username = js "constructor"
  \/ normalize username = js "__proto__" ->
  spotifyHandler username r
  = (Normal {| status := 200;
               body := VObj [
                 "exists" =: VBool true;
                 "profile" =: VObj [
                   "username" =: VStr (normalize username);
                   "external_url" =:
                     VStr (js "https://open.spotify.com/artist/"
                           ++ normalize username) ] ] |}, r).
Proof.
  intros H. unfold spotifyHandler, tryCatch, spotifyResolve. cbv zeta.
  destruct H as [-> | ->]; reflexivity.
Qed.

(** *** No endpoint but GitHub's answers with HTTP 500 *)

Lemma answers_weaken {A} (P Q : A -> Prop) (m : M A) :
  (forall a, P a -> Q a) -> Answers P m -> Answers Q m.
Proof.
  intros HPQ Hm r. destruct (Hm r) as (a & r' & E & Ha).
  exists a, r'. split; [exact E | now apply HPQ].
Qed.

Lemma answers_tryCatch_through {A} (P : A -> Prop) (m : M A)
    (h : Exn -> M A) :
  Answers P m -> Answers P (tryCatch m h).
Proof.
  intros Hm r. destruct (Hm r) as (a & r' & E & Ha).
  exists a, r'. split; [now apply tryCatch_normal | exact Ha].
Qed.

Lemma settles_ok (v : Value) : Settles Ok200 (resJson v).
Proof. intros r. reflexivity. Qed.

Lemma guess_ok (m : M Response) : Answers GuessResult m -> Answers Ok200 m.
Proof. apply answers_weaken. intros resp [[Hst _] _]. exact Hst. Qed.

Lemma inner_catch_ok (attempt guess : M Response) (lenient : bool) :
  Settles Ok200 attempt -> Answers GuessResult guess ->
  Answers Ok200
    (tryCatch attempt
       (fun error => if negb lenient && isNotFound error
                     then resJson notFound else guess)).
Proof.
  intros Ha Hg. apply answers_tryCatch; [exact Ha|].
  intros e. destruct (negb lenient && isNotFound e).
  - apply answers_resJson. reflexivity.
  - now apply guess_ok.
Qed.

Lemma twitterScrape_ok (result : AxiosResult (option NitterPage))
    (username : jsstring) :
  Settles Ok200 (twitterScrape result username).
Proof.
  intros r.
  destruct (twitterScrape_cases result username r) as [E|[e E]]; rewrite E.
  - reflexivity.
  - exact I.
Qed.

Lemma instagramScrape_ok (result : AxiosResult (option InstagramPage))
    (username : jsstring) :
  Settles Ok200 (instagramScrape result username).
Proof. unfold instagramScrape. settle. cbv zeta. apply settles_ok. Qed.

Lemma linkedinProbe_ok (result : AxiosResult unit) (username : jsstring) :
  Settles Ok200 (linkedinProbe result username).
Proof. unfold linkedinProbe. settle. apply settles_ok. Qed.

Lemma redditAbout_ok (result : AxiosResult Value) (username : jsstring) :
  Settles Ok200 (redditAbout result username).
Proof.
  unfold redditAbout. settle.
  match goal with |- context [if ?c then _ else _] => destruct c end.
  - cbv zeta. eapply settles_bind with (P := fun _ => True).
    + destruct (secondsToISOString _);
        [now apply settles_ret | apply settles_throw].
    + intros created _. apply settles_ok.
  - apply settles_ok.
Qed.

Lemma tiktokScrape_ok (result : AxiosResult (option TikTokPage))
    (username : jsstring) :
  Settles Ok200 (tiktokScrape result username).
Proof.
  unfold tiktokScrape. settle. cbv zeta.
  match goal with |- context [if ?c then _ else _] => destruct c end.
  - eapply settles_bind with (P := fun _ => True).
    + destruct (search _ _); [apply settles_parseTikTokNumber|].
      settle. now apply settles_ret.
    + intros followers _. eapply settles_bind with (P := fun _ => True).
      * destruct (search _ _); [apply settles_parseTikTokNumber|].
        settle. now apply settles_ret.
      * intros likes _. apply settles_ok.
  - apply settles_ok.
Qed.

Lemma spotifyGuess_ok (username n : jsstring) :
  Answers Ok200 (spotifyGuess username n).
Proof.
  intros r. unfold spotifyGuess. destruct (likely_artist username).
  - destruct (generateArtist_spec username n r)
      as (pool & sel & albums & tracks & profile & r' & E & _).
    eexists; eexists. split; [exact E | reflexivity].
  - destruct (isLikelyUser username).
    + destruct (generateUser_spec username n r)
        as (playlists & profile & r' & E & _).
      eexists; eexists. split; [exact E | reflexivity].
    + eexists; eexists. split; reflexivity.
Qed.

Lemma spotifyHandler_ok (username : jsstring) :
  Answers Ok200 (spotifyHandler username).
Proof.
  intros r. destruct (spotifyHandler_path username r)
    as [record _ _ E | closest rest record name _ _ _ _ E | _ _ E].
  - eexists; eexists. split; [exact E | reflexivity].
  - eexists; eexists. split; [exact E | reflexivity].
  - rewrite E. apply spotifyGuess_ok.
Qed.

(** X7. On every endpoint but GitHub's the outer [catch] is never reached:
    whatever the remote does and whatever is drawn, the request is answered
    with HTTP 200. *)
Theorem only_github_answers_500 (q : Request) (r : Rng) :
  platformOf q <> GitHub ->
  exists resp r', handle q r = (Normal resp, r') /\ status resp = 200.
Proof.
  intros Hq.
  assert (H : Answers Ok200 (handle q)).
  { destruct q; simpl handle; try (simpl in Hq; congruence).
    - unfold twitterHandler. apply answers_tryCatch_through.
      apply answers_tryCatch; [apply twitterScrape_ok|].
      intros e. apply guess_ok, twitterGuess_spec.
    - unfold instagramHandler. apply answers_tryCatch_through.
      apply answers_tryCatch; [apply instagramScrape_ok|].
      intros e. destruct (isNotFound e);
        [now apply answers_resJson | apply guess_ok, instagramGuess_spec].
    - unfold linkedinHandler. apply answers_tryCatch_through.
      apply answers_tryCatch; [apply linkedinProbe_ok|].
      intros e. destruct (isNotFound e);
        [now apply answers_resJson | apply guess_ok, linkedinGuess_spec].
    - unfold redditHandler. apply answers_tryCatch_through.
      apply answers_tryCatch; [apply redditAbout_ok|].
      intros e. destruct (isNotFound e);
        [now apply answers_resJson | apply guess_ok, redditGuess_spec].
    - unfold tiktokHandler. apply answers_tryCatch_through.
      apply answers_tryCatch; [apply tiktokScrape_ok|].
      intros e. destruct (isNotFound e);
        [now apply answers_resJson | apply guess_ok, tiktokGuess_spec].
    - apply spotifyHandler_ok. }
  destruct (H r) as (resp & r' & E & Hst). now exists resp, r'.
Qed.

(** X8. The Spotify endpoint reports as existing every user name of at
    least 3 code units that holds no space character, whether the dataset
    knows it or not. *)
Theorem spaceless_names_exist_on_spotify (username : jsstring) (r : Rng) :
  3 <= length username -> ~ In 32%N username ->
  exists resp r',
    spotifyHandler username r = (Normal resp, r')
    /\ status resp = 200
    /\ member (body resp) "exists" = VBool true.
Proof.
  intros Hlen Hspace.
  destruct (spotifyHandler_path username r)
    as [record _ _ E | closest rest record name _ _ _ _ E | _ _ E].
  - eexists; eexists. split; [exact E|]. split; reflexivity.
  - eexists; eexists. split; [exact E|]. split; reflexivity.
  - rewrite E. unfold spotifyGuess. destruct (likely_artist username).
    + destruct (generateArtist_spec username (normalize username) r)
        as (pool & sel & albums & tracks & profile & r' & Eg & _).
      eexists; eexists. split; [exact Eg|]. split; reflexivity.
    + assert (Hu : isLikelyUser username = true).
      { unfold isLikelyUser. apply andb_true_iff. split.
        - now apply Nat.leb_le.
        - apply negb_true_iff, not_true_iff_false.
          change (js " ") with [32%N]. now rewrite includes_unit. }
      rewrite Hu.
      destruct (generateUser_spec username (normalize username) r)
        as (playlists & profile & r' & Eg & _).
      eexists; eexists. split; [exact Eg|]. split; reflexivity.
Qed.

(* ================================================================== *)
(** ** The figures of the synthetic profiles *)
(* ================================================================== *)

Ltac draw_bounds :=
  repeat match goal with
         | |- context [draw ?r0 ?n] =>
             lazymatch goal with
             | H : (draw r0 n < n)%N |- _ => fail
             | _ => pose proof (draw_below r0 n eq_refl)
             end
         end.

Lemma padStart2_two (n : N) :
  (n < 100)%N -> length (padStart2 (decimal n)) = 2.
Proof.
  intros Hn.
  assert (H : forallb (fun k => length (padStart2 (decimal (N.of_nat k)))
                                =? 2) (seq 0 100) = true)
    by (vm_compute; reflexivity).
  rewrite forallb_forall in H.
  specialize (H (N.to_nat n)). rewrite N2Nat.id in H.
  apply Nat.eqb_eq, H, in_seq. lia.
Qed.

Lemma dateString_length (i : nat) (month day : N) :
  i < 1024 -> (month < 100)%N -> (day < 100)%N ->
  length (dateString (2023 - Z.of_nat i) month day) = 10.
Proof.
  intros Hi Hm Hd. unfold dateString.
  rewrite !length_app, (padStart2_two month Hm), (padStart2_two day Hd).
  assert (H : forallb (fun k => length (toText (VNum (2023 - Z.of_nat k)))
                                =? 4) (seq 0 1024) = true)
    by (vm_compute; reflexivity).
  rewrite forallb_forall in H.
  specialize (H i). rewrite Nat.eqb_eq in H. rewrite H; [reflexivity|].
  apply in_seq. lia.
Qed.

Lemma generateAlbum_detail (formattedName : jsstring) (i : nat)
    (albums : list Value) (r : Rng) :
  i < 1024 ->
  exists album r',
    generateAlbum formattedName i albums r = (Normal (albums ++ [album]), r')
    /\ DatedAlbum i album.
Proof.
  intros Hi. unfold generateAlbum. repeat draw_step.
  match goal with
  | |- context [bind (generateAlbumTitle ?f ?a) ?k ?r0] =>
      destruct (generateAlbumTitle_string f a r0) as (s & r1 & E);
      rewrite (bind_normal _ k _ _ _ E); cbv beta
  end.
  repeat draw_step.
  match goal with
  | |- context [at_ albumImages (draw ?r0 5)] =>
      destruct (at_draw albumImages r0 ltac:(simpl; lia)) as (image & Ei & Hin);
      change (N.of_nat (length albumImages)) with 5%N in Ei; rewrite Ei
  end.
  eexists; eexists. split; [reflexivity|].
  unfold DatedAlbum. do 5 eexists.
  split; [reflexivity|].
  draw_bounds.
  split; [lia|]. split; [lia|].
  split; [apply dateString_length; lia|].
  split; [lia | exact Hin].
Qed.

Lemma albumsDated_snoc (i : nat) (albums : list Value) (album : Value) :
  AlbumsDated i albums -> DatedAlbum i album ->
  AlbumsDated (i + 1) (albums ++ [album]).
Proof.
  intros [Hlen Hall] Ha. split; [rewrite length_app; simpl; lia|].
  intros j Hj. destruct (Nat.eq_dec j i) as [->|Hne].
  - rewrite app_nth2 by lia. rewrite Hlen, Nat.sub_diag. exact Ha.
  - rewrite app_nth1 by lia. apply Hall. lia.
Qed.

Lemma generateAlbums_detail (formattedName : jsstring) (r : Rng) :
  exists albums r',
    generateAlbums formattedName r = (Normal albums, r')
    /\ 2 <= length albums <= 3
    /\ AlbumsDated (length albums) albums.
Proof.
  unfold generateAlbums.
  destruct (forRandom_invariant
              (fun k acc => k < 1024 -> AlbumsDated k acc) 2 2
              (generateAlbum formattedName) ltac:(reflexivity))
    with (fuel := loopFuel) (i := 0) (acc := @nil Value) (r := r)
    as (k & acc & r' & E & Hd & _ & Hbase & Hk).
  - intros i acc r0 Hd.
    destruct (Nat.lt_ge_cases i 1024) as [Hlt|Hge].
    + destruct (generateAlbum_detail formattedName i acc r0 Hlt)
        as (a & r1 & E & Ha).
      exists (acc ++ [a]), r1. split; [exact E|].
      intros _. apply albumsDated_snoc; auto.
    + destruct (generateAlbum_spec formattedName i acc r0)
        as (a & r1 & E & _).
      exists (acc ++ [a]), r1. split; [exact E | lia].
  - unfold loopFuel. lia.
  - unfold loopFuel. simpl. lia.
  - intros _. split; [reflexivity|]. intros i Hi. lia.
  - simpl in Hbase, Hk.
    assert (Hk' : k < 1024) by lia.
    destruct (Hd Hk') as [Hlen Hall].
    exists acc, r'. split; [exact E|]. rewrite Hlen.
    split; [lia|]. split; [exact Hlen | exact Hall].
Qed.

Lemma generateSongTitle_string (artistName : jsstring) (r : Rng) :
  exists s r', generateSongTitle artistName r = (Normal (VStr s), r').
Proof.
  unfold generateSongTitle. repeat draw_step.
  match goal with
  | |- context [nth _ (at_ ?pool (draw ?r0 10) :: _)] =>
      destruct (at_draw pool r0 ltac:(simpl; lia)) as (w & Ew & _);
      simpl length in Ew; simpl N.of_nat in Ew; rewrite Ew
  end.
  match goal with
  | |- context [N.to_nat (draw ?r0 ?n)] =>
      pose proof (draw_below_nat r0 5 ltac:(lia)) as Hk;
      simpl N.of_nat in Hk;
      change n with 5%N;
      destruct (N.to_nat (draw r0 5)) as [|[|[|[|[|k]]]]]; [..|lia]
  end; simpl nth; eexists; eexists; reflexivity.
Qed.

Lemma datedAlbum_in (albums : list Value) (k : nat) :
  AlbumsDated (length albums) albums -> k < length albums ->
  In (nth k albums VUndefined) albums
  /\ exists name date tracks image,
       nth k albums VUndefined
       = VObj ["name" =: VStr name; "release_date" =: VStr date;
               "total_tracks" =: tracks; "image_url" =: image].
Proof.
  intros [_ Hall] Hk. split; [now apply nth_In|].
  destruct (Hall k Hk) as (name & month & day & tracks & image & E & _).
  rewrite E. now do 4 eexists.
Qed.

Lemma generateTrack_detail (formattedName : jsstring) (albums : list Value)
    (i : nat) (topTracks : list Value) (r : Rng) :
  0 < length albums -> AlbumsDated (length albums) albums ->
  exists track r',
    generateTrack formattedName albums i topTracks r
    = (Normal (topTracks ++ [track]), r')
    /\ TrackFrom albums track.
Proof.
  intros Hne Hall. unfold generateTrack. draw_step.
  pose proof (draw_below_nat r (length albums) Hne) as Hk.
  set (k := N.to_nat (draw r (N.of_nat (length albums)))) in *.
  destruct (datedAlbum_in albums k Hall Hk)
    as (Hin & name & date & tracks & image & Ealbum).
  remember (nth k albums VUndefined) as album eqn:Ek.
  match goal with
  | |- context [bind (generateSongTitle ?a) ?k0 ?r0] =>
      destruct (generateSongTitle_string a r0) as (title & r1 & E);
      rewrite (bind_normal _ k0 _ _ _ E); cbv beta
  end.
  draw_step.
  assert (Eg : forall key B (k0 : Value -> M B) r0,
            bind (get album key) k0 r0 = k0 (member album key) r0).
  { intros. rewrite Ealbum. reflexivity. }
  rewrite !Eg. draw_step.
  eexists; eexists. split; [reflexivity|].
  unfold TrackFrom. exists title. eexists. exists album. eexists.
  split; [reflexivity|]. split; [exact Hin|].
  draw_bounds. lia.
Qed.

Lemma generateTopTracks_detail (formattedName : jsstring)
    (albums : list Value) (r : Rng) :
  0 < length albums -> AlbumsDated (length albums) albums ->
  exists topTracks r',
    generateTopTracks formattedName albums r = (Normal topTracks, r')
    /\ length topTracks = 5
    /\ Forall (TrackFrom albums) topTracks.
Proof.
  intros Hne Hall. unfold generateTopTracks.
  destruct (forCount_invariant
              (fun k acc => length acc = k /\ Forall (TrackFrom albums) acc)
              (generateTrack formattedName albums)) with (n := 5) (i := 0)
              (acc := @nil Value) (r := r) as (acc & r' & E & Hlen & Htr).
  - intros i acc r0 (Hlen & Htr).
    destruct (generateTrack_detail formattedName albums i acc r0 Hne Hall)
      as (t & r1 & E & Ht).
    exists (acc ++ [t]), r1. split; [exact E|].
    split; [rewrite length_app; simpl; lia|].
    apply Forall_app. split; [exact Htr | repeat constructor; exact Ht].
  - split; [reflexivity | constructor].
  - exists acc, r'. repeat split; assumption.
Qed.

(** The artist generator's answer in full. *)
Lemma generateArtist_detail (username normalizedUsername : jsstring)
    (r : Rng) :
  exists resp r',
    generateArtist username normalizedUsername r = (Normal resp, r')
    /\ ArtistFigures username normalizedUsername (member (body resp) "profile")
    /\ AlbumsYearByYear (member (body resp) "profile")
    /\ TracksFromAlbums (member (body resp) "profile").
Proof.
  unfold generateArtist. cbv zeta. draw_step.
  pose proof (draw_below_nat r (length genres) ltac:(simpl; lia)) as Hpool.
  destruct (nth_error genres (N.to_nat (draw r (N.of_nat (length genres)))))
    as [pool|] eqn:Epool; [|apply nth_error_None in Epool; lia].
  apply nth_error_In in Epool. rewrite bind_ret.
  destruct (selectGenres_spec pool (advance r) (genres_nonempty pool Epool))
    as (selected & r1 & E1 & Hsel).
  bind_with E1.
  match goal with
  | |- context [generateAlbums ?f] =>
      destruct (generateAlbums_detail f r1) as (albums & r2 & E2 & Hlen & Halb);
      bind_with E2;
      destruct (generateTopTracks_detail f albums r2 ltac:(lia) Halb)
        as (tracks & r3 & E3 & Htr);
      bind_with E3
  end.
  repeat draw_step.
  match goal with
  | |- context [at_ artistImages (draw ?r0 5)] =>
      destruct (at_draw artistImages r0 ltac:(simpl; lia)) as (image & Ei & Hin);
      change (N.of_nat (length artistImages)) with 5%N in Ei; rewrite Ei
  end.
  eexists; eexists. split; [reflexivity|].
  cbn [body]. rewrite member_profile.
  split; [|split].
  - unfold ArtistFigures. do 3 eexists. exists image.
    draw_bounds.
    repeat (split; [reflexivity || lia|]). exact Hin.
  - exists albums. split; [reflexivity|]. split; [lia | apply Halb].
  - exists tracks, albums. split; [reflexivity|]. split; [reflexivity|].
    exact Htr.
Qed.

(** What holds of every answer of the artist generator holds of every
    answer of the endpoint that is tagged [simulated: true] and
    [type: 'artist']. *)
Lemma simulated_artist_has (P : jsstring -> Value -> Prop)
    (username : jsstring) (r : Rng) :
  (forall n, exists resp r',
     generateArtist username n r = (Normal resp, r')
     /\ P n (member (body resp) "profile")) ->
  forall resp r',
    spotifyHandler username r = (Normal resp, r') ->
    member (member (body resp) "profile") "simulated" = VBool true ->
    member (member (body resp) "profile") "type" = str "artist" ->
    P (normalize username) (member (body resp) "profile").
Proof.
  intros H resp r' E Hsim Hart.
  pose proof (simulated_artist_is_generated username r r' resp E Hsim Hart)
    as Eg.
  destruct (H (normalize username)) as (resp0 & r0 & E0 & Hs).
  rewrite Eg in E0. inversion E0; subst. exact Hs.
Qed.



(** X11. Every one of the five tracks of a synthetic artist profile takes
    its [album] and its [release_date] from one and the same album of the
    profile; its [popularity] lies in 50..79 and its [duration_ms] in
    150000..249999, and its name is a string. *)
Theorem synthetic_tracks_follow_one_album
    (username normalizedUsername : jsstring) (r : Rng) :
  (exists resp r',
     generateArtist username normalizedUsername r = (Normal resp, r')
     /\ TracksFromAlbums (member (body resp) "profile"))
  /\ (forall resp r',
        spotifyHandler username r = (Normal resp, r') ->
        member (member (body resp) "profile") "simulated" = VBool true ->
        member (member (body resp) "profile") "type" = str "artist" ->
        TracksFromAlbums (member (body resp) "profile")).
Proof.
  assert (H : forall n, exists resp r',
            generateArtist username n r = (Normal resp, r')
            /\ TracksFromAlbums (member (body resp) "profile")).
  { intros n.
    destruct (generateArtist_detail username n r)
      as (resp & r' & E & _ & _ & Ht).
    now exists resp, r'. }
  split; [apply H|].
  apply (simulated_artist_has (fun _ => TracksFromAlbums) username r H).
Qed.

Lemma generatePlaylistName_string (formattedName : jsstring) (r : Rng) :
  exists s r',
    generatePlaylistName formattedName r = (Normal (VStr s), r').
Proof.
  unfold generatePlaylistName. cbv zeta. rewrite bind_randomAboveHalf.
  destruct (precision / 2 <? r 0%nat mod precision)%N;
    repeat draw_step; eexists; eexists; reflexivity.
Qed.

Lemma generatePlaylist_detail (formattedName : jsstring) (i : nat)
    (playlists : list Value) (r : Rng) :
  exists playlist r',
    generatePlaylist formattedName i playlists r
    = (Normal (playlists ++ [playlist]), r')
    /\ IsPlaylist playlist.
Proof.
  unfold generatePlaylist.
  destruct (generatePlaylistName_string formattedName r) as (name & r1 & E).
  bind_with E. repeat draw_step.
  match goal with
  | |- context [at_ playlistImages (draw ?r0 5)] =>
      destruct (at_draw playlistImages r0 ltac:(simpl; lia))
        as (image & Ei & Hin);
      change (N.of_nat (length playlistImages)) with 5%N in Ei; rewrite Ei
  end.
  eexists; eexists. split; [reflexivity|].
  unfold IsPlaylist. exists name. do 2 eexists. exists image.
  split; [reflexivity|]. draw_bounds.
  split; [lia|]. split; [lia | exact Hin].
Qed.

(** The listener generator's answer in full. *)
Lemma generateUser_detail (username normalizedUsername : jsstring) (r : Rng) :
  exists resp r',
    generateUser username normalizedUsername r = (Normal resp, r')
    /\ ListenerFigures username normalizedUsername
         (member (body resp) "profile").
Proof.
  unfold generateUser. cbv zeta.
  match goal with
  | |- context [generatePlaylist ?f] =>
      destruct (forRandom_invariant
                  (fun k l => length l = k /\ Forall IsPlaylist l) 3 2
                  (generatePlaylist f) ltac:(reflexivity))
        with (fuel := loopFuel) (i := 0) (acc := @nil Value) (r := r)
        as (k & playlists & r1 & E & (Hlen & Hall) & _ & Hbase & Hk)
  end.
  - intros i acc r0 (Hlen & Hall).
    match goal with
    | |- context [generatePlaylist ?f] =>
        destruct (generatePlaylist_detail f i acc r0) as (p & r1 & E & Hp)
    end.
    exists (acc ++ [p]), r1. split; [exact E|].
    split; [rewrite length_app; simpl; lia|].
    apply Forall_app. split; [exact Hall | repeat constructor; exact Hp].
  - unfold loopFuel. lia.
  - unfold loopFuel. simpl. lia.
  - split; [reflexivity | constructor].
  - bind_with E. draw_step.
    eexists; eexists. split; [reflexivity|].
    cbn [body]. rewrite member_profile.
    unfold ListenerFigures. eexists. exists playlists.
    draw_bounds. simpl in Hbase, Hk.
    repeat (split; [reflexivity || lia|]). exact Hall.
Qed.



(* ================================================================== *)
(** ** What the fallback guesses say *)
(* ================================================================== *)

Lemma arrayIncludes_short (names : list jsstring) (x : jsstring) (k : nat) :
  Forall (fun name => k <= length name) names -> length x < k ->
  arrayIncludes names x = false.
Proof.
  intros Hall Hx. unfold arrayIncludes.
  induction Hall as [|name names Hname _ IH]; [reflexivity|].
  simpl. rewrite IH, orb_false_r.
  apply not_true_iff_false. intros E. apply str_eqb_eq in E. subst x. lia.
Qed.

Lemma fallback_reached (q : Request) (attempt guess : M Response)
    (e : Exn) (r r1 : Rng) :
  liveStep q = Some (attempt, guess) ->
  attempt r = (Throw e, r1) ->
  isNotFound e = false \/ platformOf q = Twitter ->
  handle q r = guess r1.
Proof.
  intros Hq Ha He.
  rewrite (handle_live_failure q attempt guess e r r1 Hq Ha).
  destruct He as [He|He]; [|now rewrite He].
  rewrite He. now destruct (platformOf q).
Qed.

(** X13. When the live step of Twitter, Instagram, LinkedIn, Reddit or
    TikTok has failed (with anything but a 404; on Twitter with anything),
    a user name of 4 or more code units is reported as existing, with a
    profile that repeats the name and is tagged [simulated: true]; on
    LinkedIn the name must hold neither [test] nor [123].  The figures of
    that profile are drawn: fewer than 10000 followers on Twitter and
    Instagram, a karma in 100..50099 and an age below five years on
    Reddit, 1000..1000999 followers and 10000..10009999 likes on TikTok. *)
Theorem fallback_accepts_long_names (q : Request)
    (attempt guess : M Response) (e : Exn) (r r1 : Rng) :
  liveStep q = Some (attempt, guess) ->
  attempt r = (Throw e, r1) ->
  isNotFound e = false \/ platformOf q = Twitter ->
  4 <= length (usernameOf q) ->
  (platformOf q = LinkedIn ->
   includes (usernameOf q) (js "test") = false
   /\ includes (usernameOf q) (js "123") = false) ->
  exists resp r',
    handle q r = (Normal resp, r')
    /\ status resp = 200
    /\ member (body resp) "exists" = VBool true
    /\ member (member (body resp) "profile") "username" = VStr (usernameOf q)
    /\ member (member (body resp) "profile") "simulated" = VBool true
    /\ GuessFigures q (member (body resp) "profile").
Proof.
  intros Hq Ha He Hlen Hin.
  rewrite (fallback_reached q attempt guess e r r1 Hq Ha He).
  destruct q; simpl in Hq; inversion Hq; subst; clear Hq;
    simpl usernameOf in *; simpl platformOf in *.
  - unfold twitterGuess. cbv zeta.
    replace (3 <? length username) with true
      by (symmetry; apply Nat.ltb_lt; lia).
    rewrite orb_true_r. draw_step.
    eexists; eexists. split; [reflexivity|].
    repeat (split; [reflexivity|]).
    eexists. split; [reflexivity|]. draw_bounds. lia.
  - unfold instagramGuess. cbv zeta.
    replace (4 <=? length username) with true
      by (symmetry; apply Nat.leb_le; lia).
    rewrite orb_true_r. draw_step.
    eexists; eexists. split; [reflexivity|].
    repeat (split; [reflexivity|]).
    eexists. split; [reflexivity|]. draw_bounds. lia.
  - destruct (Hin eq_refl) as [Ht E123].
    unfold linkedinGuess. cbv zeta.
    replace (3 <? length username) with true
      by (symmetry; apply Nat.ltb_lt; lia).
    rewrite Ht, E123. simpl andb. rewrite orb_true_r.
    eexists; eexists. split; [reflexivity|].
    repeat split; reflexivity.
  - unfold redditGuess. cbv zeta.
    replace (3 <? length username) with true
      by (symmetry; apply Nat.ltb_lt; lia).
    rewrite orb_true_r. repeat draw_step.
    eexists; eexists. split; [reflexivity|].
    repeat (split; [reflexivity|]).
    do 2 eexists. split; [reflexivity|].
    draw_bounds. split; [lia|]. split; [reflexivity | lia].
  - unfold tiktokGuess. cbv zeta.
    replace (3 <? length username) with true
      by (symmetry; apply Nat.ltb_lt; lia).
    rewrite orb_true_r. repeat draw_step.
    eexists; eexists. split; [reflexivity|].
    repeat (split; [reflexivity|]).
    do 2 eexists. split; [reflexivity|].
    draw_bounds. split; [lia|]. split; [reflexivity | lia].
Qed.

(** X14. When the live step has failed in the same way, a user name of at
    most 3 code units is reported as not existing, with [profile: null],
    and nothing is drawn: every name on the platforms' lists of popular
    names has 4 code units or more.  (The list is searched for the name in
    lower case; the hypothesis is that lower-casing keeps its length.) *)
Theorem fallback_rejects_short_names (q : Request)
    (attempt guess : M Response) (e : Exn) (r r1 : Rng) :
  liveStep q = Some (attempt, guess) ->
  attempt r = (Throw e, r1) ->
  isNotFound e = false \/ platformOf q = Twitter ->
  length (usernameOf q) <= 3 ->
  length (toLowerCase (usernameOf q)) = length (usernameOf q) ->
  handle q r = (Normal implausible, r1).
Proof.
  intros Hq Ha He Hlen Hlow.
  rewrite (fallback_reached q attempt guess e r r1 Hq Ha He).
  destruct q; simpl in Hq; inversion Hq; subst; clear Hq;
    simpl usernameOf in *;
    unfold twitterGuess, instagramGuess, linkedinGuess, redditGuess,
      tiktokGuess; cbv zeta;
    (rewrite (arrayIncludes_short _ (toLowerCase username) 4);
     [| repeat constructor; apply Nat.leb_le; vm_compute; reflexivity
      | lia]);
    try replace (3 <? length username) with false
      by (symmetry; apply Nat.ltb_ge; lia);
    try replace (4 <=? length username) with false
      by (symmetry; apply Nat.leb_gt; lia);
    reflexivity.
Qed.

(* ================================================================== *)
(** ** What the live handlers read from the remote *)
(* ================================================================== *)

Lemma tiktokGuess_not_scraped (username : jsstring) (r r' : Rng)
    (resp : Response) :
  tiktokGuess username r = (Normal resp, r') ->
  member (member (body resp) "profile") "scraped" <> VBool true.
Proof.
  unfold tiktokGuess. cbv zeta.
  match goal with |- context [if ?c then _ else _] => destruct c end;
    repeat draw_step; intros H; inversion H; subst resp; discriminate.
Qed.

Lemma tiktok_catch_not_scraped (username : jsstring) (e : Exn) (r r' : Rng)
    (resp : Response) :
  (if isNotFound e then resJson notFound else tiktokGuess username) r
  = (Normal resp, r') ->
  member (member (body resp) "profile") "scraped" <> VBool true.
Proof.
  destruct (isNotFound e).
  - intros H. inversion H; subst resp. discriminate.
  - apply tiktokGuess_not_scraped.
Qed.

(** The three outcomes of the TikTok scrape. *)
Lemma tiktokScrape_cases (result : AxiosResult (option TikTokPage))
    (username : jsstring) (r : Rng) :
  (exists e r1, tiktokScrape result username r = (Throw e, r1))
  \/ tiktokScrape result username r = (Normal notFoundResponse, r)
  \/ (exists page,
        result = Resolved (Some page)
        /\ search (magnitudeAt (js "Followers")) (orEmpty (ogDescription page))
           = None
        /\ search (magnitudeAt (js "Likes")) (orEmpty (ogDescription page))
           = None
        /\ tiktokScrape result username r
           = (Normal (tiktokScraped username page (draw r 10000)
                        (draw (advance r) 50000)),
              advance (advance r))).
Proof.
  destruct result as [[page|]|st].
  - unfold tiktokScrape, await, cheerioLoad. rewrite !bind_ret. cbv zeta.
    match goal with |- context [if ?c then _ else _] => destruct c end;
      [|right; left; reflexivity].
    destruct (search (magnitudeAt (js "Followers"))
                (orEmpty (ogDescription page))) as [capture|] eqn:Ef;
      [left; eexists; eexists; reflexivity|].
    destruct (search (magnitudeAt (js "Likes"))
                (orEmpty (ogDescription page))) as [capture|] eqn:El;
      [left; eexists; eexists; reflexivity|].
    right; right. exists page.
    split; [reflexivity|]. split; [exact Ef|]. split; [exact El|].
    reflexivity.
  - left. unfold tiktokScrape, await, cheerioLoad.
    rewrite bind_ret, bind_throw. eauto.
  - left. unfold tiktokScrape, await. rewrite bind_throw. eauto.
Qed.

(** X15. The TikTok endpoint sends no count that it has read from the
    page.  Whenever its answer is tagged [scraped: true], the page's
    description matched neither of the two count patterns, and [followers]
    and [likes] are the next two draws, below 10000 and below 50000: a
    count the patterns capture is handed to [parseTikTokNumber], which
    does not exist, and the answer is then the fallback's. *)
Theorem tiktok_counts_are_never_read
    (result : AxiosResult (option TikTokPage)) (username : jsstring)
    (r r' : Rng) (resp : Response) :
  tiktokHandler result username r = (Normal resp, r') ->
  member (member (body resp) "profile") "scraped" = VBool true ->
  exists page,
    result = Resolved (Some page)
    /\ search (magnitudeAt (js "Followers")) (orEmpty (ogDescription page))
       = None
    /\ search (magnitudeAt (js "Likes")) (orEmpty (ogDescription page)) = None
    /\ resp = tiktokScraped username page (draw r 10000)
                (draw (advance r) 50000)
    /\ (draw r 10000 < 10000)%N
    /\ (draw (advance r) 50000 < 50000)%N
    /\ r' = advance (advance r).
Proof.
  intros E Hs. unfold tiktokHandler in E.
  destruct (tiktokScrape_cases result username r)
    as [(e & r1 & Es) | [Es | (page & -> & Ef & El & Es)]].
  - unfold tryCatch in E. rewrite Es in E.
    destruct ((if isNotFound e then resJson notFound
               else tiktokGuess username) r1) as [[resp1|e0|] r2] eqn:Eh;
      [ | inversion E; subst resp; discriminate | discriminate ].
    inversion E; subst resp1 r2; clear E.
    now apply tiktok_catch_not_scraped in Eh.
  - unfold tryCatch in E. rewrite Es in E.
    inversion E; subst resp. discriminate.
  - unfold tryCatch in E. rewrite Es in E.
    inversion E; subst resp r'; clear E.
    exists page. repeat split; try assumption; now apply draw_below.
Qed.

(** *** Instagram and LinkedIn *)

Lemma parseDigits_nonneg (s : jsstring) : (0 <= parseDigits s)%Z.
Proof.
  unfold parseDigits.
  assert (H : forall acc, (0 <= acc)%Z ->
            (0 <= fold_left (fun acc c => acc * 10 + Z.of_N (c - 48)) s acc)%Z).
  { induction s as [|c s IH]; intros acc Hacc; simpl; [exact Hacc|].
    apply IH. lia. }
  apply H. lia.
Qed.

(** X16. Instagram and LinkedIn report as existing whatever the remote
    serves without an error: the Instagram handler examines the page only
    for its counts, which are 0 when the description states none, and the
    LinkedIn handler does not read the response at all, and estimates the
    connections by a draw in 200..699. *)
Theorem any_served_page_counts_as_existing (username : jsstring) (r : Rng) :
  (forall page : InstagramPage,
     exists name followers posts,
       instagramHandler (Resolved (Some page)) username r
       = (Normal {| status := 200;
                    body := VObj [
                      "exists" =: VBool true;
                      "profile" =: VObj [
                        "username" =: VStr username;
                        "name" =: VStr name;
                        "followers" =: VNum followers;
                        "posts" =: VNum posts;
                        "bio" =: VStr (orEmpty (descriptionContent page));
                        "scraped" =: VBool true ] ] |}, r)
       /\ (0 <= followers)%Z /\ (0 <= posts)%Z
       /\ (orEmpty (descriptionContent page) = [] ->
           name = username /\ followers = 0%Z /\ posts = 0%Z))
  /\ (exists connections,
        linkedinHandler (Resolved tt) username r
        = (Normal {| status := 200;
                     body := VObj [
                       "exists" =: VBool true;
                       "profile" =: VObj [
                         "username" =: VStr username;
                         "url" =: VStr (js "https://www.linkedin.com/in/"
                                        ++ username ++ js "/");
                         "estimated_connections" =: num connections;
                         "checked" =: VBool true ] ] |}, advance r)
        /\ (200 <= connections < 700)%N).
Proof.
  split.
  - intros page. do 3 eexists. split; [reflexivity|].
    split; [|split].
    + destruct (search _ _); [apply parseDigits_nonneg | lia].
    + destruct (search _ _); [apply parseDigits_nonneg | lia].
    + intros ->. repeat split.
  - eexists. split; [reflexivity|].
    pose proof (draw_below r 500 eq_refl). fold (draw r 500). lia.
Qed.

(** *** The counts of an Instagram description *)

Lemma digit_not_white (c : codeunit) : isDigit c = true -> isWhiteSpace c = false.
Proof.
  unfold isDigit. intros H. apply andb_true_iff in H as [H1 H2].
  apply N.leb_le in H1, H2.
  assert (Hc : In c [48; 49; 50; 51; 52; 53; 54; 55; 56; 57]%N).
  { simpl. lia. }
  simpl in Hc.
  repeat (destruct Hc as [<-|Hc]; [reflexivity|]). contradiction.
Qed.

Lemma digit_not_comma (c : codeunit) : isDigit c = true -> (c =? 44)%N = false.
Proof.
  unfold isDigit. intros H. apply andb_true_iff in H as [H1 _].
  apply N.leb_le in H1. apply N.eqb_neq. lia.
Qed.

Lemma digitGroups_digits (digits tail : jsstring) :
  Forall (fun c => isDigit c = true) digits ->
  digitGroups (digits ++ tail)
  = (digits ++ fst (digitGroups tail), snd (digitGroups tail)).
Proof.
  induction 1 as [|c digits Hc _ IH]; simpl.
  - now destruct (digitGroups tail).
  - rewrite Hc, IH. reflexivity.
Qed.

Lemma digitGroups_join (group : jsstring) (groups : list jsstring)
    (tail : jsstring) :
  Forall DigitGroup (group :: groups) ->
  digitGroups (join (js ",") (group :: groups) ++ 32%N :: tail)
  = (join (js ",") (group :: groups), 32%N :: tail).
Proof.
  revert group. induction groups as [|next groups IH]; intros group Hall.
  - inversion Hall as [|? ? [_ Hg] _]; subst. cbn [join].
    rewrite (digitGroups_digits _ _ Hg). simpl. now rewrite app_nil_r.
  - inversion Hall as [|? ? [_ Hg] Hrest]; subst.
    change (join (js ",") (group :: next :: groups))
      with (group ++ 44%N :: join (js ",") (next :: groups)).
    rewrite <- app_assoc. cbn [app].
    rewrite (digitGroups_digits _ _ Hg).
    assert (Hnext : exists d tl, join (js ",") (next :: groups) = d :: tl
                                 /\ isDigit d = true).
    { inversion Hrest as [|? ? [Hne Hn] _]; subst.
      destruct next as [|d next]; [contradiction|].
      inversion Hn; subst.
      destruct groups; cbn [join app]; eauto. }
    destruct Hnext as (d & tl & Ej & Hd).
    specialize (IH next Hrest). rewrite Ej in *. cbn [app] in *.
    cbn [digitGroups]. change (isDigit 44%N) with false. cbv iota.
    change (44 =? 44)%N with true. cbv iota. rewrite Hd.
    cbn [digitGroups] in IH. rewrite Hd in IH.
    destruct (digitGroups (tl ++ 32%N :: tail)) as [taken rest'].
    inversion IH; subst. reflexivity.
Qed.

Lemma join_head_digit (group : jsstring) (groups : list jsstring) :
  DigitGroup group ->
  exists d tl, join (js ",") (group :: groups) = d :: tl /\ isDigit d = true.
Proof.
  intros [Hne Hg]. destruct group as [|d group]; [contradiction|].
  inversion Hg; subst. destruct groups; cbn [join app]; eauto.
Qed.

Lemma search_head (matchAt : jsstring -> option jsstring)
    (s capture : jsstring) :
  matchAt s = Some capture -> search matchAt s = Some capture.
Proof. intros H. destruct s; simpl; now rewrite H. Qed.

Lemma withoutCommas_digits (digits : jsstring) :
  Forall (fun c => isDigit c = true) digits -> withoutCommas digits = digits.
Proof.
  unfold withoutCommas. induction 1 as [|c digits Hc _ IH]; simpl.
  - reflexivity.
  - now rewrite (digit_not_comma c Hc), IH.
Qed.

Lemma withoutCommas_app (a b : jsstring) :
  withoutCommas (a ++ b) = withoutCommas a ++ withoutCommas b.
Proof. apply filter_app. Qed.

Lemma withoutCommas_comma (s : jsstring) :
  withoutCommas (44%N :: s) = withoutCommas s.
Proof. reflexivity. Qed.

Lemma withoutCommas_join (groups : list jsstring) :
  Forall DigitGroup groups ->
  withoutCommas (join (js ",") groups) = concat groups.
Proof.
  induction 1 as [|group groups [_ Hg] Hrest IH]; [reflexivity|].
  destruct groups as [|next groups].
  - simpl. rewrite app_nil_r. now apply withoutCommas_digits.
  - change (join (js ",") (group :: next :: groups))
      with (group ++ 44%N :: join (js ",") (next :: groups)).
    rewrite withoutCommas_app, withoutCommas_comma, IH.
    now rewrite (withoutCommas_digits _ Hg).
Qed.

Lemma trimStart_digits (digits : jsstring) :
  Forall (fun c => isDigit c = true) digits -> trimStart digits = digits.
Proof.
  intros H. destruct H as [|c digits Hc _]; [reflexivity|].
  simpl. now rewrite (digit_not_white c Hc).
Qed.

Lemma trim_digits (digits : jsstring) :
  Forall (fun c => isDigit c = true) digits -> trim digits = digits.
Proof.
  intros H. unfold trim. rewrite (trimStart_digits _ H).
  rewrite trimStart_digits by now apply Forall_rev.
  apply rev_involutive.
Qed.

Lemma span_digits_comma (digits tail : jsstring) :
  Forall (fun c => isDigit c = true) digits ->
  span (fun c => negb (c =? 44)%N) (digits ++ 44%N :: tail)
  = (digits, 44%N :: tail).
Proof.
  induction 1 as [|c digits Hc _ IH]; [reflexivity|].
  cbn [app span]. now rewrite (digit_not_comma c Hc), IH.
Qed.

(** X17. A follower count that stands at the head of the Instagram
    description, written in groups of digits with commas between them and
    followed by [ Followers], is read as the number whose digits are those
    of the groups.  When there is more than one group, the text before the
    first comma is the first group, and that becomes the profile's
    [name].  (The number is below 2^53, so that [parseInt] is exact.) *)
Theorem instagram_reads_grouped_counts (page : InstagramPage)
    (group : jsstring) (groups : list jsstring) (rest username : jsstring)
    (r : Rng) :
  Forall DigitGroup (group :: groups) ->
  (parseDigits (concat (group :: groups)) < 2 ^ 53)%Z ->
  descriptionContent page
  = Some (join (js ",") (group :: groups) ++ js " Followers" ++ rest) ->
  exists resp,
    instagramHandler (Resolved (Some page)) username r = (Normal resp, r)
    /\ member (body resp) "exists" = VBool true
    /\ member (member (body resp) "profile") "followers"
       = VNum (parseDigits (concat (group :: groups)))
    /\ (groups <> [] ->
        member (member (body resp) "profile") "name" = VStr group).
Proof.
  intros Hall _ Hd. eexists. split; [reflexivity|].
  split; [reflexivity|].
  cbn [body]. rewrite member_profile. cbn [member lookup String.eqb
    Ascii.eqb Bool.eqb]. rewrite Hd. cbn [orEmpty].
  split.
  - erewrite search_head.
    + now rewrite (withoutCommas_join _ Hall).
    + unfold countAt.
      destruct (join_head_digit group groups
                  ltac:(now inversion Hall)) as (d & tl & Ej & Hdig).
      change (js " Followers" ++ rest) with (32%N :: js "Followers" ++ rest).
      rewrite (digitGroups_join group groups _ Hall).
      rewrite Ej. cbn [app]. rewrite Hdig. reflexivity.
  - intros Hne. destruct groups as [|next groups]; [contradiction|].
    inversion Hall as [|? ? [_ Hg] _]; subst.
    change (join (js ",") (group :: next :: groups))
      with (group ++ 44%N :: join (js ",") (next :: groups)).
    unfold beforeFirstComma. rewrite <- app_assoc. cbn [app].
    rewrite (span_digits_comma _ _ Hg).
    destruct group as [|c group];
      [inversion Hall as [|? ? [Hn _] _]; contradiction|].
    now rewrite (trim_digits _ Hg).
Qed.

(** *** Reddit *)

Lemma redditGuess_not_real (now : Z) (username : jsstring) (r r' : Rng)
    (resp : Response) :
  redditGuess now username r = (Normal resp, r') ->
  member (member (body resp) "profile") "real_api" = VUndefined.
Proof.
  unfold redditGuess. cbv zeta.
  match goal with |- context [if ?c then _ else _] => destruct c end;
    repeat draw_step; intros H; inversion H; subst resp; reflexivity.
Qed.

Lemma redditAbout_cases (data : Value) (username : jsstring) (r : Rng) :
  redditAbout (Resolved data) username r
  = if truthy data && truthy (member data "data") then
      match secondsToISOString (member (member data "data") "created_utc")
      with
      | Some iso => (Normal (redditAnswer data iso), r)
      | None => (Throw RangeError, r)
      end
    else (Normal notFoundResponse, r).
Proof.
  unfold redditAbout, await. rewrite bind_ret.
  destruct (truthy data && truthy (member data "data")); [|reflexivity].
  cbv zeta.
  destruct (secondsToISOString (member (member data "data") "created_utc"));
    reflexivity.
Qed.

(** X18. What the Reddit endpoint makes of a payload.  A payload without
    [data] is answered [{ exists: false }] and nothing is drawn.  A payload
    whose [created_utc] gives no valid date makes [toISOString] throw: the
    payload is dropped and the answer is the fallback guess, with nothing
    in it that Reddit sent.  Any other payload is answered from its
    [data], tagged [real_api: true], whatever the user name in it. *)
Theorem reddit_payload_decides (data : Value) (now : Z)
    (username : jsstring) (r : Rng) :
  (truthy data && truthy (member data "data") = false ->
   redditHandler (Resolved data) now username r
   = (Normal notFoundResponse, r))
  /\ (truthy data && truthy (member data "data") = true ->
      secondsToISOString (member (member data "data") "created_utc") = None ->
      redditHandler (Resolved data) now username r
      = redditGuess now username r
      /\ forall resp r',
           redditHandler (Resolved data) now username r = (Normal resp, r') ->
           member (member (body resp) "profile") "real_api" = VUndefined)
  /\ (truthy data && truthy (member data "data") = true ->
      forall iso,
        secondsToISOString (member (member data "data") "created_utc")
        = Some iso ->
        redditHandler (Resolved data) now username r
        = (Normal (redditAnswer data iso), r)
        /\ member (member (body (redditAnswer data iso)) "profile") "real_api"
           = VBool true
        /\ member (member (body (redditAnswer data iso)) "profile") "username"
           = member (member data "data") "name"
        /\ member (member (body (redditAnswer data iso)) "profile")
             "created_at" = VStr iso).
Proof.
  pose proof (redditAbout_cases data username r) as Ea.
  unfold redditHandler.
  split; [|split].
  - intros Et. rewrite Et in Ea.
    apply tryCatch_normal. now apply tryCatch_normal.
  - intros Et Hnone. rewrite Et, Hnone in Ea.
    assert (E : redditHandler (Resolved data) now username r
                = redditGuess now username r).
    { unfold redditHandler.
      destruct (redditGuess_spec now username r) as (resp0 & r0 & E0 & _).
      rewrite E0. apply tryCatch_normal.
      rewrite (tryCatch_thrown _ _ _ _ _ Ea). exact E0. }
    split; [exact E|].
    intros resp r' H. unfold redditHandler in E. rewrite E in H.
    exact (redditGuess_not_real now username r r' resp H).
  - intros Et iso Hsome. rewrite Et, Hsome in Ea.
    split; [|repeat split].
    apply tryCatch_normal. now apply tryCatch_normal.
Qed.

(** *** GitHub *)

Lemma githubRepo_cases (repo : Value) (r : Rng) :
  githubRepo repo r
  = if isNullish repo then (Throw TypeError, r)
    else (Normal (repoSummary repo), r).
Proof. destruct repo; reflexivity. Qed.

Lemma mapM_githubRepo (repos : list Value) (r : Rng) :
  mapM githubRepo repos r
  = if existsb isNullish repos then (Throw TypeError, r)
    else (Normal (map repoSummary repos), r).
Proof.
  induction repos as [|repo repos IH]; [reflexivity|].
  cbn [mapM existsb map]. unfold bind at 1. rewrite githubRepo_cases.
  destruct (isNullish repo); [reflexivity|].
  unfold bind. rewrite IH. cbn [orb].
  now destruct (existsb isNullish repos).
Qed.

(** X19. The GitHub endpoint answers from the two payloads when it can
    read them: the user payload is neither [null] nor [undefined], and the
    repository payload is an array with no such entry.  The answer then
    lists one summary for each repository, in the order of the payload,
    and its [username] is the payload's [login], not the name asked for.
    In every other case of a resolved pair of calls it answers HTTP 500. *)
Theorem github_answers_from_both_payloads (data reposData : Value)
    (username : jsstring) (r : Rng) :
  (forall repos,
     reposData = VArr repos ->
     isNullish data = false ->
     existsb isNullish repos = false ->
     githubHandler (Resolved data) (Resolved reposData) username r
     = (Normal (githubAnswer data repos), r)
     /\ exists summaries,
          member (member (body (githubAnswer data repos)) "profile")
            "recent_repos" = VArr summaries
          /\ length summaries = length repos)
  /\ ((forall repos, reposData = VArr repos ->
         isNullish data = true \/ existsb isNullish repos = true) ->
      githubHandler (Resolved data) (Resolved reposData) username r
      = (Normal githubFailure, r)).
Proof.
  unfold githubHandler, tryCatch, await. rewrite !bind_ret. split.
  - intros repos -> Hdata Hrepos. split.
    + unfold arrayMap, bind at 1 2. rewrite mapM_githubRepo, Hrepos.
      cbv beta iota. unfold ret at 1. cbv beta iota.
      destruct data; try discriminate; reflexivity.
    + eexists. split; [reflexivity|]. apply length_map.
  - intros H. destruct reposData as [| | | | |repos|];
      try reflexivity.
    unfold arrayMap, bind at 1 2. rewrite mapM_githubRepo.
    destruct (existsb isNullish repos) eqn:Hrepos; [reflexivity|].
    destruct (H repos eq_refl) as [Hdata|Hr]; [|congruence].
    cbv beta iota. unfold ret at 1. cbv beta iota.
    destruct data; try discriminate; reflexivity.
Qed.

(** *** The tweets of a Nitter page *)

Lemma recentTweet_keeps (recentTweets : list Value) (i : nat)
    (item : jsstring * jsstring) :
  Forall IsTweet recentTweets ->
  Forall IsTweet (recentTweet recentTweets i item)
  /\ length recentTweets <= length (recentTweet recentTweets i item)
  /\ length (recentTweet recentTweets i item)
     <= length recentTweets + (if i <? 5 then 1 else 0).
Proof.
  intros Hall. unfold recentTweet.
  destruct (i <? 5); [|repeat split; auto; lia]. cbv zeta.
  destruct (trim (fst item)) as [|c text] eqn:Et;
    [repeat split; auto; lia|].
  split; [|rewrite length_app; simpl; lia].
  apply Forall_app. split; [exact Hall|]. repeat constructor.
  do 2 eexists. split; [reflexivity|].
  destruct (100 <? length (c :: text)) eqn:El.
  - rewrite length_app, length_firstn. apply Nat.ltb_lt in El.
    change (length (js "...")) with 3. lia.
  - apply Nat.ltb_ge in El. simpl in *. lia.
Qed.

Lemma eachTweet_keeps (items : list (jsstring * jsstring)) (i : nat)
    (recentTweets : list Value) :
  Forall IsTweet recentTweets ->
  Forall IsTweet (eachTweet items i recentTweets)
  /\ length (eachTweet items i recentTweets)
     <= length recentTweets + Nat.min (5 - i) (length items).
Proof.
  revert i recentTweets.
  induction items as [|item items IH]; intros i acc Hall;
    cbn [eachTweet length].
  - split; [exact Hall | lia].
  - destruct (recentTweet_keeps acc i item Hall) as (Hall' & _ & Hlen).
    destruct (IH (i + 1) _ Hall') as (Hall'' & Hlen'').
    split; [exact Hall''|].
    destruct (i <? 5) eqn:Ei;
      [apply Nat.ltb_lt in Ei | apply Nat.ltb_ge in Ei]; lia.
Qed.

(** X20. The list of recent tweets the Twitter handler builds from a
    Nitter page holds at most 5 tweets and at most one for each item of
    the timeline; every tweet in it has a text that is not empty and no
    longer than 103 code units (100 and the three dots). *)
Theorem recent_tweets_are_bounded (items : list (jsstring * jsstring)) :
  length (eachTweet items 0 []) <= Nat.min 5 (length items)
  /\ Forall IsTweet (eachTweet items 0 []).
Proof.
  destruct (eachTweet_keeps items 0 [] (Forall_nil _)) as [Hall Hlen].
  split; [exact Hlen | exact Hall].
Qed.

(* ================================================================== *)
(** ** Typing errors and white space in a Spotify query *)
(* ================================================================== *)

Lemma substitution_not_simulated (username closest : jsstring)
    (record : Value) (name : jsstring) :
  ownProfile knownProfiles closest = Some record ->
  member (member (body (substitution username closest record name))
            "profile") "simulated" = VUndefined.
Proof.
  intros Eown. cbn [body substitution]. rewrite member_profile.
  apply objectLiteral_lacks. cbn [app].
  rewrite lacks_cons, lacks_app.
  pose proof (knownProfile_not_simulated closest) as Hk.
  rewrite (knownProfile_own _ _ Eown) in Hk. rewrite Hk. reflexivity.
Qed.

(** X21. A query that at most two single-character edits (insertions,
    deletions, substitutions) turn into a key of the dataset, once it is
    normalized, is answered from the dataset: with [exists: true] and a
    record of the dataset, which is that of a key at distance 2 or less
    but need not be the key meant; the answer is not tagged [simulated]
    and no random number is drawn. *)
Theorem two_typos_find_a_known_profile (username key : jsstring) (k : nat)
    (r : Rng) :
  In key knownKeys ->
  edits k (normalize username) key -> k <= 2 ->
  exists resp,
    spotifyHandler username r = (Normal resp, r)
    /\ status resp = 200
    /\ member (body resp) "exists" = VBool true
    /\ member (member (body resp) "profile") "simulated" = VUndefined
    /\ ((resp = exactAnswer (normalize username)
                  (knownProfile (normalize username))
         /\ truthy (knownProfile (normalize username)) = true)
        \/ exists closest record name,
             In closest knownKeys
             /\ compareDistance (normalize username) closest <= 2
             /\ ownProfile knownProfiles closest = Some record
             /\ resp = substitution username closest record name).
Proof.
  intros Hkey Hedits Hk.
  assert (Hclose : In key (closeMatches (normalize username))).
  { unfold closeMatches. apply filter_In. split; [exact Hkey|].
    apply Nat.leb_le. rewrite compareDistance_levenshtein.
    apply levenshtein_lower in Hedits. lia. }
  destruct (spotifyHandler_path username r)
    as [record Et Erec E | closest rest record name Et Ec Eown Ename E
        | _ Ec _].
  - subst record. eexists. split; [exact E|].
    split; [reflexivity|]. split; [reflexivity|].
    split; [|left; now split].
    cbn [body exactAnswer]. rewrite member_profile.
    apply objectLiteral_lacks. cbn [app].
    rewrite lacks_cons, lacks_app, knownProfile_not_simulated. reflexivity.
  - eexists. split; [exact E|].
    split; [reflexivity|]. split; [reflexivity|].
    split; [now apply substitution_not_simulated|].
    right. exists closest, record, name.
    destruct (closeMatches_in (normalize username) closest) as [Hin Hd].
    { rewrite Ec. now left. }
    repeat split; assumption.
  - rewrite Ec in Hclose. contradiction.
Qed.

(** *** No white space in the user name of an answer *)

Lemma objectLiteral_first (k : string) (v : Value)
    (entries : list (string * Value)) :
  lacks k entries = true ->
  member (objectLiteral ((k, v) :: entries)) k = v.
Proof.
  unfold objectLiteral, member. cbn [fold_left fst snd define].
  assert (H : forall acc, lookup k acc = Some v ->
            lacks k entries = true ->
            lookup k (fold_left (fun props kv => define props (fst kv) (snd kv))
                        entries acc) = Some v).
  { induction entries as [|[k0 v0] entries IH]; intros acc Hacc Hl;
      cbn [fold_left]; [exact Hacc|].
    rewrite lacks_cons in Hl. apply andb_true_iff in Hl as [Hk Hl].
    apply negb_true_iff in Hk. cbn [fst] in Hk.
    apply IH; [|exact Hl]. cbn [fst snd].
    now rewrite define_lookup_other. }
  intros Hl. rewrite (H [(k, v)]); [reflexivity | | exact Hl].
  simpl. now rewrite String.eqb_refl.
Qed.

Lemma knownProfile_lacks_username (n : jsstring) :
  lacks "username" (spread (knownProfile n)) = true.
Proof.
  unfold knownProfile.
  destruct (ownProfile knownProfiles n) as [profile|] eqn:E.
  - apply ownProfile_in in E.
    assert (H : forallb (fun p => lacks "username" (spread p))
                  (map snd knownProfiles) = true)
      by (vm_compute; reflexivity).
    exact (proj1 (forallb_forall _ _) H profile E).
  - destruct (_ || _); reflexivity.
Qed.

Lemma normalize_no_white_space (username : jsstring) :
  Forall (fun c => isWhiteSpace c = false) (normalize username).
Proof.
  unfold normalize.
  match goal with |- context [if ?c then _ else _] => destruct c end.
  - repeat constructor.
  - unfold removeWhiteSpace. apply Forall_forall. intros c Hc.
    apply filter_In in Hc as [_ Hc]. now apply negb_true_iff in Hc.
Qed.

Lemma knownKeys_no_white_space (key : jsstring) :
  In key knownKeys -> Forall (fun c => isWhiteSpace c = false) key.
Proof.
  intros Hin.
  assert (H : forallb (forallb (fun c => negb (isWhiteSpace c))) knownKeys
              = true) by (vm_compute; reflexivity).
  rewrite forallb_forall in H. specialize (H key Hin).
  rewrite forallb_forall in H. apply Forall_forall. intros c Hc.
  apply negb_true_iff. now apply H.
Qed.

(** X22. Whenever the Spotify endpoint answers [exists: true], the
    [username] of the profile is a string without white space: the
    normalized query, or the key of the dataset that was substituted for
    it. *)
Theorem spotify_usernames_hold_no_white_space (username : jsstring)
    (r r' : Rng) (resp : Response) :
  spotifyHandler username r = (Normal resp, r') ->
  member (body resp) "exists" = VBool true ->
  exists name,
    member (member (body resp) "profile") "username" = VStr name
    /\ Forall (fun c => isWhiteSpace c = false) name
    /\ (name = normalize username \/ In name knownKeys).
Proof.
  intros E Hex.
  destruct (spotifyHandler_path username r)
    as [record Et Erec Ep | closest rest record name Et Ec Eown Ename Ep
        | Et Ec Ep]; rewrite Ep in E.
  - inversion E; subst resp r'; clear E. subst record.
    exists (normalize username).
    split; [|split; [apply normalize_no_white_space | now left]].
    cbn [body exactAnswer]. rewrite member_profile. cbn [app].
    apply objectLiteral_first.
    rewrite lacks_app, knownProfile_lacks_username. reflexivity.
  - inversion E; subst resp r'; clear E.
    assert (Hin : In closest knownKeys).
    { apply (closeMatches_in (normalize username)). rewrite Ec. now left. }
    exists closest.
    split; [|split; [now apply knownKeys_no_white_space | now right]].
    cbn [body substitution]. rewrite member_profile. cbn [app].
    apply objectLiteral_first. rewrite lacks_app.
    pose proof (knownProfile_lacks_username closest) as Hk.
    rewrite (knownProfile_own _ _ Eown) in Hk. rewrite Hk. reflexivity.
  - exists (normalize username).
    split; [|split; [apply normalize_no_white_space | now left]].
    revert E. unfold spotifyGuess. destruct (likely_artist username).
    + destruct (generateArtist_detail username (normalize username) r)
        as (resp0 & r0 & E0 & (f & p & l & i & Hu & _) & _).
      rewrite E0. intros H. inversion H; subst. exact Hu.
    + destruct (isLikelyUser username).
      * destruct (generateUser_detail username (normalize username) r)
          as (resp0 & r0 & E0 & (f & p & Hu & _)).
        rewrite E0. intros H. inversion H; subst. exact Hu.
      * intros H. inversion H; subst resp. discriminate.
Qed.

(* ================================================================== *)
(** ** The tracks of a synthetic artist *)
(* ================================================================== *)

Lemma trackFrom_names_album (albums : list Value) (track : Value) :
  (forall i, i < length albums -> DatedAlbum i (nth i albums VUndefined)) ->
  TrackFrom albums track ->
  exists album name,
    In album albums
    /\ member album "name" = VStr name
    /\ member track "album" = VStr name.
Proof.
  intros Hall (title & popularity & album & duration & Et & Hin & _).
  destruct (In_nth _ _ VUndefined Hin) as (i & Hi & Ei).
  destruct (Hall i Hi) as (name & month & day & tracks & image & Ea & _).
  rewrite Ei in Ea.
  exists album, name. split; [exact Hin|].
  split; [rewrite Ea; reflexivity|].
  rewrite Et, Ea. reflexivity.
Qed.

(** C4. Every synthetic artist profile of the Spotify fallback, which is
    tagged [simulated: true] and [type: 'artist'], has exactly 5 entries in
    [top_tracks]; its [albums] list holds 2 or 3 generated albums, each an
    object with a string for a [name], a date, a track count and an image;
    every track is an object with a title, a popularity, an [album], a
    release date and a duration, and its [album] is a string that is the
    [name] of one of these albums.  This holds of every answer of the
    artist generator, and so of every answer of the endpoint that carries
    the two tags. *)
Theorem synthetic_artist_tracks_name_its_albums
    (username normalizedUsername : jsstring) (r : Rng) :
  (exists resp r',
     generateArtist username normalizedUsername r = (Normal resp, r')
     /\ status resp = 200
     /\ member (body resp) "exists" = VBool true
     /\ member (member (body resp) "profile") "simulated" = VBool true
     /\ member (member (body resp) "profile") "type" = str "artist"
     /\ FiveTracksOnItsAlbums (member (body resp) "profile"))
  /\ (forall resp r',
        spotifyHandler username r = (Normal resp, r') ->
        member (member (body resp) "profile") "simulated" = VBool true ->
        member (member (body resp) "profile") "type" = str "artist" ->
        FiveTracksOnItsAlbums (member (body resp) "profile")).
Proof.
  assert (H : forall n,
            exists resp r',
              generateArtist username n r = (Normal resp, r')
              /\ status resp = 200
              /\ member (body resp) "exists" = VBool true
              /\ member (member (body resp) "profile") "simulated"
                 = VBool true
              /\ member (member (body resp) "profile") "type" = str "artist"
              /\ FiveTracksOnItsAlbums (member (body resp) "profile")).
  { intros n.
    destruct (generateArtist_spec username n r)
      as (pool & selected & albums0 & tracks0 & profile & r' & E & Hty & Hsim
          & _).
    destruct (generateArtist_detail username n r)
      as (resp & r1 & E1 & _ & (albums & Ha & Hlen & Hdated)
          & (tracks & albums' & Ht & Ha' & H5 & Htr)).
    rewrite E in E1. inversion E1; subst resp r1; clear E1.
    rewrite Ha in Ha'. inversion Ha'; subst albums'; clear Ha'.
    eexists; eexists. split; [exact E|].
    cbn [status body] in *. rewrite member_profile in *.
    split; [reflexivity|]. split; [reflexivity|].
    split; [now apply member_of_lookup|].
    split; [now apply member_of_lookup|].
    exists tracks, albums.
    split; [exact Ht|]. split; [exact Ha|].
    split; [exact H5|]. split; [exact Hlen|].
    split; [exact Hdated|]. split; [exact Htr|].
    eapply Forall_impl; [|exact Htr].
    intros t. now apply trackFrom_names_album. }
  split; [apply H|].
  intros resp r' E Hsim Hart.
  pose proof (simulated_artist_is_generated username r r' resp E Hsim Hart)
    as Eg.
  destruct (H (normalize username)) as (resp0 & r0 & E0 & _ & _ & _ & _ & Hs).
  rewrite Eg in E0. inversion E0; subst. exact Hs.
Qed.

(* ================================================================== *)
(** ** The answer to a close match *)
(* ================================================================== *)

Lemma lookup_in (key : string) (props : list (string * Value)) (v : Value) :
  lookup key props = Some v -> In (key, v) props.
Proof.
  induction props as [|[k0 v0] props IH]; simpl; [discriminate|].
  destruct (String.eqb k0 key) eqn:E.
  - apply String.eqb_eq in E. subst k0. intros H. left. congruence.
  - intros H. right. now apply IH.
Qed.

(** The property set last in an object literal has the value given there. *)
Lemma objectLiteral_last (k : string) (v : Value)
    (entries : list (string * Value)) :
  member (objectLiteral (entries ++ [(k, v)])) k = v.
Proof.
  unfold objectLiteral, member. rewrite fold_left_app. cbn [fold_left fst snd].
  generalize (fold_left (fun props kv => define props (fst kv) (snd kv))
                entries []).
  intros props. induction props as [|[k0 v0] props IH]; simpl.
  - now rewrite String.eqb_refl.
  - destruct (String.eqb k0 k) eqn:E; simpl; rewrite E; [reflexivity|].
    exact IH.
Qed.

Lemma objectLiteral_last_of (first middle : list (string * Value))
    (k1 k : string) (v1 v : Value) :
  member (objectLiteral (first ++ middle ++ [(k1, v1); (k, v)])) k = v.
Proof.
  replace (first ++ middle ++ [(k1, v1); (k, v)])
    with ((first ++ middle ++ [(k1, v1)]) ++ [(k, v)])
    by (rewrite <- !app_assoc; reflexivity).
  apply objectLiteral_last.
Qed.

(** Every property of a record of the dataset is in the answer that
    substitutes the record, with the record's value; the answer's
    [username] and link are its own. *)
Lemma substitution_carries_record (username closest : jsstring) :
  In closest knownKeys ->
  exists props name,
    ownProfile knownProfiles closest = Some (VObj props)
    /\ lookup "name" props = Some (VStr name)
    /\ member (member (body (substitution username closest (VObj props)
                               name)) "profile") "username" = VStr closest
    /\ member (member (body (substitution username closest (VObj props)
                               name)) "profile") "external_url"
       = VStr (js "https://open.spotify.com/"
               ++ (if isString (member (VObj props) "type") (js "account")
                   then js "user" else js "artist")
               ++ js "/" ++ closest)
    /\ Forall (fun kv =>
                 member (member (body (substitution username closest
                                         (VObj props) name)) "profile")
                   (fst kv) = snd kv) props.
Proof.
  unfold knownKeys, knownProfiles. cbn [map fst].
  intros H.
  repeat (destruct H as [<-|H];
          [eexists; eexists; split; [reflexivity|];
           split; [reflexivity|];
           split; [vm_compute; reflexivity|];
           split; [vm_compute; reflexivity|];
           repeat (apply Forall_cons; [vm_compute; reflexivity|]);
           apply Forall_nil|]).
  contradiction.
Qed.

(** C5. On the Spotify endpoint, when the normalized query is no key of the
    dataset but some key is within edit distance 2 of it, the first such
    key in the order of the dataset is substituted: the answer is HTTP 200
    with [exists: true]; its profile has the substituted key for a
    [username], every property of that key's record with the record's
    value, its [name] among them, and a [note] that quotes the query as it
    was sent and the [name] of the substituted record; the random source
    is not touched. *)
Theorem close_match_substitutes_first_key (username closest : jsstring)
    (earlier later : list jsstring) (r : Rng) :
  ~ In (normalize username) knownKeys ->
  knownKeys = earlier ++ closest :: later ->
  compareDistance (normalize username) closest <= 2 ->
  Forall (fun key => 2 < compareDistance (normalize username) key) earlier ->
  exists record name resp,
    ownProfile knownProfiles closest = Some record
    /\ member record "name" = VStr name
    /\ spotifyHandler username r = (Normal resp, r)
    /\ resp = substitution username closest record name
    /\ SubstitutedAnswer username closest record name resp.
Proof.
  intros Hkey Hkeys Hclose Hearlier.
  destruct (closeMatches_first _ _ _ _ Hkeys Hclose Hearlier) as (rest & Ec).
  assert (Hin : In closest knownKeys).
  { rewrite Hkeys. apply in_elt. }
  destruct (substitution_carries_record username closest Hin)
    as (props & name & Eown & Ename & Huser & Hurl & Hall).
  assert (Hname : member (VObj props) "name" = VStr name).
  { simpl. now rewrite Ename. }
  exists (VObj props), name. eexists.
  split; [exact Eown|]. split; [exact Hname|].
  split; [|split; [reflexivity|]].
  - unfold spotifyHandler. apply tryCatch_normal.
    unfold spotifyResolve. cbv zeta.
    rewrite (no_exact_match _ Hkey) by (rewrite Ec; discriminate).
    rewrite Ec. unfold closeMatch, knownProfile. rewrite Eown. cbv zeta.
    unfold get. rewrite !bind_ret.
    unfold resJson, ret, substitution, matchNote.
    simpl member. rewrite Ename. reflexivity.
  - assert (Hcarried : forall key,
              member (VObj props) key <> VUndefined ->
              member (member (body (substitution username closest
                                      (VObj props) name)) "profile") key
              = member (VObj props) key).
    { intros key Hk. cbn [member] in Hk |- *.
      destruct (lookup key props) as [v|] eqn:El; [|contradiction].
      apply lookup_in in El.
      exact (proj1 (Forall_forall _ _) Hall (key, v) El). }
    split; [reflexivity|]. split; [reflexivity|].
    split; [exact Huser|].
    split; [rewrite Hcarried; [exact Hname | rewrite Hname; discriminate]|].
    split.
    { cbn [body substitution]. rewrite member_profile.
      apply objectLiteral_last_of. }
    split; [exact Hurl|].
    split; [now apply substitution_not_simulated | exact Hcarried].
Qed.

End Server.

(* ================================================================== *)
(** ** The handlers on concrete requests *)
(* ================================================================== *)



(** C2, against the claim. An HTTP 404 from Nitter for [elonmusk] is
    answered by the Twitter fallback, with [exists: true] and a simulated
    profile; and the not-found answer of Instagram has no [profile]
    property, where the claim has [profile: null]. *)
Lemma twitter_not_found_falls_through :
  twitterHandler toLowerCaseLatin1 (Rejected (Some 404)) (js "elonmusk")
    zeroDraws
  = (Normal {| status := 200;
               body := VObj ["exists" =: VBool true;
                             "profile" =: VObj ["username" =: str "elonmusk";
                                                "followers" =: VNum 0;
                                                "simulated" =: VBool true]] |},
     advance zeroDraws)
  /\ instagramHandler toLowerCaseLatin1 (Rejected (Some 404)) (js "nike")
       zeroDraws
     = (Normal {| status := 200; body := VObj ["exists" =: VBool false] |},
        zeroDraws)
  /\ lookup "profile" ["exists" =: VBool false] = None.
Proof. repeat split. Qed.

(** An HTTP 404 on Instagram. *)
Lemma remote_not_found_short_circuits_on_instagram :
  Instagram <> Twitter /\ Instagram <> Spotify
  /\ handle toLowerCaseLatin1 toUpperCaseLatin1 unreachedPlus
       unreachedSeconds unreachedDate
       (rejectedRequest Instagram (Some 404) 0 (js "nike")) zeroDraws
     = (Normal notFoundResponse, zeroDraws).
Proof.
  assert (H1 : Instagram <> Twitter) by discriminate.
  assert (H2 : Instagram <> Spotify) by discriminate.
  split; [exact H1|]. split; [exact H2|].
  exact (proj1 (remote_not_found_short_circuits
                  toLowerCaseLatin1 toUpperCaseLatin1 unreachedPlus
                  unreachedSeconds unreachedDate
                  Instagram 0%Z (js "nike") zeroDraws H1 H2)).
Defined.

(** C3, against the claim. The Spotify answer for ["12"] and the GitHub
    answer to an HTTP 404 have [exists: false] and no [profile] property
    at all. *)
Lemma not_found_answers_omit_profile :
  spotifyHandler toLowerCaseLatin1 toUpperCaseLatin1 (js "12") zeroDraws
  = (Normal {| status := 200; body := VObj ["exists" =: VBool false] |},
     zeroDraws)
  /\ githubHandler (Rejected (Some 404)) (Rejected (Some 404)) (js "ghost")
       zeroDraws
     = (Normal {| status := 200; body := VObj ["exists" =: VBool false] |},
        zeroDraws)
  /\ lookup "exists" ["exists" =: VBool false] = Some (VBool false)
  /\ lookup "profile" ["exists" =: VBool false] = None.
Proof. repeat split. Qed.

(** The query [adel]: [drake], the one key before [adele], is at distance 4
    and [adele] at distance 1, so the record of Adele is sent, with the
    note. *)
Lemma adel_is_answered_with_adele :
  ~ In (normalize toLowerCaseLatin1 (js "adel")) knownKeys
  /\ knownKeys = [js "drake"] ++ js "adele" :: skipn 2 knownKeys
  /\ compareDistance (normalize toLowerCaseLatin1 (js "adel")) (js "adele")
     <= 2
  /\ Forall (fun key =>
               2 < compareDistance (normalize toLowerCaseLatin1 (js "adel"))
                     key) [js "drake"]
  /\ exists record name resp,
       ownProfile knownProfiles (js "adele") = Some record
       /\ member record "name" = VStr name
       /\ spotifyHandler toLowerCaseLatin1 toUpperCaseLatin1 (js "adel")
            zeroDraws = (Normal resp, zeroDraws)
       /\ resp = substitution (js "adel") (js "adele") record name
       /\ SubstitutedAnswer (js "adel") (js "adele") record name resp.
Proof.
  assert (H1 : ~ In (normalize toLowerCaseLatin1 (js "adel")) knownKeys).
  { apply absent_key. vm_compute. reflexivity. }
  assert (H2 : knownKeys = [js "drake"] ++ js "adele" :: skipn 2 knownKeys).
  { reflexivity. }
  assert (H3 : compareDistance (normalize toLowerCaseLatin1 (js "adel"))
                 (js "adele") <= 2).
  { apply Nat.leb_le. vm_compute. reflexivity. }
  assert (H4 : Forall (fun key =>
                 2 < compareDistance (normalize toLowerCaseLatin1 (js "adel"))
                       key) [js "drake"]).
  { constructor; [|constructor]. apply Nat.ltb_lt. vm_compute. reflexivity. }
  split; [exact H1|]. split; [exact H2|]. split; [exact H3|].
  split; [exact H4|].
  exact (close_match_substitutes_first_key
           toLowerCaseLatin1 toUpperCaseLatin1 (js "adel") (js "adele")
           [js "drake"] (skipn 2 knownKeys) zeroDraws H1 H2 H3 H4).
Defined.

(** The answer to [adel], written out: the [name] is Adele's and the note
    quotes the query. *)
Lemma adel_note :
  exists record,
    ownProfile knownProfiles (js "adele") = Some record
    /\ member record "name" = str "Adele"
    /\ spotifyHandler toLowerCaseLatin1 toUpperCaseLatin1 (js "adel")
         zeroDraws
       = (Normal (substitution (js "adel") (js "adele") record (js "Adele")),
          zeroDraws)
    /\ member (member (body (substitution (js "adel") (js "adele") record
                               (js "Adele"))) "profile") "note"
       = str "Exact match 'adel' not found, showing results for 'Adele' instead.".
Proof.
  eexists. split; [reflexivity|]. repeat split; vm_compute; reflexivity.
Qed.

(** C8, against the claim. The query of [a], a tab and [b] holds white
    space inside, and is answered with a listener-shape profile: the test
    of the code is for the space character alone. *)
Lemma tab_is_not_a_space :
  existsb isWhiteSpace [97; 9; 98]%N = true
  /\ isLikelyUser [97; 9; 98]%N = true
  /\ exists profile r',
       spotifyHandler toLowerCaseLatin1 toUpperCaseLatin1 [97; 9; 98]%N
         zeroDraws
       = (Normal {| status := 200;
                    body := VObj ["exists" =: VBool true;
                                  "profile" =: VObj profile] |}, r')
       /\ lookup "type" profile = Some (str "user")
       /\ lookup "simulated" profile = Some (VBool true).
Proof.
  split; [reflexivity|]. split; [reflexivity|].
  eexists; eexists. split; [vm_compute; reflexivity|].
  split; reflexivity.
Qed.

(** The guess policy under the Latin-1 case mapping. *)
Lemma spotify_guess_policy_latin1 :
  toLowerCaseLatin1 (js "12") = js "12"
  /\ spotifyHandler toLowerCaseLatin1 toUpperCaseLatin1 (js "12") zeroDraws
     = (Normal notFoundResponse, zeroDraws).
Proof.
  split; [reflexivity|].
  exact (proj2 (proj2 (proj2 (proj2
           (spotify_guess_policy toLowerCaseLatin1 toUpperCaseLatin1
              eq_refl)))) zeroDraws).
Defined.

(** C9, against the claim. When the genre loop draws the same tag on both
    of its passes, the profile has one genre. *)
Lemma one_genre_only :
  exists resp r',
    spotifyHandler toLowerCaseLatin1 toUpperCaseLatin1 (js "nightowls")
      zeroDraws = (Normal resp, r')
    /\ member (member (body resp) "profile") "simulated" = VBool true
    /\ member (member (body resp) "profile") "type" = str "artist"
    /\ member (member (body resp) "profile") "genres" = VArr [str "indie"].
Proof.
  eexists; eexists. split; [vm_compute; reflexivity|].
  repeat split; reflexivity.
Qed.

(** C7. The TikTok page counts "1.2M Followers": the pattern captures
    ["1.2M"], the call of [parseTikTokNumber] throws, and the handler sends
    the fallback's profile, whose [followers] is a random draw (here 1000),
    where the claim has 1200000.  The Twitter handler fares the same with
    [parseTwitterNumbers].  The Instagram handler parses "12,345 Followers"
    to 12345, and finds no count in "1.2M Followers". *)
Theorem magnitudes_are_never_expanded :
  search (magnitudeAt (js "Followers")) (orEmpty (ogDescription tiktokSample))
  = Some (js "1.2M")
  /\ tiktokScrape (Resolved (Some tiktokSample)) (js "zachking") zeroDraws
     = (Throw (ReferenceError "parseTikTokNumber"), zeroDraws)
  /\ tiktokHandler toLowerCaseLatin1 (Resolved (Some tiktokSample))
       (js "zachking") zeroDraws
     = (Normal {| status := 200;
                  body := VObj ["exists" =: VBool true;
                                "profile" =: VObj ["username" =: str "zachking";
                                                   "followers" =: VNum 1000;
                                                   "likes" =: VNum 10000;
                                                   "simulated" =: VBool true]] |},
        advance (advance zeroDraws))
  /\ twitterScrape (Resolved (Some nitterSample)) (js "jack") zeroDraws
     = (Throw (ReferenceError "parseTwitterNumbers"), zeroDraws)
  /\ (exists resp r',
        instagramHandler toLowerCaseLatin1 (Resolved (Some instagramSample))
          (js "nike") zeroDraws = (Normal resp, r')
        /\ member (member (body resp) "profile") "followers" = VNum 12345)
  /\ (exists resp r',
        instagramHandler toLowerCaseLatin1
          (Resolved (Some instagramMagnitudes)) (js "nike") zeroDraws
        = (Normal resp, r')
        /\ member (member (body resp) "profile") "followers" = VNum 0).
Proof.
  repeat split; try (vm_compute; reflexivity);
    eexists; eexists; (split; [vm_compute; reflexivity | reflexivity]).
Qed.

(* ================================================================== *)
(** ** Instances of the further properties *)
(* ================================================================== *)

(** The query [DRAKE ] is served the record of [drake]. *)
Lemma exact_key_is_served_for_drake :
  In (normalize toLowerCaseLatin1 (js "DRAKE ")) knownKeys
  /\ exists record name,
       ownProfile knownProfiles (normalize toLowerCaseLatin1 (js "DRAKE "))
       = Some record
       /\ spotifyHandler toLowerCaseLatin1 toUpperCaseLatin1 (js "DRAKE ")
            zeroDraws
          = (Normal (exactAnswer (normalize toLowerCaseLatin1 (js "DRAKE "))
                       record), zeroDraws)
       /\ member record "name" = VStr name
       /\ member (member (body (exactAnswer
                    (normalize toLowerCaseLatin1 (js "DRAKE ")) record))
                    "profile") "username"
          = VStr (normalize toLowerCaseLatin1 (js "DRAKE "))
       /\ member (member (body (exactAnswer
                    (normalize toLowerCaseLatin1 (js "DRAKE ")) record))
                    "profile") "name" = VStr name
       /\ member (member (body (exactAnswer
                    (normalize toLowerCaseLatin1 (js "DRAKE ")) record))
                    "profile") "simulated" = VUndefined
       /\ member (member (body (exactAnswer
                    (normalize toLowerCaseLatin1 (js "DRAKE ")) record))
                    "profile") "note" = VUndefined.
Proof.
  assert (H : In (normalize toLowerCaseLatin1 (js "DRAKE ")) knownKeys).
  { left. reflexivity. }
  split; [exact H|].
  exact (exact_key_is_served toLowerCaseLatin1 toUpperCaseLatin1
           (js "DRAKE ") zeroDraws H).
Defined.

(** The query [Constructor] finds the constructor every object inherits. *)
Lemma inherited_names_are_served_for_constructor :
  (normalize toLowerCaseLatin1 (js "Constructor") = js "constructor"
   \/ normalize toLowerCaseLatin1 (js "Constructor") = js "__proto__")
  /\ spotifyHandler toLowerCaseLatin1 toUpperCaseLatin1 (js "Constructor")
       zeroDraws
     = (Normal {| status := 200;
                  body := VObj [
                    "exists" =: VBool true;
                    "profile" =: VObj [
                      "username" =:
                        VStr (normalize toLowerCaseLatin1 (js "Constructor"));
                      "external_url" =:
                        VStr (js "https://open.spotify.com/artist/"
                              ++ normalize toLowerCaseLatin1
                                   (js "Constructor")) ] ] |}, zeroDraws).
Proof.
  assert (H : normalize toLowerCaseLatin1 (js "Constructor") = js "constructor"
              \/ normalize toLowerCaseLatin1 (js "Constructor")
                 = js "__proto__").
  { left. reflexivity. }
  split; [exact H|].
  exact (inherited_names_are_served toLowerCaseLatin1 toUpperCaseLatin1
           (js "Constructor") zeroDraws H).
Defined.

(** A server error of LinkedIn is still answered with 200. *)
Lemma only_github_answers_500_on_linkedin :
  platformOf (LinkedinRequest (js "john") (Rejected (Some 500))) <> GitHub
  /\ exists resp r',
       handle toLowerCaseLatin1 toUpperCaseLatin1 unreachedPlus
         unreachedSeconds unreachedDate
         (LinkedinRequest (js "john") (Rejected (Some 500))) zeroDraws
       = (Normal resp, r')
       /\ status resp = 200.
Proof.
  assert (H : platformOf (LinkedinRequest (js "john") (Rejected (Some 500)))
              <> GitHub) by discriminate.
  split; [exact H|].
  exact (only_github_answers_500 toLowerCaseLatin1 toUpperCaseLatin1
           unreachedPlus unreachedSeconds unreachedDate
           (LinkedinRequest (js "john") (Rejected (Some 500))) zeroDraws H).
Defined.

(** The three-letter name [joe]. *)
Lemma spaceless_names_exist_on_spotify_for_joe :
  3 <= length (js "joe") /\ ~ In 32%N (js "joe")
  /\ exists resp r',
       spotifyHandler toLowerCaseLatin1 toUpperCaseLatin1 (js "joe") zeroDraws
       = (Normal resp, r')
       /\ status resp = 200
       /\ member (body resp) "exists" = VBool true.
Proof.
  assert (H1 : 3 <= length (js "joe")) by (vm_compute; lia).
  assert (H2 : ~ In 32%N (js "joe")).
  { intros [H|[H|[H|[]]]]; discriminate. }
  split; [exact H1|]. split; [exact H2|].
  exact (spaceless_names_exist_on_spotify toLowerCaseLatin1 toUpperCaseLatin1
           (js "joe") zeroDraws H1 H2).
Defined.

(** TikTok is unreachable and the name asked for is [zachking]. *)
Lemma fallback_accepts_long_names_on_tiktok :
  liveStep toLowerCaseLatin1 unreachedPlus unreachedSeconds unreachedDate
    (TiktokRequest (js "zachking") (Rejected None))
  = Some (tiktokScrape (Rejected None) (js "zachking"),
          tiktokGuess toLowerCaseLatin1 (js "zachking"))
  /\ tiktokScrape (Rejected None) (js "zachking") zeroDraws
     = (Throw (AxiosError None), zeroDraws)
  /\ (isNotFound (AxiosError None) = false
      \/ platformOf (TiktokRequest (js "zachking") (Rejected None)) = Twitter)
  /\ 4 <= length (usernameOf (TiktokRequest (js "zachking") (Rejected None)))
  /\ exists resp r',
       handle toLowerCaseLatin1 toUpperCaseLatin1 unreachedPlus
         unreachedSeconds unreachedDate
         (TiktokRequest (js "zachking") (Rejected None)) zeroDraws
       = (Normal resp, r')
       /\ status resp = 200
       /\ member (body resp) "exists" = VBool true
       /\ member (member (body resp) "profile") "username"
          = VStr (usernameOf (TiktokRequest (js "zachking") (Rejected None)))
       /\ member (member (body resp) "profile") "simulated" = VBool true
       /\ GuessFigures unreachedDate
            (TiktokRequest (js "zachking") (Rejected None))
            (member (body resp) "profile").
Proof.
  assert (H4 : 4 <= length (usernameOf
                 (TiktokRequest (js "zachking") (Rejected None)))).
  { vm_compute. lia. }
  split; [reflexivity|]. split; [reflexivity|].
  split; [left; reflexivity|]. split; [exact H4|].
  refine (fallback_accepts_long_names
            toLowerCaseLatin1 toUpperCaseLatin1 unreachedPlus
            unreachedSeconds unreachedDate
            (TiktokRequest (js "zachking") (Rejected None))
            (tiktokScrape (Rejected None) (js "zachking"))
            (tiktokGuess toLowerCaseLatin1 (js "zachking"))
            (AxiosError None) zeroDraws zeroDraws
            eq_refl eq_refl (or_introl eq_refl) H4 _).
  intros H. discriminate H.
Defined.

(** Nitter is unreachable and the name asked for is [ab]. *)
Lemma fallback_rejects_short_names_on_twitter :
  liveStep toLowerCaseLatin1 unreachedPlus unreachedSeconds unreachedDate
    (TwitterRequest (js "ab") (Rejected None))
  = Some (twitterScrape (Rejected None) (js "ab"),
          twitterGuess toLowerCaseLatin1 (js "ab"))
  /\ twitterScrape (Rejected None) (js "ab") zeroDraws
     = (Throw (AxiosError None), zeroDraws)
  /\ length (usernameOf (TwitterRequest (js "ab") (Rejected None))) <= 3
  /\ length (toLowerCaseLatin1
               (usernameOf (TwitterRequest (js "ab") (Rejected None))))
     = length (usernameOf (TwitterRequest (js "ab") (Rejected None)))
  /\ handle toLowerCaseLatin1 toUpperCaseLatin1 unreachedPlus
       unreachedSeconds unreachedDate
       (TwitterRequest (js "ab") (Rejected None)) zeroDraws
     = (Normal implausible, zeroDraws).
Proof.
  assert (H3 : length (usernameOf (TwitterRequest (js "ab") (Rejected None)))
               <= 3).
  { vm_compute. lia. }
  split; [reflexivity|]. split; [reflexivity|].
  split; [exact H3|]. split; [reflexivity|].
  exact (fallback_rejects_short_names
           toLowerCaseLatin1 toUpperCaseLatin1 unreachedPlus
           unreachedSeconds unreachedDate
           (TwitterRequest (js "ab") (Rejected None))
           (twitterScrape (Rejected None) (js "ab"))
           (twitterGuess toLowerCaseLatin1 (js "ab"))
           (AxiosError None) zeroDraws zeroDraws
           eq_refl eq_refl (or_introl eq_refl) H3 eq_refl).
Defined.

(** A TikTok page without counts: the two figures are the next two
    draws. *)
Lemma tiktok_counts_are_never_read_on_a_plain_page :
  tiktokHandler toLowerCaseLatin1 (Resolved (Some tiktokPlain))
    (js "zachking") zeroDraws
  = (Normal (tiktokScraped (js "zachking") tiktokPlain 0 0),
     advance (advance zeroDraws))
  /\ member (member (body (tiktokScraped (js "zachking") tiktokPlain 0 0))
               "profile") "scraped" = VBool true
  /\ exists page,
       Resolved (Some tiktokPlain) = Resolved (Some page)
       /\ search (magnitudeAt (js "Followers"))
            (orEmpty (ogDescription page)) = None
       /\ search (magnitudeAt (js "Likes")) (orEmpty (ogDescription page))
          = None
       /\ tiktokScraped (js "zachking") tiktokPlain 0 0
          = tiktokScraped (js "zachking") page (draw zeroDraws 10000)
              (draw (advance zeroDraws) 50000)
       /\ (draw zeroDraws 10000 < 10000)%N
       /\ (draw (advance zeroDraws) 50000 < 50000)%N
       /\ advance (advance zeroDraws) = advance (advance zeroDraws).
Proof.
  assert (H1 : tiktokHandler toLowerCaseLatin1 (Resolved (Some tiktokPlain))
                 (js "zachking") zeroDraws
               = (Normal (tiktokScraped (js "zachking") tiktokPlain 0 0),
                  advance (advance zeroDraws))).
  { reflexivity. }
  assert (H2 : member (member (body (tiktokScraped (js "zachking")
                                       tiktokPlain 0 0)) "profile") "scraped"
               = VBool true).
  { reflexivity. }
  split; [exact H1|]. split; [exact H2|].
  exact (tiktok_counts_are_never_read toLowerCaseLatin1
           (Resolved (Some tiktokPlain)) (js "zachking") zeroDraws
           (advance (advance zeroDraws))
           (tiktokScraped (js "zachking") tiktokPlain 0 0) H1 H2).
Defined.

(** The description [12,345 Followers, ...]: 12345 followers, and the
    name [12]. *)
Lemma instagram_reads_grouped_counts_on_the_sample :
  Forall DigitGroup [js "12"; js "345"]
  /\ descriptionContent instagramSample
     = Some (join (js ",") [js "12"; js "345"] ++ js " Followers"
             ++ js ", 67 Following, 8 Posts - Nike (@nike)")
  /\ (parseDigits (concat [js "12"; js "345"]) < 2 ^ 53)%Z
  /\ parseDigits (concat [js "12"; js "345"]) = 12345%Z
  /\ exists resp,
       instagramHandler toLowerCaseLatin1 (Resolved (Some instagramSample))
         (js "nike") zeroDraws = (Normal resp, zeroDraws)
       /\ member (body resp) "exists" = VBool true
       /\ member (member (body resp) "profile") "followers"
          = VNum (parseDigits (concat [js "12"; js "345"]))
       /\ ([js "345"] <> [] ->
           member (member (body resp) "profile") "name" = VStr (js "12")).
Proof.
  assert (H1 : Forall DigitGroup [js "12"; js "345"]).
  { repeat constructor; discriminate. }
  assert (H2 : (parseDigits (concat [js "12"; js "345"]) < 2 ^ 53)%Z).
  { reflexivity. }
  split; [exact H1|]. split; [reflexivity|]. split; [exact H2|].
  split; [reflexivity|].
  exact (instagram_reads_grouped_counts toLowerCaseLatin1 instagramSample
           (js "12") [js "345"]
           (js ", 67 Following, 8 Posts - Nike (@nike)") (js "nike")
           zeroDraws H1 H2 eq_refl).
Defined.

(** One letter is missing in [adel]. *)
Lemma two_typos_find_a_known_profile_for_adel :
  In (js "adele") knownKeys
  /\ edits 1 (normalize toLowerCaseLatin1 (js "adel")) (js "adele")
  /\ 1 <= 2
  /\ exists resp,
       spotifyHandler toLowerCaseLatin1 toUpperCaseLatin1 (js "adel")
         zeroDraws = (Normal resp, zeroDraws)
       /\ status resp = 200
       /\ member (body resp) "exists" = VBool true
       /\ member (member (body resp) "profile") "simulated" = VUndefined
       /\ ((resp = exactAnswer (normalize toLowerCaseLatin1 (js "adel"))
                     (knownProfile (normalize toLowerCaseLatin1 (js "adel")))
            /\ truthy (knownProfile (normalize toLowerCaseLatin1 (js "adel")))
               = true)
           \/ exists closest record name,
                In closest knownKeys
                /\ compareDistance (normalize toLowerCaseLatin1 (js "adel"))
                     closest <= 2
                /\ ownProfile knownProfiles closest = Some record
                /\ resp = substitution (js "adel") closest record name).
Proof.
  assert (H1 : In (js "adele") knownKeys).
  { right. left. reflexivity. }
  assert (H2 : edits 1 (normalize toLowerCaseLatin1 (js "adel"))
                 (js "adele")).
  { change (normalize toLowerCaseLatin1 (js "adel"))
      with [97; 100; 101; 108]%N.
    change (js "adele") with [97; 100; 101; 108; 101]%N.
    eapply edits_step; [|apply edits_done].
    do 4 apply edit_later. apply edit_insert. }
  assert (H3 : 1 <= 2) by lia.
  split; [exact H1|]. split; [exact H2|]. split; [exact H3|].
  exact (two_typos_find_a_known_profile toLowerCaseLatin1 toUpperCaseLatin1
           (js "adel") (js "adele") 1 zeroDraws H1 H2 H3).
Defined.

(** The query [DRAKE ], with its trailing space. *)
Lemma spotify_usernames_hold_no_white_space_for_drake :
  spotifyHandler toLowerCaseLatin1 toUpperCaseLatin1 (js "DRAKE ") zeroDraws
  = (Normal (exactAnswer (js "drake") (knownProfile (js "drake"))),
     zeroDraws)
  /\ member (body (exactAnswer (js "drake") (knownProfile (js "drake"))))
       "exists" = VBool true
  /\ exists name,
       member (member (body (exactAnswer (js "drake")
                               (knownProfile (js "drake")))) "profile")
         "username" = VStr name
       /\ Forall (fun c => isWhiteSpace c = false) name
       /\ (name = normalize toLowerCaseLatin1 (js "DRAKE ")
           \/ In name knownKeys).
Proof.
  assert (H1 : spotifyHandler toLowerCaseLatin1 toUpperCaseLatin1
                 (js "DRAKE ") zeroDraws
               = (Normal (exactAnswer (js "drake")
                            (knownProfile (js "drake"))), zeroDraws)).
  { reflexivity. }
  assert (H2 : member (body (exactAnswer (js "drake")
                               (knownProfile (js "drake")))) "exists"
               = VBool true).
  { reflexivity. }
  split; [exact H1|]. split; [exact H2|].
  exact (spotify_usernames_hold_no_white_space
           toLowerCaseLatin1 toUpperCaseLatin1 (js "DRAKE ") zeroDraws
           zeroDraws _ H1 H2).
Defined.
